(** * psychopy/speech/google_speech.py: the threaded Google speech query

    A shallow embedding of [_GSQueryThread] (the query task), of the
    response parser [_unpackRaw], of the request builder
    [GoogleSpeech.__init__] and of the two entry points [getThread] and
    [getResponse], followed by the properties of the specification that
    concern them.

    Conventions of the embedding.
    - A Python object is a record; an attribute that may be unset (or hold
      [None]) is an [option].
    - Wall-clock readings ([_getTime()], a Python float) are idealised as
      exact rationals [Q]; the confidence score stays a binary64 float.
    - A text string is a [string]; a character is an [ascii] (code points
      below 256).
    - A Python dict is an association list in the dict's iteration order.
    - The worker thread and its caller share one task object.  Their
      interleaving, statement by statement, is a list of events executed
      on a [world] that holds the object, the worker's control point and
      the clock. *)

From Stdlib Require Import ZArith QArith Qminmax String Ascii List Bool Lia Lqa PeanoNat.
From Stdlib Require Import PrimFloat DecimalString.
Import ListNotations.

Set Implicit Arguments.
Set Warnings "-register-all,-inexact-float".


Close Scope Q_scope.
Local Open Scope nat_scope.
Local Open Scope bool_scope.
Local Open Scope list_scope.
Local Open Scope string_scope.

(** ** Python runtime: exceptions, strings, JSON values *)

Module Py.

(** The exception classes that occur.  In Python 2 [StandardError] is the
    base of the built-in errors; [IOError] and [OSError] derive from it
    through [EnvironmentError]; [URLError] and [HTTPError] derive from
    [IOError]; httplib's [BadStatusLine] derives from [Exception] directly,
    and [SystemExit] and [KeyboardInterrupt] from [BaseException]. *)
Inductive exn_class : Set :=
| ValueError | KeyError | TypeError | IndexError | AttributeError
| OverflowError | IOError | OSError | URLError | HTTPError
| SoundFormatNotSupported | SoundFileError
| BadStatusLine | SystemExit | KeyboardInterrupt.

Definition is_StandardError (c : exn_class) : bool :=
  match c with
  | BadStatusLine | SystemExit | KeyboardInterrupt => false
  | _ => true
  end.

Record exn : Set := Exn { exn_type : exn_class; exn_msg : string }.

(** The outcome of a Python call: a value or a raised exception. *)
Inductive result (A : Type) : Type :=
| Ok (a : A)
| Raise (e : exn).
Arguments Ok {A} a.
Arguments Raise {A} e.

Definition nl : string := String (ascii_of_nat 10) EmptyString.

Definition spaces (n : nat) : string := string_of_list_ascii (repeat " "%char n).

(** ["%-10s" % s]: left-justified in a field of at least [w] characters. *)
Definition ljust (w : nat) (s : string) : string := s ++ spaces (w - String.length s).

(** [unicode.isspace] on the code points below 256. *)
Definition isspace (c : ascii) : bool :=
  let n := nat_of_ascii c in
  (((9 <=? n) && (n <=? 13)) || ((28 <=? n) && (n <=? 32))
   || (n =? 133) || (n =? 160))%nat.

Fixpoint lstrip (s : string) : string :=
  match s with
  | String c s' => if isspace c then lstrip s' else s
  | EmptyString => EmptyString
  end.

(** [s.split(sep)] for a one-character separator. *)
Fixpoint split (sep : ascii) (s : string) : list string :=
  match s with
  | EmptyString => [EmptyString]
  | String c s' =>
      if Ascii.eqb c sep then EmptyString :: split sep s'
      else match split sep s' with
           | p :: ps => String c p :: ps
           | [] => [String c EmptyString]
           end
  end.

Definition startswith (s p : string) : bool := String.prefix p s.

Fixpoint endswith_char (s : string) (c : ascii) : bool :=
  match s with
  | EmptyString => false
  | String a EmptyString => Ascii.eqb a c
  | String _ s' => endswith_char s' c
  end.

Fixpoint lstrip_char (c : ascii) (s : string) : string :=
  match s with
  | String a s' => if Ascii.eqb a c then lstrip_char c s' else s
  | EmptyString => EmptyString
  end.

Definition rev_string (s : string) : string :=
  string_of_list_ascii (rev (list_ascii_of_string s)).

(** [s.strip(c)] for a one-character argument. *)
Definition strip_char (c : ascii) (s : string) : string :=
  rev_string (lstrip_char c (rev_string (lstrip_char c s))).

(** ["sep".join(l)] *)
Definition join (sep : string) (l : list string) : string := String.concat sep l.

(** ["%d" % n] *)
Definition fmt_d (n : Z) : string := NilZero.string_of_int (Z.to_int n).

(** What [json.load] returns.  A dict is kept in its iteration order. *)
Inductive jvalue : Set :=
| JNull
| JBool (b : bool)
| JInt (n : Z)
| JFloat (f : float)
| JStr (s : string)
| JList (l : list jvalue)
| JDict (d : list (string * jvalue)).

Fixpoint assoc (k : string) (d : list (string * jvalue)) : option jvalue :=
  match d with
  | [] => None
  | (k', v) :: d' => if String.eqb k k' then Some v else assoc k d'
  end.

Definition keys (d : list (string * jvalue)) : list string := map fst d.

(** [l[i]] for a list, negative indices counting from the end. *)
Definition index {A} (l : list A) (i : Z) : option A :=
  let n := Z.of_nat (List.length l) in
  if (0 <=? i)%Z then nth_error l (Z.to_nat i)
  else if (0 <=? n + i)%Z then nth_error l (Z.to_nat (n + i))
  else None.

Definition chars (s : string) : list jvalue :=
  map (fun c => JStr (String c EmptyString)) (list_ascii_of_string s).

(** [for x in v]: the elements that the loop visits, or the [TypeError] of
    a value that is not iterable. *)
Definition iter (v : jvalue) : result (list jvalue) :=
  match v with
  | JList l => Ok l
  | JDict d => Ok (map JStr (keys d))
  | JStr s => Ok (chars s)
  | _ => Raise (Exn TypeError "object is not iterable")
  end.

Definition int_index (k : jvalue) : option Z :=
  match k with
  | JInt i => Some i
  | JBool b => Some (if b then 1 else 0)%Z
  | _ => None
  end.

(** [u[k]] *)
Definition getitem (u k : jvalue) : result jvalue :=
  match u with
  | JDict d =>
      match k with
      | JStr s => match assoc s d with
                  | Some v => Ok v
                  | None => Raise (Exn KeyError s)
                  end
      | JList _ | JDict _ => Raise (Exn TypeError "unhashable type")
      | _ => Raise (Exn KeyError "")
      end
  | JList l =>
      match int_index k with
      | Some i => match index l i with
                  | Some v => Ok v
                  | None => Raise (Exn IndexError "list index out of range")
                  end
      | None => Raise (Exn TypeError "list indices must be integers")
      end
  | JStr s =>
      match int_index k with
      | Some i => match index (chars s) i with
                  | Some v => Ok v
                  | None => Raise (Exn IndexError "string index out of range")
                  end
      | None => Raise (Exn TypeError "string indices must be integers")
      end
  | _ => Raise (Exn TypeError "object is not subscriptable")
  end.

(** The parts of the runtime that are taken as given: how a float and a
    container print, and how an integer and a string convert to a float. *)
Record runtime : Type := Runtime {
  str_float : float -> string;
  repr : jvalue -> string;
  float_of_int : Z -> option float;
  float_of_string : string -> option float
}.

Section WithRuntime.
Variable rt : runtime.

(** ["%s" % v]: a text value is inserted as it is, any other value by its
    [str]. *)
Definition fmt_s (v : jvalue) : string :=
  match v with
  | JStr s => s
  | JNull => "None"
  | JBool true => "True"
  | JBool false => "False"
  | JInt n => fmt_d n
  | JFloat f => str_float rt f
  | JList _ | JDict _ => repr rt v
  end.

(** [float(v)] *)
Definition to_float (v : jvalue) : result float :=
  match v with
  | JFloat f => Ok f
  | JBool true => Ok one
  | JBool false => Ok zero
  | JInt n => match float_of_int rt n with
              | Some f => Ok f
              | None => Raise (Exn OverflowError "long int too large to convert to float")
              end
  | JStr s => match float_of_string rt s with
              | Some f => Ok f
              | None => Raise (Exn ValueError "could not convert string to float")
              end
  | _ => Raise (Exn TypeError "float() argument must be a string or a number")
  end.

End WithRuntime.

End Py.

(** ** urllib2: requests, responses, the outcome of [urlopen] *)

(** The arguments of a call [urllib2.Request(url, data, headers)]: the
    request as it was asked for.  What the library makes of it is left
    out. *)
Record Request : Set := MkRequest {
  url : string;
  data : string;
  headers : list (string * string)
}.

(** The response object that [urlopen] returns.  [decoded] is what
    [json.load] makes of its body: [None] when the body is not a JSON
    document. *)
Record http_response : Set := HTTPResponse { decoded : option Py.jvalue }.

(** One call of [urllib2.urlopen]: it returns a response or raises. *)
Inductive urlopen_outcome : Set :=
| Returns (r : http_response)
| Raises (ex : Py.exn).

(** ** The query task: class [_GSQueryThread] *)

Record task : Type := Task {
  request : Request;
  t0 : option Q;
  response : option http_response;
  duration : option Q;
  stopflag : bool;
  running : bool;
  timedout : bool;
  started : bool;
  confidence : option float;
  json : option Py.jvalue;
  raw : option http_response;
  word : string;
  detailed : string;
  words : list string;
  status : option Py.jvalue;
  conf : option float;
  file : option string
}.

Definition set_t0 (x : option Q) (t : task) : task :=
  {| request := request t; t0 := x; response := response t; duration :=
     duration t; stopflag := stopflag t; running := running t; timedout :=
     timedout t; started := started t; confidence := confidence t; json :=
     json t; raw := raw t; word := word t; detailed := detailed t; words :=
     words t; status := status t; conf := conf t; file := file t |}.

Definition set_duration (x : option Q) (t : task) : task :=
  {| request := request t; t0 := t0 t; response := response t; duration := x;
     stopflag := stopflag t; running := running t; timedout := timedout t;
     started := started t; confidence := confidence t; json := json t; raw :=
     raw t; word := word t; detailed := detailed t; words := words t; status
     := status t; conf := conf t; file := file t |}.

Definition set_running (x : bool) (t : task) : task :=
  {| request := request t; t0 := t0 t; response := response t; duration :=
     duration t; stopflag := stopflag t; running := x; timedout := timedout t;
     started := started t; confidence := confidence t; json := json t; raw :=
     raw t; word := word t; detailed := detailed t; words := words t; status
     := status t; conf := conf t; file := file t |}.

Definition set_timedout (x : bool) (t : task) : task :=
  {| request := request t; t0 := t0 t; response := response t; duration :=
     duration t; stopflag := stopflag t; running := running t; timedout := x;
     started := started t; confidence := confidence t; json := json t; raw :=
     raw t; word := word t; detailed := detailed t; words := words t; status
     := status t; conf := conf t; file := file t |}.

Definition set_started (x : bool) (t : task) : task :=
  {| request := request t; t0 := t0 t; response := response t; duration :=
     duration t; stopflag := stopflag t; running := running t; timedout :=
     timedout t; started := x; confidence := confidence t; json := json t; raw
     := raw t; word := word t; detailed := detailed t; words := words t;
     status := status t; conf := conf t; file := file t |}.

Definition set_confidence (x : option float) (t : task) : task :=
  {| request := request t; t0 := t0 t; response := response t; duration :=
     duration t; stopflag := stopflag t; running := running t; timedout :=
     timedout t; started := started t; confidence := x; json := json t; raw :=
     raw t; word := word t; detailed := detailed t; words := words t; status
     := status t; conf := conf t; file := file t |}.

Definition set_json (x : option Py.jvalue) (t : task) : task :=
  {| request := request t; t0 := t0 t; response := response t; duration :=
     duration t; stopflag := stopflag t; running := running t; timedout :=
     timedout t; started := started t; confidence := confidence t; json := x;
     raw := raw t; word := word t; detailed := detailed t; words := words t;
     status := status t; conf := conf t; file := file t |}.

Definition set_raw (x : option http_response) (t : task) : task :=
  {| request := request t; t0 := t0 t; response := response t; duration :=
     duration t; stopflag := stopflag t; running := running t; timedout :=
     timedout t; started := started t; confidence := confidence t; json :=
     json t; raw := x; word := word t; detailed := detailed t; words := words
     t; status := status t; conf := conf t; file := file t |}.

Definition set_word (x : string) (t : task) : task :=
  {| request := request t; t0 := t0 t; response := response t; duration :=
     duration t; stopflag := stopflag t; running := running t; timedout :=
     timedout t; started := started t; confidence := confidence t; json :=
     json t; raw := raw t; word := x; detailed := detailed t; words := words
     t; status := status t; conf := conf t; file := file t |}.

Definition set_detailed (x : string) (t : task) : task :=
  {| request := request t; t0 := t0 t; response := response t; duration :=
     duration t; stopflag := stopflag t; running := running t; timedout :=
     timedout t; started := started t; confidence := confidence t; json :=
     json t; raw := raw t; word := word t; detailed := x; words := words t;
     status := status t; conf := conf t; file := file t |}.

Definition set_words (x : list string) (t : task) : task :=
  {| request := request t; t0 := t0 t; response := response t; duration :=
     duration t; stopflag := stopflag t; running := running t; timedout :=
     timedout t; started := started t; confidence := confidence t; json :=
     json t; raw := raw t; word := word t; detailed := detailed t; words := x;
     status := status t; conf := conf t; file := file t |}.

Definition set_status (x : option Py.jvalue) (t : task) : task :=
  {| request := request t; t0 := t0 t; response := response t; duration :=
     duration t; stopflag := stopflag t; running := running t; timedout :=
     timedout t; started := started t; confidence := confidence t; json :=
     json t; raw := raw t; word := word t; detailed := detailed t; words :=
     words t; status := x; conf := conf t; file := file t |}.

Definition set_conf (x : option float) (t : task) : task :=
  {| request := request t; t0 := t0 t; response := response t; duration :=
     duration t; stopflag := stopflag t; running := running t; timedout :=
     timedout t; started := started t; confidence := confidence t; json :=
     json t; raw := raw t; word := word t; detailed := detailed t; words :=
     words t; status := status t; conf := x; file := file t |}.

Definition set_file (x : option string) (t : task) : task :=
  {| request := request t; t0 := t0 t; response := response t; duration :=
     duration t; stopflag := stopflag t; running := running t; timedout :=
     timedout t; started := started t; confidence := confidence t; json :=
     json t; raw := raw t; word := word t; detailed := detailed t; words :=
     words t; status := status t; conf := conf t; file := x |}.

(** [_reset]: the fields that are exposed, at their defaults. *)
Definition _reset (t : task) : task :=
  set_words [] (set_detailed "" (set_word "" (set_raw None (set_json None
    (set_confidence None (set_started false t)))))).

(** [_GSQueryThread.__init__(request)].  The attributes [status] and [conf]
    are not created here: they stay unset until something assigns them. *)
Definition GSQueryThread_init (req : Request) : task :=
  _reset {| request := req; t0 := None; response := None; duration := None;
            stopflag := false; running := false; timedout := false;
            started := false; confidence := None; json := None; raw := None;
            word := ""; detailed := ""; words := []; status := None;
            conf := None; file := None |}.

(** [elapsed()], given the reading [now] of [_getTime()].  [None - t0]
    cannot occur: [t0] is set before [started]. *)
Definition elapsed (now : Q) (t : task) : option Q :=
  if negb (started t) then None
  else if running t then
    match t0 t with
    | Some start => Some (now - start)%Q
    | None => None
    end
  else duration t.

(** [stop()] *)
Definition stop (t : task) : task := set_running false t.

(** *** Methods that mutate the task and may raise: a state and error monad *)

Definition M (A : Type) : Type := task -> Py.result A * task.

Definition ret {A} (a : A) : M A := fun t => (Py.Ok a, t).

Definition bind {A B} (c : M A) (k : A -> M B) : M B :=
  fun t => match c t with
           | (Py.Ok a, t') => k a t'
           | (Py.Raise e, t') => (Py.Raise e, t')
           end.

Definition lift {A} (r : Py.result A) : M A := fun t => (r, t).

Definition get : M task := fun t => (Py.Ok t, t).

Definition modify (f : task -> task) : M unit := fun t => (Py.Ok tt, f t).

Declare Scope monad_scope.
Delimit Scope monad_scope with M.
Notation "x <- c ;; k" := (bind c (fun x => k))
  (at level 100, c at next level, right associativity) : monad_scope.
Notation "c ;; k" := (bind c (fun _ => k))
  (at level 100, right associativity) : monad_scope.

(** A [for] loop over [l] that threads the local variable [acc]. *)
Fixpoint foldM {A B} (body : B -> A -> M B) (acc : B) (l : list A) : M B :=
  match l with
  | [] => ret acc
  | x :: l' => bind (body acc x) (fun acc' => foldM body acc' l')
  end.

Section Parser.
Variable rt : Py.runtime.

(** [json.load(self.raw)]; before a response is stored [raw] is the empty
    string, which has no [read]. *)
Definition json_load (r : option http_response) : Py.result Py.jvalue :=
  match r with
  | None => Py.Raise (Py.Exn Py.AttributeError "'str' object has no attribute 'read'")
  | Some resp =>
      match decoded resp with
      | Some j => Py.Ok j
      | None => Py.Raise (Py.Exn Py.ValueError "No JSON object could be decoded")
      end
  end.

(** ["%-10s : %s" % (k, v)] *)
Definition report_line (k v : Py.jvalue) : string :=
  Py.ljust 10 (Py.fmt_s rt k) ++ " : " ++ Py.fmt_s rt v.

Definition is_key (name : string) (k : Py.jvalue) : bool :=
  match k with
  | Py.JStr s => String.eqb s name
  | _ => false
  end.

(** [line.split(':')[1].lstrip()] *)
Definition word_of_line (line : string) : Py.result string :=
  match nth_error (Py.split ":"%char line) 1 with
  | Some piece => Py.Ok (Py.lstrip piece)
  | None => Py.Raise (Py.Exn Py.IndexError "list index out of range")
  end.

(** The list comprehension of [_unpackRaw]. *)
Fixpoint words_of_report (report : list string) : Py.result (list string) :=
  match report with
  | [] => Py.Ok []
  | line :: rest =>
      if Py.startswith line "utterance" then
        match word_of_line line with
        | Py.Ok w => match words_of_report rest with
                     | Py.Ok ws => Py.Ok (w :: ws)
                     | Py.Raise e => Py.Raise e
                     end
        | Py.Raise e => Py.Raise e
        end
      else words_of_report rest
  end.

(** The inner loop body: one field of one hypothesis. *)
Definition unpack_field (utter_list : Py.jvalue) (report : list string)
    (k : Py.jvalue) : M (list string) :=
  (v <- lift (Py.getitem utter_list k) ;;
   let report := (report ++ [report_line k v])%list in
   if is_key "confidence" k then
     (f <- lift (Py.to_float rt v) ;;
      modify (fun t => set_conf (Some f) (set_confidence (Some f) t)) ;;
      ret report)
   else ret report)%M.

(** The outer loop body: one hypothesis. *)
Definition unpack_hypothesis (report : list string) (utter_list : Py.jvalue)
    : M (list string) :=
  (ks <- lift (Py.iter utter_list) ;;
   foldM (unpack_field utter_list) report ks)%M.

(** The second loop body: one top-level field. *)
Definition unpack_top (j : Py.jvalue) (report : list string) (key : Py.jvalue)
    : M (list string) :=
  (if negb (is_key "hypotheses" key) then
     (v <- lift (Py.getitem j key) ;;
      ret (report ++ [report_line key v])%list)
   else ret report)%M.

(** [_unpackRaw()] *)
Definition _unpackRaw : M unit :=
  (t <- get ;;
   j <- lift (json_load (raw t)) ;;
   modify (set_json (Some j)) ;;
   st <- lift (Py.getitem j (Py.JStr "status")) ;;
   modify (set_status (Some st)) ;;
   hyps <- lift (Py.getitem j (Py.JStr "hypotheses")) ;;
   hl <- lift (Py.iter hyps) ;;
   report <- foldM unpack_hypothesis [] hl ;;
   top <- lift (Py.iter j) ;;
   report <- foldM (unpack_top j) report top ;;
   modify (set_detailed (Py.join Py.nl report)) ;;
   ws <- lift (words_of_report report) ;;
   modify (set_words ws) ;;
   modify (set_word (match ws with w :: _ => w | [] => "" end)))%M.

End Parser.


(** ** The worker thread and its caller

    [run()] executes on a thread of its own while the caller holds the same
    task object, and the two interleave between statements.  The worker's
    control point names the statement of [run()], or of [_unpackRaw] which
    [run()] calls, that the worker executes next; one step of the worker
    executes that one statement.  A statement that touches local variables
    only is taken together with the statement that follows it.  A call of
    [urlopen] is pending for as long as the outside world likes. *)

(** Where the worker is inside [_unpackRaw], with the local variables that
    the rest of the method needs. *)
Inductive unpacking : Set :=
| AtLoad          (* self.json = json.load(self.raw) *)
| AtStatus        (* self.status = self.json['status'] *)
| AtHypotheses    (* report = []; for utter_list in self.json["hypotheses"]: *)
| AtOuter (hl : list Py.jvalue) (report : list string)
                  (* the outer loop takes its next hypothesis: for k in utter_list: *)
| AtInner (utter_list : Py.jvalue) (ks hl : list Py.jvalue) (report : list string)
                  (* the inner loop takes its next key and runs its body *)
| AtTop (report : list string)
                  (* the second loop, and self.detailed = '\n'.join(report) *)
| AtWords (report : list string)
                  (* self.words = tuple([...]) *)
| AtWord.         (* if len(self.words): self.word = ... else: self.word = '' *)

(** Where the worker is in [run()]: the statement that it executes next. *)
Inductive control : Set :=
| NotStarted             (* self.t0 = _getTime() *)
| Begun1                 (* self.running = True *)
| Begun2                 (* self.started = True *)
| Begun3                 (* self.duration = 0, and into the first urlopen *)
| FirstCall              (* blocked in the first urlopen *)
| Retry                  (* blocked in the second urlopen *)
| Caught (ex : Py.exn)   (* _message(str(ex)) *)
| Messaged (ex : Py.exn) (* _warn(str(ex)) *)
| Warned                 (* self.running = False *)
| Returned               (* the try statement is over: self.duration = _getTime() - self.t0 *)
| Timed                  (* if self.running: *)
| Unpacking (u : unpacking)   (* inside self._unpackRaw() *)
| Unpacked               (* self.running = False *)
| Cleared                (* self.timedout = False *)
| Lapsed                 (* else: self.timedout = True *)
| Finished               (* run() returned *)
| Died (ex : Py.exn).    (* an exception left run() *)

Record world : Type := World {
  thread : task;              (* the shared _GSQueryThread object *)
  ctl : control;              (* where the worker is *)
  clock : Q;                  (* what _getTime() returns now *)
  quiet : bool;               (* gsOptions.quiet *)
  stdout : list string;       (* what was printed *)
  warnings : list string;     (* what went to logging.warn *)
  urlopen_calls : nat         (* calls of urllib2.urlopen so far *)
}.

Definition with_thread (t : task) (w : world) : world :=
  {| thread := t; ctl := ctl w; clock := clock w; quiet := quiet w;
     stdout := stdout w; warnings := warnings w;
     urlopen_calls := urlopen_calls w |}.

Definition with_ctl (c : control) (w : world) : world :=
  {| thread := thread w; ctl := c; clock := clock w; quiet := quiet w;
     stdout := stdout w; warnings := warnings w;
     urlopen_calls := urlopen_calls w |}.

Definition with_clock (q : Q) (w : world) : world :=
  {| thread := thread w; ctl := ctl w; clock := q; quiet := quiet w;
     stdout := stdout w; warnings := warnings w;
     urlopen_calls := urlopen_calls w |}.

Definition call_urlopen (w : world) : world :=
  {| thread := thread w; ctl := ctl w; clock := clock w; quiet := quiet w;
     stdout := stdout w; warnings := warnings w;
     urlopen_calls := S (urlopen_calls w) |}.

(** [_message(msg)]: printed unless [gsOptions.quiet]; a message that ends
    in a comma is printed without its commas. *)
Definition _message (msg : string) (w : world) : world :=
  if quiet w then w
  else
    let shown := if Py.endswith_char msg ","%char
                 then Py.strip_char ","%char msg else msg in
    {| thread := thread w; ctl := ctl w; clock := clock w; quiet := quiet w;
       stdout := stdout w ++ [shown]; warnings := warnings w;
       urlopen_calls := urlopen_calls w |}.

(** [_warn(msg)]; [haveLogging] holds once the module is imported. *)
Definition _warn (msg : string) (w : world) : world :=
  {| thread := thread w; ctl := ctl w; clock := clock w; quiet := quiet w;
     stdout := stdout w; warnings := warnings w ++ [msg];
     urlopen_calls := urlopen_calls w |}.

(** A fresh task in a fresh world. *)
Definition new_world (req : Request) (q : bool) (now : Q) : world :=
  {| thread := GSQueryThread_init req; ctl := NotStarted; clock := now;
     quiet := q; stdout := []; warnings := []; urlopen_calls := 0 |}.

Section Run.
Variable rt : Py.runtime.

(** [self.json], read back from the object. *)
Definition the_json (t : task) : Py.result Py.jvalue :=
  match json t with
  | Some j => Py.Ok j
  | None => Py.Raise (Py.Exn Py.TypeError "'NoneType' object has no attribute '__getitem__'")
  end.

(** One statement of [_unpackRaw]: what it does to the task, and where
    the worker is afterwards ([None]: the method returned). *)
Definition unpack_step (u : unpacking) : M (option unpacking) :=
  match u with
  | AtLoad =>
      (t <- get ;;
       j <- lift (json_load (raw t)) ;;
       modify (set_json (Some j)) ;;
       ret (Some AtStatus))%M
  | AtStatus =>
      (t <- get ;;
       j <- lift (the_json t) ;;
       st <- lift (Py.getitem j (Py.JStr "status")) ;;
       modify (set_status (Some st)) ;;
       ret (Some AtHypotheses))%M
  | AtHypotheses =>
      (t <- get ;;
       j <- lift (the_json t) ;;
       hyps <- lift (Py.getitem j (Py.JStr "hypotheses")) ;;
       hl <- lift (Py.iter hyps) ;;
       ret (Some (AtOuter hl [])))%M
  | AtOuter hl report =>
      match hl with
      | [] => ret (Some (AtTop report))
      | utter_list :: hl' =>
          (ks <- lift (Py.iter utter_list) ;;
           ret (Some (AtInner utter_list ks hl' report)))%M
      end
  | AtInner utter_list ks hl report =>
      match ks with
      | [] => ret (Some (AtOuter hl report))
      | k :: ks' =>
          (report <- unpack_field rt utter_list report k ;;
           ret (Some (AtInner utter_list ks' hl report)))%M
      end
  | AtTop report =>
      (t <- get ;;
       j <- lift (the_json t) ;;
       top <- lift (Py.iter j) ;;
       report <- foldM (unpack_top rt j) report top ;;
       modify (set_detailed (Py.join Py.nl report)) ;;
       ret (Some (AtWords report)))%M
  | AtWords report =>
      (ws <- lift (words_of_report report) ;;
       modify (set_words ws) ;;
       ret (Some AtWord))%M
  | AtWord =>
      (t <- get ;;
       modify (set_word (match words t with w :: _ => w | [] => "" end)) ;;
       ret None)%M
  end.

(** One statement of the worker.  At a pending [urlopen] and after the
    end of [run()] the worker has no statement to execute. *)
Definition worker_step (w : world) : world :=
  let t := thread w in
  match ctl w with
  | NotStarted => with_ctl Begun1 (with_thread (set_t0 (Some (clock w)) t) w)
  | Begun1 => with_ctl Begun2 (with_thread (set_running true t) w)
  | Begun2 => with_ctl Begun3 (with_thread (set_started true t) w)
  | Begun3 =>
      call_urlopen (with_ctl FirstCall (with_thread (set_duration (Some 0%Q) t) w))
  | FirstCall | Retry => w
  | Caught ex => with_ctl (Messaged ex) (_message (Py.exn_msg ex) w)
  | Messaged ex => with_ctl Warned (_warn (Py.exn_msg ex) w)
  | Warned => with_ctl Returned (with_thread (set_running false t) w)
  | Returned =>
      match t0 t with
      | Some start =>
          with_ctl Timed (with_thread (set_duration (Some (clock w - start)%Q) t) w)
      | None =>
          with_ctl (Died (Py.Exn Py.TypeError "unsupported operand type(s) for -")) w
      end
  | Timed => if running t then with_ctl (Unpacking AtLoad) w else with_ctl Lapsed w
  | Unpacking u =>
      match unpack_step u t with
      | (Py.Ok (Some u'), t') => with_ctl (Unpacking u') (with_thread t' w)
      | (Py.Ok None, t') => with_ctl Unpacked (with_thread t' w)
      | (Py.Raise e, t') => with_ctl (Died e) (with_thread t' w)
      end
  | Unpacked => with_ctl Cleared (with_thread (set_running false t) w)
  | Cleared => with_ctl Finished (with_thread (set_timedout false t) w)
  | Lapsed => with_ctl Finished (with_thread (set_timedout true t) w)
  | Finished | Died _ => w
  end.

(** The first [urlopen] is over.  The bare [except:] catches whatever it
    raised and calls [urlopen] again. *)
Definition run_first_outcome (o : urlopen_outcome) (w : world) : world :=
  match o with
  | Returns r => with_ctl Returned (with_thread (set_raw (Some r) (thread w)) w)
  | Raises _ => call_urlopen (with_ctl Retry w)
  end.

(** The second [urlopen] is over.  [except StandardError as ex] catches a
    [StandardError] only; any other exception leaves [run()]. *)
Definition run_retry_outcome (o : urlopen_outcome) (w : world) : world :=
  match o with
  | Returns r => with_ctl Returned (with_thread (set_raw (Some r) (thread w)) w)
  | Raises ex =>
      if Py.is_StandardError (Py.exn_type ex) then with_ctl (Caught ex) w
      else with_ctl (Died ex) w
  end.

(** What can happen to a world. *)
Inductive event : Set :=
| WorkerSteps                         (* the worker executes its next statement *)
| UrlopenEnds (o : urlopen_outcome)   (* the pending urlopen returns or raises *)
| CallerStops                         (* the caller calls stop() *)
| TimePasses (dt : Q).                (* the clock moves by dt *)

(** One event.  An event that the worker's control point does not allow
    leaves the world as it is. *)
Definition step (w : world) (e : event) : world :=
  match e with
  | WorkerSteps => worker_step w
  | UrlopenEnds o =>
      match ctl w with
      | FirstCall => run_first_outcome o w
      | Retry => run_retry_outcome o w
      | _ => w
      end
  | CallerStops => with_thread (stop (thread w)) w
  | TimePasses dt => with_clock (clock w + dt)%Q w
  end.

Definition exec (evs : list event) (w : world) : world := fold_left step evs w.

(** [n] statements of the worker in a row. *)
Definition work (n : nat) : list event := repeat WorkerSteps n.

(** The worlds that a fresh task can get into. *)
Definition reachable (w : world) : Prop :=
  exists req q now evs, w = exec evs (new_world req q now).

(** Events of the caller's side only: [stop()] and the passing of time. *)
Definition outside (e : event) : bool :=
  match e with
  | CallerStops | TimePasses _ => true
  | _ => false
  end.

(** The clock never runs backwards during these events. *)
Definition forward (e : event) : Prop :=
  match e with
  | TimePasses dt => (0 <= dt)%Q
  | _ => True
  end.

(** *** The entry points [getThread] and [getResponse]

    While the caller sleeps the rest of the world moves on: [sched] lists,
    sleep after sleep, the events that fall into it.  A loop that is still
    polling when the list is used up has no result. *)

(** [elapsed() < timeout], as Python 2 orders [None] below every number. *)
Definition lt_timeout (e : option Q) (timeout : Q) : bool :=
  match e with
  | None => true
  | Some d => negb (Qle_bool timeout d)
  end.

(** [while not gsqthread.running: _wait(0.001)] *)
Fixpoint wait_running (sched : list (list event)) (w : world)
    : option (world * list (list event)) :=
  if running (thread w) then Some (w, sched)
  else match sched with
       | [] => None
       | evs :: rest => wait_running rest (exec evs w)
       end.

(** The polling loop of [getResponse]. *)
Fixpoint poll (timeout : Q) (sched : list (list event)) (w : world)
    : option (world * list (list event)) :=
  if lt_timeout (elapsed (clock w) (thread w)) timeout then
    match sched with
    | [] => None
    | evs :: rest =>
        let w' := exec evs w in                     (* time.sleep(0.1) *)
        if negb (running (thread w')) then Some (w', rest)
        else poll timeout rest w'
    end
  else Some (w, sched).

(** [gsqthread.status = 408] *)
Definition stamp_408 (w : world) : world :=
  with_thread (set_status (Some (Py.JInt 408)) (thread w)) w.

End Run.
(** ** Options: [gsOptions] and [_parse_options] *)

Module Opt.

Record options : Set := Options {
  lang : string;
  samplingrate : Z;
  timeout : Q;
  flac : string;
  pro_filter : Z;
  quiet : bool;
  results : option Z        (* set by GoogleSpeech.__init__ *)
}.

(** What [parser.parse_args()] yields when no flag is given. *)
Definition defaults : options :=
  {| lang := "en-US"; samplingrate := 16000; timeout := 10#1;
     flac := "C:\Program Files\FLAC\flac.exe"; pro_filter := 2;
     quiet := true; results := None |}.

Definition set_samplingrate (r : Z) (o : options) : options :=
  {| lang := lang o; samplingrate := r; timeout := timeout o; flac := flac o;
     pro_filter := pro_filter o; quiet := quiet o; results := results o |}.

Definition set_timeout (x : Q) (o : options) : options :=
  {| lang := lang o; samplingrate := samplingrate o; timeout := x;
     flac := flac o; pro_filter := pro_filter o; quiet := quiet o;
     results := results o |}.

Definition set_results (n : Z) (o : options) : options :=
  {| lang := lang o; samplingrate := samplingrate o; timeout := timeout o;
     flac := flac o; pro_filter := pro_filter o; quiet := quiet o;
     results := Some n |}.

(** [x in l] for integers *)
Definition mem (x : Z) (l : list Z) : bool := existsb (Z.eqb x) l.

(** [min(x, 30)] *)
Definition min30 (x : Q) : Q := if Qle_bool x (30#1) then x else (30#1)%Q.

(** [_parse_options()], applied to what [parser.parse_args()] yields for
    the command line. *)
Definition _parse_options (opt : options) : options :=
  let opt := if negb (mem (samplingrate opt) [16000; 8000]%Z)
             then set_samplingrate 16000 opt else opt in
  set_timeout (min30 (timeout opt)) opt.

End Opt.

(** ** The request builder: [GoogleSpeech.__init__] *)

Module Builder.

(** What the builder does to the outside world, in order. *)
Inductive action : Set :=
| IsFile (path : string)             (* os.path.isfile *)
| ShellCall (cmd : list string)      (* _shellCall: the encoder runs *)
| Sleep                              (* time.sleep(.1) *)
| ReadFile (path : string)           (* open(path, 'r+b').read() *)
| Remove (path : string)             (* os.remove *)
| NewRequest.                        (* urllib2.Request(...) *)

(** The platform under the builder, over states [S] of its own: every
    call moves the platform on.  [shellCall] is [_shellCall]: it answers
    with what the command wrote, or raises the [OSError] of a command that
    [subprocess.Popen] cannot start. *)
Record platform (S : Type) : Type := Platform {
  splitext : string -> string * string;               (* os.path.splitext *)
  FLAC_PATH : string;
  isfile : string -> S -> bool * S;
  shellCall : list string -> S -> Py.result (string * string) * S;
                                                      (* stdout, stderr *)
  sleep : S -> S;
  time_stamp : S -> string * S;                       (* '%.6f' % time.time() *)
  read : string -> S -> option string * S;            (* None: it raised *)
  remove : string -> S -> S
}.

(** The builder's view of the world: the platform's state, what was done
    to it so far, and the two output channels. *)
Record io (S : Type) : Type := IO {
  os_state : S;
  trace : list action;
  printed : list string;
  warned : list string
}.

Record GoogleSpeech : Set := MkGoogleSpeech {
  timeout : Q;
  file : string;
  request : Request
}.

Section WithPlatform.
Variable S : Type.
Variable pf : platform S.
Variable quiet : bool.       (* gsOptions.quiet *)

Definition act (a : action) (s' : S) (st : io S) : io S :=
  {| os_state := s'; trace := trace st ++ [a]; printed := printed st;
     warned := warned st |}.

Definition do_isfile (path : string) (st : io S) : bool * io S :=
  let (b, s') := isfile pf path (os_state st) in (b, act (IsFile path) s' st).

Definition do_shellCall (cmd : list string) (st : io S)
    : Py.result (string * string) * io S :=
  let (r, s') := shellCall pf cmd (os_state st) in (r, act (ShellCall cmd) s' st).

Definition do_sleep (st : io S) : io S := act Sleep (sleep pf (os_state st)) st.

Definition do_read (path : string) (st : io S) : option string * io S :=
  let (r, s') := read pf path (os_state st) in (r, act (ReadFile path) s' st).

Definition do_remove (path : string) (st : io S) : io S :=
  act (Remove path) (remove pf path (os_state st)) st.

Definition message (msg : string) (st : io S) : io S :=
  if quiet then st
  else
    let shown := if Py.endswith_char msg ","%char
                 then Py.strip_char ","%char msg else msg in
    {| os_state := os_state st; trace := trace st;
       printed := printed st ++ [shown]; warned := warned st |}.

Definition warn (msg : string) (st : io S) : io S :=
  {| os_state := os_state st; trace := trace st; printed := printed st;
     warned := warned st ++ [msg] |}.

(** [_, se = _shellCall(flac_cmd); if se: _message(se)] *)
Definition encode (flac_cmd : list string) (st : io S) : Py.result unit * io S :=
  let (r, st) := do_shellCall flac_cmd st in
  match r with
  | Py.Raise e => (Py.Raise e, st)
  | Py.Ok (_, se) => (Py.Ok tt, if String.eqb se "" then st else message se st)
  end.

(** [while not os.path.isfile(tmp): ...]: the encoder runs again after
    every look that does not find its output.  The source gives the loop
    no counter; [fuel] bounds the looks of the model, and [None] stands
    for a loop that is still going when the fuel is used up. *)
Fixpoint encode_again (fuel : nat) (tmp : string) (flac_cmd : list string)
    (st : io S) : option (Py.result unit * io S) :=
  match fuel with
  | O => None
  | Datatypes.S fuel' =>
      let (found, st) := do_isfile tmp st in
      if found then Some (Py.Ok tt, st)
      else
        let st := message "Failed to convert to tmp.flac; trying again" st in
        match encode flac_cmd st with
        | (Py.Ok _, st) => encode_again fuel' tmp flac_cmd st
        | (Py.Raise e, st) => Some (Py.Raise e, st)
        end
  end.

(** [c = 0; while not os.path.isfile(file) and c < 10: time.sleep(.1); c += 1],
    with [left] sleeps still allowed. *)
Fixpoint await_file (left : nat) (path : string) (st : io S) : io S :=
  let (found, st) := do_isfile path st in
  if found then st
  else match left with
       | O => st
       | Datatypes.S left' => await_file left' path (do_sleep st)
       end.

Definition useragent : string :=
  "PsychoPy: open-source Psychology & Neuroscience tools; www.psychopy.org".

Definition host : string := "www.google.com/speech-api/v1/recognize".

Definition supported : list string := [".flac"; ".spx"; ".wav"].

Definition mem_str (x : string) (l : list string) : bool := existsb (String.eqb x) l.

(** The [try ... except ... finally] around the read, and the request.
    [tmp] is [Some] only on the wav path: elsewhere the name is unbound,
    and [os.remove(tmp)] raises a [NameError] that is passed over. *)
Definition load_and_build (opt : Opt.options) (orig path filetype : string)
    (tmp : option string) (st : io S) : Py.result GoogleSpeech * io S :=
  let st := message ("Loading: " ++ orig ++ " as " ++ Opt.lang opt
                     ++ ", audio/" ++ filetype) st in
  let st := await_file 10 path st in
  let (audio, st) := do_read path st in
  let cleanup st := match tmp with
                    | Some t => do_remove t st
                    | None => st
                    end in
  match audio with
  | None =>
      let msg := "Can't read file " ++ path ++ " from " ++ orig ++ "." ++ Py.nl in
      let st := warn msg st in
      (Py.Raise (Py.Exn Py.SoundFileError msg), cleanup st)
  | Some audio =>
      let st := cleanup st in
      let url := "https://" ++ host ++ "?xjerr=1&" ++ "client=psychopy2&"
                 ++ "lang=" ++ Opt.lang opt
                 ++ "&pfilter=" ++ Py.fmt_d (Opt.pro_filter opt)
                 ++ "&maxresults=" ++ match Opt.results opt with
                                      | Some n => Py.fmt_d n
                                      | None => ""
                                      end in
      let header := [("Content-Type",
                      "audio/" ++ filetype ++ "; rate="
                      ++ Py.fmt_d (Opt.samplingrate opt));
                     ("User-Agent", useragent)] in
      let st := act NewRequest (os_state st) st in
      (Py.Ok {| timeout := Opt.timeout opt; file := orig;
                request := MkRequest url audio header |}, st)
  end.

(** [GoogleSpeech.__init__(file, opt)].  [None]: the encoder loop did not
    end within [fuel] looks. *)
Definition GoogleSpeech_init (fuel : nat) (path : string) (opt : Opt.options)
    (st : io S) : option (Py.result GoogleSpeech * io S) :=
  let opt := Opt.set_results 5 opt in
  let ext := snd (splitext pf path) in
  let (found, st) := do_isfile path st in
  if negb found then
    Some (Py.Raise (Py.Exn Py.IOError ("Cannot find file: " ++ path)), st)
  else if negb (mem_str ext supported) then
    Some (Py.Raise (Py.Exn Py.SoundFormatNotSupported
                      ("Unsupported filetype: " ++ ext ++ Py.nl)), st)
  else if String.eqb ext ".flac" then
    Some (load_and_build opt path path "x-flac" None st)
  else if String.eqb ext ".spx" then
    Some (load_and_build opt path path "x-speex-with-header-byte" None st)
  else
    (* ext == ".wav": convert to .flac *)
    let (have_flac, st) := do_isfile (FLAC_PATH pf) st in
    if negb have_flac then
      Some (Py.Raise (Py.Exn Py.SystemExit
              "failed to find flac; if it is installed, use option -p path-to-flac"),
            st)
    else
      let (stamp, s') := time_stamp pf (os_state st) in
      let st := {| os_state := s'; trace := trace st; printed := printed st;
                   warned := warned st |} in
      let tmp := "tmp_guess" ++ stamp ++ ".flac" in
      let flac_cmd := [FLAC_PATH pf; "-8"; "-f"; "--totally-silent"; "-o"; tmp; path] in
      match encode flac_cmd st with
      | (Py.Raise e, st) => Some (Py.Raise e, st)
      | (Py.Ok _, st) =>
          match encode_again fuel tmp flac_cmd st with
          | None => None
          | Some (Py.Raise e, st) => Some (Py.Raise e, st)
          | Some (Py.Ok _, st) =>
              Some (load_and_build opt path tmp "x-flac" (Some tmp) st)
          end
      end.

(** How often the encoder ran. *)
Definition encoder_runs (tr : list action) : nat :=
  List.length (filter (fun a => match a with ShellCall _ => true | _ => false end) tr).

(** The encoder can be started whenever it is called. *)
Definition encoder_starts : Prop :=
  forall cmd s, exists out, fst (shellCall pf cmd s) = Py.Ok out.

(** One turn of the encoder loop after a look that found nothing: the
    state that it leaves. *)
Definition rerun (tmp : string) (flac_cmd : list string) (st : io S) : io S :=
  snd (encode flac_cmd
         (message "Failed to convert to tmp.flac; trying again" (snd (do_isfile tmp st)))).

(** The builder's state just before its look number [k] for the encoder's
    output, counting from 0, if no earlier look found it and the encoder
    started every time. *)
Fixpoint before_look (k : nat) (tmp : string) (flac_cmd : list string)
    (st : io S) : io S :=
  match k with
  | O => st
  | Datatypes.S k' => before_look k' tmp flac_cmd (rerun tmp flac_cmd st)
  end.

(** What look number [k] finds. *)
Definition found_at (k : nat) (tmp : string) (flac_cmd : list string)
    (st : io S) : bool :=
  fst (do_isfile tmp (before_look k tmp flac_cmd st)).

(** The wav path up to the encoder loop: the name of the output, the
    encoder's command line, and the state after the encoder's first run. *)
Definition wav_entry (path : string) (st : io S) : string * list string * io S :=
  let (_, st) := do_isfile path st in
  let (_, st) := do_isfile (FLAC_PATH pf) st in
  let (stamp, s') := time_stamp pf (os_state st) in
  let st := {| os_state := s'; trace := trace st; printed := printed st;
               warned := warned st |} in
  let tmp := "tmp_guess" ++ stamp ++ ".flac" in
  let flac_cmd := [FLAC_PATH pf; "-8"; "-f"; "--totally-silent"; "-o"; tmp; path] in
  (tmp, flac_cmd, snd (encode flac_cmd st)).

(** [st'] has done what [st] has done, and maybe more. *)
Definition extends (st st' : io S) : Prop :=
  exists more, trace st' = (trace st ++ more)%list.

End WithPlatform.

(** The value under [name] in the dict of headers that was handed to
    [urllib2.Request]. *)
Definition header_given (name : string) (req : Request) : option string :=
  match find (fun h => String.eqb (fst h) name) (headers req) with
  | Some h => Some (snd h)
  | None => None
  end.

End Builder.

(** ** The entry points: [GoogleSpeech.getThread] and [getResponse]

    The registry [core.runningThreads] and the timer that empties it hold
    the task but never write to it; they are left out. *)

Section Orchestrator.
Variable rt : Py.runtime.

(** [getThread()]: [early] are the events between [gsqthread.start()] and
    the first test of the loop. *)
Definition getThread (gs : Builder.GoogleSpeech) (q : bool) (now : Q)
    (early : list event) (sched : list (list event))
    : option (world * list (list event)) :=
  let w := new_world (Builder.request gs) q now in
  let w := exec rt early w in
  let w := _message "Sending:," w in
  let w := with_thread (set_file (Some (Builder.file gs)) (thread w)) w in
  wait_running rt sched w.

(** [getResponse()]: the world in which it returns the task.  [gap] are
    the events between the test [if gsqthread.running:] and the assignment
    that it guards. *)
Definition getResponse (gs : Builder.GoogleSpeech) (q : bool) (now : Q)
    (early : list event) (sched : list (list event)) (gap : list event)
    : option world :=
  match getThread gs q now early sched with
  | None => None
  | Some (w, sched) =>
      match poll rt (Builder.timeout gs) sched w with
      | None => None
      | Some (w, _) =>
          Some (if running (thread w) then stamp_408 (exec rt gap w) else w)
      end
  end.

End Orchestrator.
(** ** Vocabulary of the properties *)

(** Two tasks that agree on every field but [status]. *)
Definition same_but_status (a b : task) : Prop :=
  request a = request b /\ t0 a = t0 b /\ response a = response b
  /\ duration a = duration b /\ stopflag a = stopflag b
  /\ running a = running b /\ timedout a = timedout b
  /\ started a = started b /\ confidence a = confidence b
  /\ json a = json b /\ raw a = raw b /\ word a = word b
  /\ detailed a = detailed b /\ words a = words b /\ conf a = conf b
  /\ file a = file b.

(** Two tasks that agree on every field but [confidence] and [conf]. *)
Definition same_but_confidence (a b : task) : Prop :=
  request a = request b /\ t0 a = t0 b /\ response a = response b
  /\ duration a = duration b /\ stopflag a = stopflag b
  /\ running a = running b /\ timedout a = timedout b
  /\ started a = started b /\ json a = json b /\ raw a = raw b
  /\ word a = word b /\ detailed a = detailed b /\ words a = words b
  /\ status a = status b /\ file a = file b.

(** A computation that relates the task it starts from to the one it leaves. *)
Definition preserves {A} (R : task -> task -> Prop) (c : M A) : Prop :=
  forall t r t', c t = (r, t') -> R t t'.

(** Order on what [elapsed()] returns. *)
Definition elapsed_le (a b : option Q) : Prop :=
  match a, b with
  | Some x, Some y => (x <= y)%Q
  | _, _ => False
  end.

(** A pending [urlopen]. *)
Definition in_flight (w : world) : Prop := ctl w = FirstCall \/ ctl w = Retry.

Definition has_colon (s : string) : bool :=
  existsb (fun c => Ascii.eqb c ":"%char) (list_ascii_of_string s).

(** No leading white space. *)
Definition flush_left (s : string) : bool :=
  match s with
  | String c _ => negb (Py.isspace c)
  | EmptyString => true
  end.

Section ParserVocabulary.
Variable rt : Py.runtime.

Definition lookup (k : string) (d : list (string * Py.jvalue)) : Py.jvalue :=
  match Py.assoc k d with
  | Some v => v
  | None => Py.JNull
  end.

(** The report lines of one field map, in iteration order. *)
Definition lines_of (d : list (string * Py.jvalue)) : list string :=
  map (fun k => report_line rt (Py.JStr k) (lookup k d)) (Py.keys d).

Definition not_hypotheses (k : string) : bool := negb (String.eqb k "hypotheses").

(** The whole report of a payload with field maps [hyps] as hypotheses and
    [top] as its top level. *)
Definition report_of (top : list (string * Py.jvalue))
    (hyps : list (list (string * Py.jvalue))) : list string :=
  flat_map lines_of hyps
  ++ map (fun k => report_line rt (Py.JStr k) (lookup k top))
         (filter not_hypotheses (Py.keys top)).

(** The second piece of a line cut at its colons, left-stripped. *)
Definition second_piece (line : string) : string :=
  Py.lstrip (nth 1 (Py.split ":"%char line) "").

Definition pick_words (report : list string) : list string :=
  map second_piece (filter (fun l => Py.startswith l "utterance") report).

(** The confidence that is left after the hypothesis [d]. *)
Definition confidence_after (c : option float) (d : list (string * Py.jvalue))
    : option float :=
  match Py.assoc "confidence" d with
  | Some v => match Py.to_float rt v with
              | Py.Ok f => Some f
              | Py.Raise _ => c
              end
  | None => c
  end.

(** The utterance values of the hypotheses, in encounter order. *)
Definition utterances (hyps : list (list (string * Py.jvalue))) : list Py.jvalue :=
  flat_map (fun d => match Py.assoc "utterance" d with
                     | Some v => [v]
                     | None => []
                     end) hyps.

(** A payload of the documented shape: an object with a [status] and a
    list of field maps under [hypotheses]; every confidence is a number
    that [float] accepts. *)
Definition shaped (top : list (string * Py.jvalue))
    (hyps : list (list (string * Py.jvalue))) : Prop :=
  (exists st, Py.assoc "status" top = Some st)
  /\ Py.assoc "hypotheses" top = Some (Py.JList (map Py.JDict hyps))
  /\ Forall (fun d => forall v, Py.assoc "confidence" d = Some v ->
                      exists f, Py.to_float rt v = Py.Ok f) hyps.

(** [utterance] is the only key that begins with these letters, in the
    hypotheses and at the top level, and no key occurs twice in a field
    map. *)
Definition plain_keys (top : list (string * Py.jvalue))
    (hyps : list (list (string * Py.jvalue))) : Prop :=
  Forall (fun d => NoDup (Py.keys d)
                   /\ forall k, In k (Py.keys d) ->
                        Py.startswith k "utterance" = true -> k = "utterance") hyps
  /\ forall k, In k (Py.keys top) -> Py.startswith k "utterance" = false.

(** What ends up in [words] for an utterance [v]. *)
Definition spoken (v : Py.jvalue) : string :=
  second_piece (report_line rt (Py.JStr "utterance") v).

(** What one hypothesis [d] does to the task: its confidence, if it has
    one, lands in [confidence] and [conf]. *)
Definition note_confidence (d : list (string * Py.jvalue)) (t : task) : task :=
  match Py.assoc "confidence" d with
  | Some v => match Py.to_float rt v with
              | Py.Ok f => set_conf (Some f) (set_confidence (Some f) t)
              | Py.Raise _ => t
              end
  | None => t
  end.

(** The task that [_unpackRaw] leaves for a payload of the documented
    shape. *)
Definition parsed_task (top : list (string * Py.jvalue))
    (hyps : list (list (string * Py.jvalue))) (t : task) : task :=
  let report := report_of top hyps in
  let ws := pick_words report in
  set_word (match ws with w :: _ => w | [] => "" end)
    (set_words ws
      (set_detailed (Py.join Py.nl report)
        (fold_left (fun t d => note_confidence d t) hyps
          (set_status (Some (lookup "status" top))
            (set_json (Some (Py.JDict top)) t))))).

End ParserVocabulary.


(** *** The states of a task

    The five states of the specification, read off the worker's progress
    through [run()] and, once it has returned, off the branch it took. *)

(** No statement of [run()] has been executed. *)
Definition Created (w : world) : Prop := ctl w = NotStarted.

(** [run()] is under way: it has begun and has neither returned nor been
    left by an exception. *)
Definition under_way (c : control) : bool :=
  match c with
  | NotStarted | Finished | Died _ => false
  | _ => true
  end.

Definition Running (w : world) : Prop := under_way (ctl w) = true.

(** [run()] returned through the branch that parses. *)
Definition Succeeded (w : world) : Prop :=
  ctl w = Finished /\ timedout (thread w) = false.

(** [run()] returned through the other branch.  The two ways into it leave
    the same object behind; only the warning tells them apart. *)
Definition TimedOut (w : world) : Prop :=
  ctl w = Finished /\ timedout (thread w) = true /\ warnings w = [].

Definition Failed (w : world) : Prop :=
  ctl w = Finished /\ timedout (thread w) = true /\ warnings w <> [].

Definition terminal (w : world) : Prop := ctl w = Finished.

(** What [elapsed()] takes for a running task: both flags are on. *)
Definition Live (w : world) : Prop :=
  started (thread w) = true /\ running (thread w) = true.

(** The exposed result fields at their defaults. *)
Definition unparsed (t : task) : Prop :=
  json t = None /\ confidence t = None /\ word t = "" /\ words t = []
  /\ detailed t = "".


(** [run()] has made its first four assignments and has not yet computed
    the duration. *)
Definition in_try (c : control) : bool :=
  match c with
  | FirstCall | Retry | Caught _ | Messaged _ | Warned | Returned => true
  | _ => false
  end.

(** [run()] has computed the duration. *)
Definition timed (c : control) : bool :=
  match c with
  | Timed | Unpacking _ | Unpacked | Cleared | Lapsed | Finished => true
  | _ => false
  end.

(** [run()] has made its assignment [self.running = True]. *)
Definition flag_set (c : control) : bool :=
  match c with
  | NotStarted | Begun1 => false
  | _ => true
  end.

(** The statements that [run()] has left on its way through the branch
    that does not parse, from the end of the [try] statement on. *)
Definition lapse_left (c : control) : option nat :=
  match c with
  | Returned => Some 3
  | Timed => Some 2
  | Lapsed => Some 1
  | Finished => Some 0
  | _ => None
  end.

(** Two tasks with the same result fields. *)
Definition results_agree (a b : task) : Prop :=
  json a = json b /\ status a = status b /\ confidence a = confidence b
  /\ word a = word b /\ words a = words b /\ detailed a = detailed b.

Section WorldVocabulary.
Variable rt : Py.runtime.

(** The rest of [_unpackRaw] from each of its statements on, run without
    interruption. *)
Definition rest_word : M unit :=
  (t <- get ;;
   modify (set_word (match words t with w :: _ => w | [] => "" end)))%M.

Definition rest_words (report : list string) : M unit :=
  (ws <- lift (words_of_report report) ;;
   modify (set_words ws) ;;
   rest_word)%M.

Definition rest_top (report : list string) : M unit :=
  (t <- get ;;
   j <- lift (the_json t) ;;
   top <- lift (Py.iter j) ;;
   report <- foldM (unpack_top rt j) report top ;;
   modify (set_detailed (Py.join Py.nl report)) ;;
   rest_words report)%M.

Definition rest_outer (hl : list Py.jvalue) (report : list string) : M unit :=
  (report <- foldM (unpack_hypothesis rt) report hl ;;
   rest_top report)%M.

Definition rest_inner (utter_list : Py.jvalue) (ks hl : list Py.jvalue)
    (report : list string) : M unit :=
  (report <- foldM (unpack_field rt utter_list) report ks ;;
   rest_outer hl report)%M.

Definition rest_hypotheses : M unit :=
  (t <- get ;;
   j <- lift (the_json t) ;;
   hyps <- lift (Py.getitem j (Py.JStr "hypotheses")) ;;
   hl <- lift (Py.iter hyps) ;;
   rest_outer hl [])%M.

Definition rest_status : M unit :=
  (t <- get ;;
   j <- lift (the_json t) ;;
   st <- lift (Py.getitem j (Py.JStr "status")) ;;
   modify (set_status (Some st)) ;;
   rest_hypotheses)%M.

Definition rest_load : M unit :=
  (t <- get ;;
   j <- lift (json_load (raw t)) ;;
   modify (set_json (Some j)) ;;
   rest_status)%M.

Definition rest (u : unpacking) : M unit :=
  match u with
  | AtLoad => rest_load
  | AtStatus => rest_status
  | AtHypotheses => rest_hypotheses
  | AtOuter hl report => rest_outer hl report
  | AtInner utter_list ks hl report => rest_inner utter_list ks hl report
  | AtTop report => rest_top report
  | AtWords report => rest_words report
  | AtWord => rest_word
  end.

(** A computation that neither reads nor writes the running flag. *)
Definition blind {A} (c : M A) : Prop :=
  forall b t, c (set_running b t) = (fst (c t), set_running b (snd (c t))).

(** The result fields as a run of [_unpackRaw], started on the defaults
    and ended without an exception, left them. *)
Definition parsed (t : task) : Prop :=
  exists t1 t2,
    unparsed t1 /\ _unpackRaw rt t1 = (Py.Ok tt, t2)
    /\ json t = json t2 /\ status t = status t2
    /\ confidence t = confidence t2 /\ word t = word t2
    /\ words t = words t2 /\ detailed t = detailed t2.

(** The worker is at [u] inside a run of [_unpackRaw] that began on the
    defaults: what is left of the method takes the task to where that
    run, made in one piece, would have taken it. *)
Definition parsing (u : unpacking) (t : task) : Prop :=
  exists t1 t2,
    unparsed t1 /\ _unpackRaw rt t1 = (fst (rest u t), t2)
    /\ results_agree (snd (rest u t)) t2.

(** The result fields and [status] as [__init__] left them. *)
Definition untouched (t : task) : Prop := unparsed t /\ status t = None.

(** What holds of the task at each control point of the worker. *)
Definition invariant (w : world) : Prop :=
  let t := thread w in
  match ctl w with
  | NotStarted =>
      started t = false /\ running t = false /\ timedout t = false
      /\ untouched t /\ t0 t = None /\ duration t = None /\ raw t = None
      /\ warnings w = [] /\ urlopen_calls w = 0
  | Begun1 =>
      started t = false /\ running t = false /\ timedout t = false
      /\ untouched t /\ t0 t <> None /\ duration t = None /\ raw t = None
      /\ warnings w = [] /\ urlopen_calls w = 0
  | Begun2 =>
      started t = false /\ timedout t = false
      /\ untouched t /\ t0 t <> None /\ duration t = None /\ raw t = None
      /\ warnings w = [] /\ urlopen_calls w = 0
  | Begun3 =>
      started t = true /\ timedout t = false
      /\ untouched t /\ t0 t <> None /\ duration t = None /\ raw t = None
      /\ warnings w = [] /\ urlopen_calls w = 0
  | FirstCall =>
      started t = true /\ timedout t = false
      /\ untouched t /\ t0 t <> None /\ duration t = Some 0%Q /\ raw t = None
      /\ warnings w = [] /\ urlopen_calls w = 1
  | Retry | Caught _ | Messaged _ =>
      started t = true /\ timedout t = false
      /\ untouched t /\ t0 t <> None /\ duration t = Some 0%Q /\ raw t = None
      /\ warnings w = [] /\ urlopen_calls w = 2
  | Warned =>
      started t = true /\ timedout t = false
      /\ untouched t /\ t0 t <> None /\ duration t = Some 0%Q /\ raw t = None
      /\ warnings w <> [] /\ urlopen_calls w = 2
  | Returned =>
      started t = true /\ timedout t = false
      /\ untouched t /\ t0 t <> None /\ duration t = Some 0%Q
      /\ (running t = true -> raw t <> None /\ warnings w = [])
      /\ 1 <= urlopen_calls w <= 2
  | Timed =>
      started t = true /\ timedout t = false
      /\ untouched t /\ t0 t <> None /\ duration t <> None
      /\ (running t = true -> raw t <> None /\ warnings w = [])
      /\ 1 <= urlopen_calls w <= 2
  | Unpacking u =>
      started t = true /\ timedout t = false
      /\ t0 t <> None /\ duration t <> None /\ raw t <> None
      /\ warnings w = [] /\ 1 <= urlopen_calls w <= 2
      /\ word t = "" /\ parsing u t
  | Unpacked =>
      started t = true /\ timedout t = false
      /\ t0 t <> None /\ duration t <> None
      /\ warnings w = [] /\ 1 <= urlopen_calls w <= 2 /\ parsed t
  | Cleared =>
      started t = true /\ running t = false /\ timedout t = false
      /\ t0 t <> None /\ duration t <> None
      /\ warnings w = [] /\ 1 <= urlopen_calls w <= 2 /\ parsed t
  | Lapsed =>
      started t = true /\ running t = false /\ timedout t = false
      /\ untouched t /\ t0 t <> None /\ duration t <> None
      /\ 1 <= urlopen_calls w <= 2
  | Finished =>
      started t = true /\ running t = false
      /\ t0 t <> None /\ duration t <> None /\ 1 <= urlopen_calls w <= 2
      /\ (if timedout t then untouched t else parsed t /\ warnings w = [])
  | Died _ =>
      started t = true /\ timedout t = false /\ t0 t <> None
      /\ word t = "" /\ 1 <= urlopen_calls w <= 2
  end.

End WorldVocabulary.


(** Events that are the passing of time only. *)
Definition is_time (e : event) : bool :=
  match e with
  | TimePasses _ => true
  | _ => false
  end.

(** How many statements the worker executes during [evs]. *)
Definition worker_steps (evs : list event) : nat :=
  List.length (filter (fun e => match e with WorkerSteps => true | _ => false end) evs).

(** The events of the first [n] sleeps of a schedule. *)
Definition during (n : nat) (sched : list (list event)) : list event :=
  concat (firstn n sched).
(** ** Sample data *)

Module Sample.

Definition rt : Py.runtime :=
  Py.Runtime (fun _ => "0.87") (fun _ => "[...]") (fun _ => None) (fun _ => None).

Definition req : Request := MkRequest "https://www.google.com/speech-api/v1/recognize" "fLaC" [].

Definition hello_hyps : list (list (string * Py.jvalue)) :=
  [[("utterance", Py.JStr "hello world"); ("confidence", Py.JFloat 0.87)]].

Definition hello_top : list (string * Py.jvalue) :=
  [("hypotheses", Py.JList (map Py.JDict hello_hyps)); ("status", Py.JInt 0)].

(** [{"hypotheses": [{"utterance": "hello world", "confidence": 0.87}], "status": 0}] *)
Definition hello : http_response := HTTPResponse (Some (Py.JDict hello_top)).

Definition colon_hyps : list (list (string * Py.jvalue)) :=
  [[("utterance", Py.JStr "ratio 3:4"); ("confidence", Py.JFloat 0.87)]].

Definition colon_top : list (string * Py.jvalue) :=
  [("status", Py.JInt 0); ("hypotheses", Py.JList (map Py.JDict colon_hyps))].

Definition colon : http_response := HTTPResponse (Some (Py.JDict colon_top)).

Definition indented_hyps : list (list (string * Py.jvalue)) :=
  [[("utterance", Py.JStr " a:b")]].

Definition indented_top : list (string * Py.jvalue) :=
  [("status", Py.JInt 0); ("hypotheses", Py.JList (map Py.JDict indented_hyps))].

Definition indented : http_response := HTTPResponse (Some (Py.JDict indented_top)).

Definition refused : Py.exn := Py.Exn Py.URLError "<urlopen error [Errno 61] Connection refused>".

Definition bad_gateway : Py.exn := Py.Exn Py.HTTPError "HTTP Error 502: Bad Gateway".

Definition bad_status : Py.exn := Py.Exn Py.BadStatusLine "''".

(** A task whose first [urlopen] is pending: the worker has executed the
    four statements before it. *)
Definition calling : world := exec rt (work 4) (new_world req true 0%Q).

(** The same with [gsOptions.quiet] off. *)
Definition calling_aloud : world := exec rt (work 4) (new_world req false 0%Q).

(** A task that nobody has started. *)
Definition fresh : world := new_world req true 0%Q.

(** A task that got its answer after two seconds, with the worker run to
    the end of [run()]. *)
Definition answered : world :=
  exec rt (TimePasses (2#1) :: UrlopenEnds (Returns hello) :: work 15) calling.

(** A task whose caller called [stop()] while the first call was pending. *)
Definition stopped : world := exec rt [CallerStops] calling.

Definition gs : Builder.GoogleSpeech :=
  Builder.MkGoogleSpeech (10#1) "speech_clip.flac" req.

(** The task that [getResponse] returns when the worker begins at once
    and eleven seconds pass during the first sleep. *)
Definition late : world :=
  match getResponse rt gs true 0%Q (work 4) [[TimePasses (11#1)]] [] with
  | Some w => w
  | None => fresh
  end.

(** [os.path.splitext] for names of the form [base.ext] with one dot and
    no directory part. *)
Fixpoint ext_of (s : string) : string :=
  match s with
  | EmptyString => EmptyString
  | String c s' => if Ascii.eqb c "."%char then s else ext_of s'
  end.

Fixpoint base_of (s : string) : string :=
  match s with
  | EmptyString => EmptyString
  | String c s' => if Ascii.eqb c "."%char then EmptyString else String c (base_of s')
  end.

(** A platform, over the number of encoder runs so far, on which every
    named file but the encoder's output exists, and the output appears
    with the [n]-th run of the encoder ([None]: never). *)
Definition machine (n : option nat) : Builder.platform nat :=
  {| Builder.splitext := fun p => (base_of p, ext_of p);
     Builder.FLAC_PATH := "/usr/local/bin/flac";
     Builder.isfile := fun p runs =>
       (if String.prefix "tmp_guess" p
        then match n with Some k => (k <=? runs)%nat | None => false end
        else true, runs);
     Builder.shellCall := fun _ runs => (Py.Ok ("", ""), Datatypes.S runs);
     Builder.sleep := fun runs => runs;
     Builder.time_stamp := fun runs => ("1333843200.000000", runs);
     Builder.read := fun p runs => (Some "fLaC", runs);
     Builder.remove := fun _ runs => runs |}.

Definition start : Builder.io nat := Builder.IO 0 [] [] [].

End Sample.

(** ** Vocabulary of the further properties *)

(** [run()] has not yet called [urlopen]. *)
Definition before_call (c : control) : bool :=
  match c with
  | NotStarted | Begun1 | Begun2 | Begun3 => true
  | _ => false
  end.

(** The statements that [run()] has left after a retry that raised a
    [StandardError], from the handler's first statement on. *)
Definition absorb_left (c : control) : option nat :=
  match c with
  | Caught _ => Some 6
  | Messaged _ => Some 5
  | Warned => Some 4
  | c => lapse_left c
  end.

(** The worker, left alone for [n] statements, has come to the end of
    [_unpackRaw] with outcome [r] and task [t], and nothing else of the
    world has changed. *)
Definition unpacks_to (rt : Py.runtime) (n : nat) (w : world)
    (r : Py.result unit) (t : task) : Prop :=
  let w' := exec rt (work n) w in
  thread w' = t
  /\ ctl w' = match r with Py.Ok _ => Unpacked | Py.Raise e => Died e end
  /\ clock w' = clock w /\ quiet w' = quiet w /\ stdout w' = stdout w
  /\ warnings w' = warnings w /\ urlopen_calls w' = urlopen_calls w.

(** No [stop()] among the events. *)
Definition no_stop (e : event) : bool :=
  match e with
  | CallerStops => false
  | _ => true
  end.

(** What [_message(msg)] leaves on the standard output [out]. *)
Definition printed_by (q : bool) (msg : string) (out : list string) : list string :=
  if q then out
  else out ++ [if Py.endswith_char msg ","%char then Py.strip_char ","%char msg else msg].

(** The worker is on its way from the handler of a failed retry to the
    end of [run()], with [n] statements left: it touches the output once,
    the log once, the running flag, the duration and the timed-out flag,
    and nothing else. *)
Definition absorbing (ex : Py.exn) (q : bool) (out : list string) (n : nat)
    (w : world) : Prop :=
  absorb_left (ctl w) = Some n
  /\ untouched (thread w) /\ t0 (thread w) <> None
  /\ urlopen_calls w = 2 /\ quiet w = q
  /\ (n = 6 -> ctl w = Caught ex) /\ (n = 5 -> ctl w = Messaged ex)
  /\ stdout w = (if (6 <=? n)%nat then out else printed_by q (Py.exn_msg ex) out)
  /\ warnings w = (if (5 <=? n)%nat then [] else [Py.exn_msg ex])
  /\ ((n <= 3)%nat -> running (thread w) = false)
  /\ timedout (thread w) = (n =? 0)%nat.

(** The worker is on its way from the answer [r], which came in with the
    running flag on, to the end of [run()], and [p] is the task that the
    parse of the answer leaves. *)
Definition succeeding (rt : Py.runtime) (r : http_response) (p : task)
    (w : world) : Prop :=
  t0 (thread w) <> None /\ timedout (thread w) = false
  /\ match ctl w with
     | Returned | Timed =>
         running (thread w) = true /\ raw (thread w) = Some r
         /\ untouched (thread w)
     | Unpacking u =>
         fst (rest rt u (thread w)) = Py.Ok tt
         /\ results_agree (snd (rest rt u (thread w))) p
     | Unpacked | Cleared | Finished => results_agree (thread w) p
     | _ => False
     end.

(** ** Vocabulary of the builder's file traffic *)

(** Actions that neither read nor remove a file nor make a request. *)
Definition handles_no_file (a : Builder.action) : bool :=
  match a with
  | Builder.ReadFile _ | Builder.Remove _ | Builder.NewRequest => false
  | _ => true
  end.

(** The actions of the loop that waits for the file to be there. *)
Definition is_look (a : Builder.action) : bool :=
  match a with
  | Builder.IsFile _ | Builder.Sleep => true
  | _ => false
  end.

(** How often the builder slept. *)
Definition sleeps (tr : list Builder.action) : nat :=
  List.length (filter (fun a => match a with Builder.Sleep => true | _ => false end) tr).

(** What the builder does from the read on: it reads [p], removes the
    temporary file if it has made one, and makes the request if the read
    went well. *)
Definition after_read (p : string) (tmp : option string) (ok : bool)
    : list Builder.action :=
  Builder.ReadFile p
  :: (match tmp with Some t => [Builder.Remove t] | None => [] end
      ++ if ok then [Builder.NewRequest] else [])%list.

(** What the builder answers after the read. *)
Definition read_outcome (ok : bool) (r : Py.result Builder.GoogleSpeech) : Prop :=
  if ok then exists gs, r = Py.Ok gs
  else exists msg, r = Py.Raise (Py.Exn Py.SoundFileError msg).

(** ** More sample data *)

Module Cases.

(** [{"status": 5, "id": "f3a", "hypotheses": []}]: what the service
    answers to silence. *)
Definition silence_top : list (string * Py.jvalue) :=
  [("status", Py.JInt 5); ("id", Py.JStr "f3a"); ("hypotheses", Py.JList [])].

Definition silence : http_response := HTTPResponse (Some (Py.JDict silence_top)).

(** Two hypotheses, of which only the first carries a confidence. *)
Definition pair_hyps : list (list (string * Py.jvalue)) :=
  [[("utterance", Py.JStr "hello world"); ("confidence", Py.JFloat 0.87)];
   [("utterance", Py.JStr "hollow world")]].

Definition pair_top : list (string * Py.jvalue) :=
  [("status", Py.JInt 0); ("hypotheses", Py.JList (map Py.JDict pair_hyps))].

Definition pair : http_response := HTTPResponse (Some (Py.JDict pair_top)).

(** A task whose second [urlopen] is pending. *)
Definition retrying : world :=
  exec Sample.rt [UrlopenEnds (Raises Sample.refused)] Sample.calling_aloud.

(** A platform on which the encoder is found but cannot be started. *)
Definition locked : Builder.platform nat :=
  let m := Sample.machine None in
  {| Builder.splitext := Builder.splitext m;
     Builder.FLAC_PATH := Builder.FLAC_PATH m;
     Builder.isfile := Builder.isfile m;
     Builder.shellCall := fun _ runs =>
       (Py.Raise (Py.Exn Py.OSError "[Errno 13] Permission denied"), runs);
     Builder.sleep := Builder.sleep m;
     Builder.time_stamp := Builder.time_stamp m;
     Builder.read := Builder.read m;
     Builder.remove := Builder.remove m |}.

End Cases.

(** * Properties *)

(** ** Strings *)

Lemma append_assoc (a b c : string) : ((a ++ b) ++ c = a ++ (b ++ c))%string.
Proof. induction a as [|x a IH]; simpl; [reflexivity|now rewrite IH]. Qed.

Lemma has_colon_app (a b : string) :
  has_colon (a ++ b) = has_colon a || has_colon b.
Proof.
  unfold has_colon.
  induction a as [|c a IH]; simpl; [reflexivity|].
  rewrite IH. now rewrite orb_assoc.
Qed.

Lemma split_nonempty (sep : ascii) (s : string) : Py.split sep s <> [].
Proof.
  destruct s as [|c s]; simpl; [discriminate|].
  destruct (Ascii.eqb c sep); [discriminate|].
  destruct (Py.split sep s); discriminate.
Qed.

Lemma split_colon_second (s : string) :
  has_colon s = true ->
  nth_error (Py.split ":"%char s) 1 = Some (nth 1 (Py.split ":"%char s) "").
Proof.
  unfold has_colon.
  induction s as [|c s IH]; simpl; [discriminate|].
  destruct (Ascii.eqb c ":"%char) eqn:E; simpl.
  - intros _. destruct (Py.split ":"%char s) eqn:Es; [|reflexivity].
    now apply split_nonempty in Es.
  - intros H. specialize (IH H).
    destruct (Py.split ":"%char s) as [|p [|q r]]; simpl in *; congruence.
Qed.

(** Cutting [a ++ ":" ++ b] at its colons, for a colon-free [a]. *)
Lemma split_at_first_colon (a b : string) :
  has_colon a = false ->
  Py.split ":"%char (a ++ String ":"%char b) = a :: Py.split ":"%char b.
Proof.
  unfold has_colon.
  induction a as [|c a IH]; simpl; [reflexivity|].
  destruct (Ascii.eqb c ":"%char); simpl; [discriminate|].
  intros H. now rewrite (IH H).
Qed.

Lemma split_no_colon (a : string) :
  has_colon a = false -> Py.split ":"%char a = [a].
Proof.
  unfold has_colon.
  induction a as [|c a IH]; simpl; [reflexivity|].
  destruct (Ascii.eqb c ":"%char); simpl; [discriminate|].
  intros H. now rewrite (IH H).
Qed.

Lemma lstrip_flush (s : string) : flush_left s = true -> Py.lstrip s = s.
Proof.
  destruct s as [|c s]; simpl; [reflexivity|].
  now destruct (Py.isspace c).
Qed.

Lemma lstrip_spaces (n : nat) (s : string) :
  Py.lstrip (Py.spaces n ++ s) = Py.lstrip s.
Proof. induction n as [|n IH]; simpl; [reflexivity|exact IH]. Qed.

Lemma has_colon_spaces (n : nat) : has_colon (Py.spaces n) = false.
Proof. induction n as [|n IH]; [reflexivity|exact IH]. Qed.

(** A prefix without blanks is decided by the part before the first blank. *)
Lemma prefix_before_blank (p k r : string) :
  existsb (fun c => Ascii.eqb c " "%char) (list_ascii_of_string p) = false ->
  String.prefix p (k ++ String " "%char r) = String.prefix p k.
Proof.
  revert k. induction p as [|a p IH]; intros k; simpl.
  - now destruct k.
  - destruct (Ascii.eqb a " "%char) eqn:Ea; simpl; [discriminate|].
    intros H. destruct k as [|b k]; simpl.
    + destruct (ascii_dec a " "%char) as [->|ne]; [|reflexivity].
      now rewrite Ascii.eqb_refl in Ea.
    + destruct (ascii_dec a b); [apply IH, H|reflexivity].
Qed.

Section ParserFacts.
Variable rt : Py.runtime.

(** A report line is its key, a blank, and more. *)
Lemma report_line_shape (k : string) (v : Py.jvalue) :
  exists r, report_line rt (Py.JStr k) v = k ++ String " "%char r.
Proof.
  unfold report_line, Py.ljust. simpl Py.fmt_s. rewrite append_assoc.
  destruct (10 - String.length k) as [|n].
  - exists (": " ++ Py.fmt_s rt v). reflexivity.
  - exists (Py.spaces n ++ " : " ++ Py.fmt_s rt v). reflexivity.
Qed.

Lemma report_line_has_colon (k v : Py.jvalue) :
  has_colon (report_line rt k v) = true.
Proof.
  unfold report_line. rewrite !has_colon_app. simpl.
  now rewrite orb_true_r.
Qed.

Lemma line_startswith (k : string) (v : Py.jvalue) :
  Py.startswith (report_line rt (Py.JStr k) v) "utterance"
  = Py.startswith k "utterance".
Proof.
  destruct (report_line_shape k v) as [r ->].
  unfold Py.startswith. now apply prefix_before_blank.
Qed.

End ParserFacts.

Section ParserSpec.
Variable rt : Py.runtime.

Lemma assoc_in (k : string) (d : list (string * Py.jvalue)) :
  In k (Py.keys d) -> exists v, Py.assoc k d = Some v.
Proof.
  induction d as [|[k' v'] d IH]; simpl; [tauto|].
  intros [->|H].
  - rewrite String.eqb_refl. now exists v'.
  - destruct (String.eqb k k'); [now exists v'|auto].
Qed.

Lemma assoc_not_in (k : string) (d : list (string * Py.jvalue)) :
  existsb (fun s => String.eqb s k) (Py.keys d) = false -> Py.assoc k d = None.
Proof.
  induction d as [|[k' v'] d IH]; simpl; [reflexivity|].
  rewrite (String.eqb_sym k k').
  destruct (String.eqb k' k); simpl; [discriminate|exact IH].
Qed.

Lemma getitem_dict (k : string) (d : list (string * Py.jvalue)) :
  In k (Py.keys d) -> Py.getitem (Py.JDict d) (Py.JStr k) = Py.Ok (lookup k d).
Proof.
  intros H. destruct (assoc_in _ _ H) as [v Hv].
  unfold lookup. simpl. now rewrite Hv.
Qed.

Lemma note_confidence_idem d t :
  note_confidence rt d (note_confidence rt d t) = note_confidence rt d t.
Proof.
  unfold note_confidence.
  destruct (Py.assoc "confidence" d); [|reflexivity].
  destruct (Py.to_float rt j); reflexivity.
Qed.

Lemma bind_ok {A B} (c : M A) (k : A -> M B) t a t' :
  c t = (Py.Ok a, t') -> bind c k t = k a t'.
Proof. unfold bind. now intros ->. Qed.

Lemma bind_raise {A B} (c : M A) (k : A -> M B) t e t' :
  c t = (Py.Raise e, t') -> bind c k t = (Py.Raise e, t').
Proof. unfold bind. now intros ->. Qed.

Lemma unpack_field_dict d k report t :
  (forall v, Py.assoc "confidence" d = Some v -> exists f, Py.to_float rt v = Py.Ok f) ->
  In k (Py.keys d) ->
  unpack_field rt (Py.JDict d) report (Py.JStr k) t
  = (Py.Ok (report ++ [report_line rt (Py.JStr k) (lookup k d)])%list,
     if String.eqb k "confidence" then note_confidence rt d t else t).
Proof.
  intros Hconf Hk. unfold unpack_field.
  rewrite (bind_ok _ _ _ (a := lookup k d) (t' := t));
    [|unfold lift; now rewrite (getitem_dict _ _ Hk)].
  unfold is_key. destruct (String.eqb k "confidence") eqn:Ek; [|reflexivity].
  apply String.eqb_eq in Ek. subst k.
  destruct (assoc_in _ _ Hk) as [v Hv]. destruct (Hconf v Hv) as [f Hf].
  unfold note_confidence, lookup. rewrite Hv.
  unfold bind, lift, modify, ret. now rewrite Hf.
Qed.

Lemma fold_fields d :
  (forall v, Py.assoc "confidence" d = Some v -> exists f, Py.to_float rt v = Py.Ok f) ->
  forall ks, Forall (fun k => In k (Py.keys d)) ks ->
  forall report t,
    foldM (unpack_field rt (Py.JDict d)) report (map Py.JStr ks) t
    = (Py.Ok (report ++ map (fun k => report_line rt (Py.JStr k) (lookup k d)) ks)%list,
       if existsb (fun s => String.eqb s "confidence") ks
       then note_confidence rt d t else t).
Proof.
  intros Hconf ks. induction ks as [|k ks IH]; intros Hin report t.
  - simpl. now rewrite app_nil_r.
  - inversion Hin as [|? ? Hk Hks]; subst.
    simpl foldM. rewrite (bind_ok _ _ _ (unpack_field_dict _ _ report t Hconf Hk)).
    rewrite (IH Hks). simpl existsb. rewrite <- app_assoc. simpl.
    destruct (String.eqb k "confidence"); simpl; [|reflexivity].
    rewrite note_confidence_idem. now destruct (existsb _ ks).
Qed.

Lemma keys_in_keys (d : list (string * Py.jvalue)) :
  Forall (fun k => In k (Py.keys d)) (Py.keys d).
Proof. apply Forall_forall. auto. Qed.

(** One hypothesis that is a field map. *)
Lemma unpack_hypothesis_dict d report t :
  (forall v, Py.assoc "confidence" d = Some v -> exists f, Py.to_float rt v = Py.Ok f) ->
  unpack_hypothesis rt report (Py.JDict d) t
  = (Py.Ok (report ++ lines_of rt d)%list, note_confidence rt d t).
Proof.
  intros Hconf. unfold unpack_hypothesis.
  rewrite (bind_ok _ _ _ (a := map Py.JStr (Py.keys d)) (t' := t)); [|reflexivity].
  rewrite (@fold_fields d Hconf _ (keys_in_keys d)). f_equal.
  destruct (existsb _ (Py.keys d)) eqn:E; [reflexivity|].
  unfold note_confidence. now rewrite (assoc_not_in _ _ E).
Qed.

Lemma fold_hypotheses hyps :
  Forall (fun d => forall v, Py.assoc "confidence" d = Some v ->
                   exists f, Py.to_float rt v = Py.Ok f) hyps ->
  forall report t,
    foldM (unpack_hypothesis rt) report (map Py.JDict hyps) t
    = (Py.Ok (report ++ flat_map (lines_of rt) hyps)%list,
       fold_left (fun t d => note_confidence rt d t) hyps t).
Proof.
  induction hyps as [|d hyps IH]; intros H report t.
  - simpl. now rewrite app_nil_r.
  - inversion H as [|? ? Hd Hr]; subst. simpl foldM.
    rewrite (bind_ok _ _ _ (unpack_hypothesis_dict _ report t Hd)).
    rewrite (IH Hr). simpl. now rewrite <- app_assoc.
Qed.

Lemma fold_top top ks :
  Forall (fun k => In k (Py.keys top)) ks ->
  forall report t,
    foldM (unpack_top rt (Py.JDict top)) report (map Py.JStr ks) t
    = (Py.Ok (report ++ map (fun k => report_line rt (Py.JStr k) (lookup k top))
                            (filter not_hypotheses ks))%list, t).
Proof.
  induction ks as [|k ks IH]; intros Hin report t.
  - simpl. now rewrite app_nil_r.
  - inversion Hin as [|? ? Hk Hks]; subst. simpl foldM.
    unfold unpack_top at 1. unfold is_key. unfold not_hypotheses at 1.
    destruct (negb (String.eqb k "hypotheses")) eqn:E.
    + rewrite (bind_ok _ _ _ (a := (report ++ [report_line rt (Py.JStr k) (lookup k top)])%list) (t' := t)).
      * rewrite (IH Hks). simpl. rewrite E. simpl. now rewrite <- app_assoc.
      * rewrite (bind_ok _ _ _ (a := lookup k top) (t' := t)); [reflexivity|].
        unfold lift. now rewrite (getitem_dict _ _ Hk).
    + rewrite (bind_ok _ _ _ (a := report) (t' := t)); [|reflexivity].
      rewrite (IH Hks). simpl. now rewrite E.
Qed.

Lemma report_has_colons top hyps :
  Forall (fun l => has_colon l = true) (report_of rt top hyps).
Proof.
  unfold report_of. apply Forall_app. split.
  - apply Forall_forall. intros l Hl. apply in_flat_map in Hl.
    destruct Hl as [d [_ Hl]]. unfold lines_of in Hl. apply in_map_iff in Hl.
    destruct Hl as [k [<- _]]. apply report_line_has_colon.
  - apply Forall_forall. intros l Hl. apply in_map_iff in Hl.
    destruct Hl as [k [<- _]]. apply report_line_has_colon.
Qed.

Lemma words_of_report_total report :
  Forall (fun l => has_colon l = true) report ->
  words_of_report report = Py.Ok (pick_words report).
Proof.
  unfold pick_words. induction report as [|l report IH]; intros H; [reflexivity|].
  inversion H as [|? ? Hl Hr]; subst. simpl.
  rewrite (IH Hr). destruct (Py.startswith l "utterance"); [|reflexivity].
  unfold word_of_line. now rewrite (split_colon_second _ Hl).
Qed.

End ParserSpec.

Section Frames.
Variable rt : Py.runtime.

Lemma sbc_refl t : same_but_confidence t t.
Proof. unfold same_but_confidence. tauto. Qed.

Lemma sbc_trans a b c :
  same_but_confidence a b -> same_but_confidence b c -> same_but_confidence a c.
Proof. unfold same_but_confidence. intuition congruence. Qed.

Lemma sbc_note f t :
  same_but_confidence t (set_conf (Some f) (set_confidence (Some f) t)).
Proof. unfold same_but_confidence. simpl. tauto. Qed.

Lemma preserves_ret {A} R (a : A) : (forall t, R t t) -> preserves R (ret a).
Proof. intros HR t r t' E. inversion E; subst. apply HR. Qed.

Lemma preserves_lift {A} R (x : Py.result A) : (forall t, R t t) -> preserves R (lift x).
Proof. intros HR t r t' E. inversion E; subst. apply HR. Qed.

Lemma preserves_bind {A B} R (c : M A) (k : A -> M B) :
  (forall a b c, R a b -> R b c -> R a c) ->
  preserves R c -> (forall a, preserves R (k a)) -> preserves R (bind c k).
Proof.
  intros HT Hc Hk t r t' E. unfold bind in E.
  destruct (c t) as [[a|e] t1] eqn:Ec.
  - eapply HT; [eapply Hc, Ec|eapply Hk, E].
  - inversion E; subst. eapply Hc, Ec.
Qed.

Lemma preserves_foldM {A B} R (body : B -> A -> M B) :
  (forall t, R t t) -> (forall a b c, R a b -> R b c -> R a c) ->
  (forall acc x, preserves R (body acc x)) ->
  forall l acc, preserves R (foldM body acc l).
Proof.
  intros HR HT Hb l. induction l as [|x l IH]; intros acc; simpl.
  - now apply preserves_ret.
  - apply preserves_bind; auto.
Qed.

Lemma preserves_unpack_field u report k :
  preserves same_but_confidence (unpack_field rt u report k).
Proof.
  unfold unpack_field.
  apply preserves_bind; [exact sbc_trans|apply preserves_lift, sbc_refl|].
  intros v. destruct (is_key "confidence" k).
  - apply preserves_bind; [exact sbc_trans|apply preserves_lift, sbc_refl|].
    intros f. apply preserves_bind; [exact sbc_trans| |].
    + intros t r t' E. inversion E; subst. apply sbc_note.
    + intros _. apply preserves_ret, sbc_refl.
  - apply preserves_ret, sbc_refl.
Qed.

Lemma preserves_unpack_hypothesis report u :
  preserves same_but_confidence (unpack_hypothesis rt report u).
Proof.
  unfold unpack_hypothesis.
  apply preserves_bind; [exact sbc_trans|apply preserves_lift, sbc_refl|].
  intros ks. apply preserves_foldM; [exact sbc_refl|exact sbc_trans|].
  intros acc x. apply preserves_unpack_field.
Qed.

Lemma preserves_unpack_top j report k :
  preserves same_but_confidence (unpack_top rt j report k).
Proof.
  unfold unpack_top. destruct (negb (is_key "hypotheses" k)).
  - apply preserves_bind; [exact sbc_trans|apply preserves_lift, sbc_refl|].
    intros v. apply preserves_ret, sbc_refl.
  - apply preserves_ret, sbc_refl.
Qed.

(** Every way through [_unpackRaw]: where it can raise, and what it has
    assigned by then. *)
Lemma unpack_cases t r t' :
  _unpackRaw rt t = (r, t') ->
  (exists e, r = Py.Raise e /\ t' = t)
  \/ (exists e j, r = Py.Raise e /\ same_but_confidence (set_json (Some j) t) t'
                  /\ status t' = status t)
  \/ (exists e j st, r = Py.Raise e
        /\ same_but_confidence (set_status (Some st) (set_json (Some j) t)) t')
  \/ (exists e j st report t1, r = Py.Raise e
        /\ same_but_confidence (set_status (Some st) (set_json (Some j) t)) t1
        /\ t' = set_detailed (Py.join Py.nl report) t1)
  \/ (exists j st report ws t1, r = Py.Ok tt
        /\ json_load (raw t) = Py.Ok j
        /\ Py.getitem j (Py.JStr "status") = Py.Ok st
        /\ same_but_confidence (set_status (Some st) (set_json (Some j) t)) t1
        /\ words_of_report report = Py.Ok ws
        /\ t' = set_word (match ws with w :: _ => w | [] => "" end)
                  (set_words ws (set_detailed (Py.join Py.nl report) t1))).
Proof.
  unfold _unpackRaw. unfold bind at 1, get at 1. unfold bind at 1, lift at 1.
  destruct (json_load (raw t)) as [j|e] eqn:Ej.
  2:{ intros E; inversion E; subst. left. eauto. }
  unfold bind at 1, modify at 1. unfold bind at 1, lift at 1.
  destruct (Py.getitem j (Py.JStr "status")) as [st|e] eqn:Est.
  2:{ intros E; inversion E; subst. right; left. exists e, j.
      repeat split; reflexivity. }
  unfold bind at 1, modify at 1. unfold bind at 1, lift at 1.
  set (t2 := set_status (Some st) (set_json (Some j) t)).
  destruct (Py.getitem j (Py.JStr "hypotheses")) as [hyps|e].
  2:{ intros E; inversion E; subst. right; right; left. exists e, j, st.
      split; [reflexivity|apply sbc_refl]. }
  unfold bind at 1, lift at 1.
  destruct (Py.iter hyps) as [hl|e].
  2:{ intros E; inversion E; subst. right; right; left. exists e, j, st.
      split; [reflexivity|apply sbc_refl]. }
  unfold bind at 1.
  destruct (foldM (unpack_hypothesis rt) [] hl t2) as [[report|e] t3] eqn:E3.
  2:{ intros E; inversion E; subst. right; right; left. exists e, j, st.
      split; [reflexivity|].
      eapply (preserves_foldM (R := same_but_confidence)); [exact sbc_refl|exact sbc_trans| |exact E3].
      intros acc x. apply preserves_unpack_hypothesis. }
  assert (H23 : same_but_confidence t2 t3).
  { eapply (preserves_foldM (R := same_but_confidence)); [exact sbc_refl|exact sbc_trans| |exact E3].
    intros acc x. apply preserves_unpack_hypothesis. }
  unfold bind at 1, lift at 1.
  destruct (Py.iter j) as [top|e].
  2:{ intros E; inversion E; subst. right; right; left. exists e, j, st. auto. }
  unfold bind at 1.
  destruct (foldM (unpack_top rt j) report top t3) as [[report'|e] t4] eqn:E4.
  2:{ intros E; inversion E; subst. right; right; left. exists e, j, st.
      split; [reflexivity|]. apply (sbc_trans H23).
      eapply (preserves_foldM (R := same_but_confidence)); [exact sbc_refl|exact sbc_trans| |exact E4].
      intros acc x. apply preserves_unpack_top. }
  assert (H24 : same_but_confidence t2 t4).
  { apply (sbc_trans H23).
    eapply (preserves_foldM (R := same_but_confidence)); [exact sbc_refl|exact sbc_trans| |exact E4].
    intros acc x. apply preserves_unpack_top. }
  unfold bind at 1, modify at 1. unfold bind at 1, lift at 1.
  destruct (words_of_report report') as [ws|e] eqn:Ew.
  2:{ intros E; inversion E; subst. right; right; right; left.
      exists e, j, st, report', t4. auto. }
  unfold bind, modify. intros E; inversion E; subst.
  right; right; right; right. exists j, st, report', ws, t4. auto 10.
Qed.

End Frames.

Section Shaped.
Variable rt : Py.runtime.

Lemma unpack_shaped top hyps t :
  shaped rt top hyps ->
  raw t = Some (HTTPResponse (Some (Py.JDict top))) ->
  _unpackRaw rt t = (Py.Ok tt, parsed_task rt top hyps t).
Proof.
  intros [[st Hst] [Hh Hc]] Hraw. unfold _unpackRaw.
  rewrite (bind_ok _ _ _ (a := t) (t' := t)); [|reflexivity].
  rewrite (bind_ok _ _ _ (a := Py.JDict top) (t' := t));
    [|unfold lift; now rewrite Hraw].
  rewrite (bind_ok _ _ _ (a := tt) (t' := set_json (Some (Py.JDict top)) t));
    [|reflexivity].
  rewrite (bind_ok _ _ _ (a := lookup "status" top) (t' := set_json (Some (Py.JDict top)) t));
    [|unfold lift, lookup; simpl; now rewrite Hst].
  rewrite (bind_ok _ _ _ (a := tt)
             (t' := set_status (Some (lookup "status" top)) (set_json (Some (Py.JDict top)) t)));
    [|reflexivity].
  set (t2 := set_status _ _).
  rewrite (bind_ok _ _ _ (a := Py.JList (map Py.JDict hyps)) (t' := t2));
    [|unfold lift; simpl; now rewrite Hh].
  rewrite (bind_ok _ _ _ (a := map Py.JDict hyps) (t' := t2)); [|reflexivity].
  rewrite (bind_ok _ _ _ (fold_hypotheses rt Hc [] t2)).
  rewrite (bind_ok _ _ _ (a := map Py.JStr (Py.keys top))
             (t' := fold_left (fun t d => note_confidence rt d t) hyps t2));
    [|reflexivity].
  rewrite (bind_ok _ _ _ (@fold_top rt top _ (keys_in_keys top) _ _)).
  simpl app. fold (report_of rt top hyps).
  unfold bind, modify, lift.
  rewrite (words_of_report_total (report_has_colons rt top hyps)).
  reflexivity.
Qed.

Lemma assoc_some_in (k : string) (d : list (string * Py.jvalue)) v :
  Py.assoc k d = Some v -> In k (Py.keys d).
Proof.
  induction d as [|[k' v'] d IH]; simpl; [discriminate|].
  destruct (String.eqb k k') eqn:Ek.
  - intros _. left. symmetry. now apply String.eqb_eq.
  - intros H. right. auto.
Qed.

Lemma notes_keep (P : task -> Prop) hyps :
  (forall t f, P t -> P (set_conf (Some f) (set_confidence (Some f) t))) ->
  forall t, P t -> P (fold_left (fun t d => note_confidence rt d t) hyps t).
Proof.
  intros HP. induction hyps as [|d hyps IH]; intros t Ht; simpl; [exact Ht|].
  apply IH. unfold note_confidence.
  destruct (Py.assoc "confidence" d); [|exact Ht].
  destruct (Py.to_float rt j); [apply HP|]; exact Ht.
Qed.

Lemma notes_confidence hyps : forall t,
  confidence (fold_left (fun t d => note_confidence rt d t) hyps t)
  = fold_left (confidence_after rt) hyps (confidence t).
Proof.
  induction hyps as [|d hyps IH]; intros t; simpl; [reflexivity|].
  rewrite IH. f_equal. unfold note_confidence, confidence_after.
  destruct (Py.assoc "confidence" d); [|reflexivity].
  destruct (Py.to_float rt j); reflexivity.
Qed.

Lemma parsed_words top hyps t :
  words (parsed_task rt top hyps t) = pick_words (report_of rt top hyps).
Proof. reflexivity. Qed.

Lemma parsed_word top hyps t :
  word (parsed_task rt top hyps t)
  = match words (parsed_task rt top hyps t) with w :: _ => w | [] => "" end.
Proof. reflexivity. Qed.

Lemma parsed_detailed top hyps t :
  detailed (parsed_task rt top hyps t) = Py.join Py.nl (report_of rt top hyps).
Proof. reflexivity. Qed.

Lemma parsed_confidence top hyps t :
  confidence (parsed_task rt top hyps t)
  = fold_left (confidence_after rt) hyps (confidence t).
Proof. unfold parsed_task. simpl. now rewrite notes_confidence. Qed.

Lemma parsed_status top hyps t :
  status (parsed_task rt top hyps t) = Some (lookup "status" top).
Proof.
  unfold parsed_task. simpl.
  apply (notes_keep (fun t' => status t' = Some (lookup "status" top))); auto.
Qed.

Lemma parsed_json top hyps t :
  json (parsed_task rt top hyps t) = Some (Py.JDict top).
Proof.
  unfold parsed_task. simpl.
  apply (notes_keep (fun t' => json t' = Some (Py.JDict top))); auto.
Qed.

(** *** From the report to the utterances *)

Lemma pick_words_app a b : pick_words (a ++ b) = (pick_words a ++ pick_words b)%list.
Proof. unfold pick_words. now rewrite filter_app, map_app. Qed.

Lemma filter_only (l : list string) (x : string) (p : string -> bool) :
  NoDup l -> p x = true -> (forall k, In k l -> p k = true -> k = x) ->
  filter p l = if in_dec string_dec x l then [x] else [].
Proof.
  induction l as [|a l IH]; intros Hnd Hx Hp; simpl; [reflexivity|].
  inversion Hnd as [|? ? Hna Hnd']; subst.
  assert (IH' := IH Hnd' Hx (fun k Hk => Hp k (or_intror Hk))).
  destruct (p a) eqn:Epa.
  - assert (a = x) by (apply Hp; simpl; auto). subst a.
    destruct (string_dec x x) as [_|ne]; [|contradiction].
    rewrite IH'. destruct (in_dec string_dec x l); [contradiction|reflexivity].
  - destruct (string_dec a x) as [->|ne]; [congruence|].
    rewrite IH'. destruct (in_dec string_dec x l); reflexivity.
Qed.

Lemma filter_lines (d : list (string * Py.jvalue)) ks :
  filter (fun l => Py.startswith l "utterance")
    (map (fun k => report_line rt (Py.JStr k) (lookup k d)) ks)
  = map (fun k => report_line rt (Py.JStr k) (lookup k d))
      (filter (fun k => Py.startswith k "utterance") ks).
Proof.
  induction ks as [|k ks IH]; simpl; [reflexivity|].
  rewrite line_startswith. destruct (Py.startswith k "utterance"); simpl; now rewrite IH.
Qed.

Lemma pick_words_hypothesis d :
  NoDup (Py.keys d) ->
  (forall k, In k (Py.keys d) -> Py.startswith k "utterance" = true -> k = "utterance") ->
  pick_words (lines_of rt d)
  = match Py.assoc "utterance" d with
    | Some v => [spoken rt v]
    | None => []
    end.
Proof.
  intros Hnd Hk. unfold pick_words, lines_of. rewrite filter_lines.
  rewrite (@filter_only _ "utterance" _ Hnd eq_refl Hk).
  destruct (in_dec string_dec "utterance" (Py.keys d)) as [Hin|Hout].
  - destruct (assoc_in _ _ Hin) as [v Hv]. unfold lookup, spoken. simpl. now rewrite Hv.
  - simpl. destruct (Py.assoc "utterance" d) eqn:E; [|reflexivity].
    exfalso. apply Hout. eapply assoc_some_in, E.
Qed.

(** With [utterance] the only key of its kind, [words] lists what is left
    of each utterance, in encounter order. *)
Lemma pick_words_report top hyps :
  plain_keys top hyps ->
  pick_words (report_of rt top hyps) = map (spoken rt) (utterances hyps).
Proof.
  intros [Hh Ht]. unfold report_of. rewrite pick_words_app.
  assert (E : pick_words (map (fun k => report_line rt (Py.JStr k) (lookup k top))
                              (filter not_hypotheses (Py.keys top))) = []).
  { unfold pick_words. rewrite filter_lines.
    replace (filter (fun k => Py.startswith k "utterance") (filter not_hypotheses (Py.keys top)))
      with (@nil string); [reflexivity|].
    symmetry. induction (Py.keys top) as [|k ks IH]; [reflexivity|].
    simpl. destruct (not_hypotheses k); simpl.
    - rewrite (Ht k (or_introl eq_refl)). apply IH. intros; apply Ht; now right.
    - apply IH. intros; apply Ht; now right. }
  rewrite E, app_nil_r. clear E Ht.
  induction hyps as [|d hyps IH]; [reflexivity|].
  inversion Hh as [|? ? [Hnd Hk] Hr]; subst. simpl.
  rewrite pick_words_app, (pick_words_hypothesis d Hnd Hk), (IH Hr).
  unfold utterances. simpl. rewrite map_app.
  now destruct (Py.assoc "utterance" d).
Qed.

Lemma utterance_line (v : string) :
  report_line rt (Py.JStr "utterance") (Py.JStr v)
  = "utterance  " ++ String ":"%char (" " ++ v).
Proof. reflexivity. Qed.

(** What is left of an utterance: the text before its first colon,
    without leading white space. *)
Lemma spoken_colon a b :
  has_colon a = false ->
  spoken rt (Py.JStr (a ++ String ":"%char b)) = Py.lstrip a.
Proof.
  intros Ha. unfold spoken, second_piece. rewrite utterance_line.
  rewrite (@split_at_first_colon "utterance  " _ eq_refl).
  change (" " ++ a ++ String ":"%char b) with ((" " ++ a) ++ String ":"%char b).
  rewrite split_at_first_colon; [reflexivity|exact Ha].
Qed.

Lemma spoken_plain v :
  has_colon v = false -> flush_left v = true -> spoken rt (Py.JStr v) = v.
Proof.
  intros Hc Hf. unfold spoken, second_piece. rewrite utterance_line.
  rewrite (@split_at_first_colon "utterance  " _ eq_refl).
  rewrite split_no_colon; [simpl; now apply lstrip_flush|exact Hc].
Qed.

End Shaped.

(** ** The worker and its caller *)

Section WorldFacts.
Variable rt : Py.runtime.

(** What [_unpackRaw] leaves alone. *)
Lemma unpack_frame t r t' :
  _unpackRaw rt t = (r, t') ->
  started t' = started t /\ running t' = running t /\ timedout t' = timedout t
  /\ t0 t' = t0 t /\ duration t' = duration t /\ raw t' = raw t
  /\ request t' = request t /\ file t' = file t
  /\ (forall e, r = Py.Raise e -> word t' = word t /\ words t' = words t)
  /\ (r = Py.Ok tt -> json t' <> None /\ status t' <> None)
  /\ (json t' = None -> t' = t).
Proof.
  intros E. destruct (unpack_cases _ _ E) as [C|[C|[C|[C|C]]]].
  - destruct C as [e [-> ->]]. repeat split; auto; discriminate.
  - destruct C as [e [j [-> [H Hs]]]].
    unfold same_but_confidence in H; simpl in H.
    repeat split; try (intuition congruence); try discriminate.
  - destruct C as [e [j [st [-> H]]]].
    unfold same_but_confidence in H; simpl in H.
    repeat split; try (intuition congruence); try discriminate.
  - destruct C as [e [j [st [report [t1 [-> [H ->]]]]]]].
    unfold same_but_confidence in H; simpl in *.
    repeat split; try (intuition congruence); try discriminate.
  - destruct C as [j [st [report [ws [t1 [-> [_ [_ [H [_ ->]]]]]]]]]].
    unfold same_but_confidence in H; simpl in *.
    repeat split; try (intuition congruence); try discriminate.
Qed.

Lemma exec_app evs1 evs2 w : exec rt (evs1 ++ evs2) w = exec rt evs2 (exec rt evs1 w).
Proof. unfold exec. apply fold_left_app. Qed.

Lemma exec_cons e evs w : exec rt (e :: evs) w = exec rt evs (step rt w e).
Proof. reflexivity. Qed.

Lemma stop_idle t : running t = false -> stop t = t.
Proof. destruct t; simpl; intros ->; reflexivity. Qed.

Lemma unparsed_frame t t' :
  json t' = json t -> confidence t' = confidence t -> word t' = word t ->
  words t' = words t -> detailed t' = detailed t -> unparsed t -> unparsed t'.
Proof. unfold unparsed. intuition congruence. Qed.


(** *** [_unpackRaw], statement by statement *)

Lemma foldM_cons {A B} (body : B -> A -> M B) acc x l t :
  foldM body acc (x :: l) t
  = match body acc x t with
    | (Py.Ok a, t') => foldM body a l t'
    | (Py.Raise e, t') => (Py.Raise e, t')
    end.
Proof. reflexivity. Qed.

Lemma hypothesis_unfold report ul t :
  unpack_hypothesis rt report ul t
  = match Py.iter ul with
    | Py.Ok ks => foldM (unpack_field rt ul) report ks t
    | Py.Raise e => (Py.Raise e, t)
    end.
Proof. reflexivity. Qed.

Lemma rest_outer_unfold hl report t :
  rest_outer rt hl report t
  = match foldM (unpack_hypothesis rt) report hl t with
    | (Py.Ok r, t') => rest_top rt r t'
    | (Py.Raise e, t') => (Py.Raise e, t')
    end.
Proof. reflexivity. Qed.

Lemma rest_inner_unfold ul ks hl report t :
  rest_inner rt ul ks hl report t
  = match foldM (unpack_field rt ul) report ks t with
    | (Py.Ok r, t') => rest_outer rt hl r t'
    | (Py.Raise e, t') => (Py.Raise e, t')
    end.
Proof. reflexivity. Qed.

(** One statement of [_unpackRaw] leaves for the rest of the method what
    the method had to do before. *)
Lemma rest_step u t :
  match unpack_step rt u t with
  | (Py.Ok (Some u'), t') => rest rt u' t' = rest rt u t
  | (Py.Ok None, t') => rest rt u t = (Py.Ok tt, t')
  | (Py.Raise e, t') => rest rt u t = (Py.Raise e, t')
  end.
Proof.
  destruct u as [| | |hl report|ul ks hl report|report|report|]; simpl.
  - unfold rest_load, bind, get, lift, modify, ret.
    destruct (json_load (raw t)); reflexivity.
  - unfold rest_status, bind, get, lift, modify, ret.
    destruct (the_json t) as [j|e]; [|reflexivity].
    destruct (Py.getitem j (Py.JStr "status")); reflexivity.
  - unfold rest_hypotheses, bind, get, lift, modify, ret.
    destruct (the_json t) as [j|e]; [|reflexivity].
    destruct (Py.getitem j (Py.JStr "hypotheses")) as [hyps|e]; [|reflexivity].
    destruct (Py.iter hyps); reflexivity.
  - destruct hl as [|ul hl]; [reflexivity|].
    rewrite rest_outer_unfold, foldM_cons, hypothesis_unfold.
    unfold bind, lift, ret.
    destruct (Py.iter ul) as [ks|e]; [|reflexivity].
    change (rest rt (AtInner ul ks hl report) t) with (rest_inner rt ul ks hl report t).
    rewrite rest_inner_unfold.
    destruct (foldM (unpack_field rt ul) report ks t) as [[r|e] t1]; [|reflexivity].
    now rewrite rest_outer_unfold.
  - destruct ks as [|k ks]; [reflexivity|].
    rewrite rest_inner_unfold, foldM_cons. unfold bind, ret.
    destruct (unpack_field rt ul report k t) as [[r|e] t1]; [|reflexivity].
    change (rest rt (AtInner ul ks hl r) t1) with (rest_inner rt ul ks hl r t1).
    now rewrite rest_inner_unfold.
  - unfold rest_top, bind, get, lift, modify, ret.
    destruct (the_json t) as [j|e]; [|reflexivity].
    destruct (Py.iter j) as [top|e]; [|reflexivity].
    destruct (foldM (unpack_top rt j) report top t) as [[r|e] t1]; reflexivity.
  - unfold rest_words, bind, lift, modify, ret.
    destruct (words_of_report report); reflexivity.
  - reflexivity.
Qed.

Lemma foldM_sbc_hyp report hl t r t' :
  foldM (unpack_hypothesis rt) report hl t = (r, t') -> same_but_confidence t t'.
Proof.
  intros E.
  eapply (preserves_foldM (R := same_but_confidence));
    [exact sbc_refl|exact sbc_trans| |exact E].
  intros acc x. apply preserves_unpack_hypothesis.
Qed.

Lemma foldM_sbc_field ul report ks t r t' :
  foldM (unpack_field rt ul) report ks t = (r, t') -> same_but_confidence t t'.
Proof.
  intros E.
  eapply (preserves_foldM (R := same_but_confidence));
    [exact sbc_refl|exact sbc_trans| |exact E].
  intros acc x. apply preserves_unpack_field.
Qed.

Lemma foldM_sbc_top j report top t r t' :
  foldM (unpack_top rt j) report top t = (r, t') -> same_but_confidence t t'.
Proof.
  intros E.
  eapply (preserves_foldM (R := same_but_confidence));
    [exact sbc_refl|exact sbc_trans| |exact E].
  intros acc x. apply preserves_unpack_top.
Qed.

(** Run in one piece from its first statement, the method is [_unpackRaw]
    as called. *)
Lemma rest_load_unpack t : rest rt AtLoad t = _unpackRaw rt t.
Proof.
  unfold rest, rest_load, rest_status, rest_hypotheses, rest_outer, rest_top,
    rest_words, rest_word, _unpackRaw, bind, get, lift, modify, ret.
  destruct (json_load (raw t)) as [j|e]; [|reflexivity].
  cbn [the_json json set_json].
  destruct (Py.getitem j (Py.JStr "status")) as [st|e]; [|reflexivity].
  cbn [the_json json set_json set_status].
  destruct (Py.getitem j (Py.JStr "hypotheses")) as [hyps|e]; [|reflexivity].
  destruct (Py.iter hyps) as [hl|e]; [|reflexivity].
  destruct (foldM (unpack_hypothesis rt) [] hl
              (set_status (Some st) (set_json (Some j) t))) as [[report|e] t3] eqn:E3;
    [|reflexivity].
  assert (J3 : the_json t3 = Py.Ok j).
  { apply foldM_sbc_hyp in E3. unfold same_but_confidence in E3.
    unfold the_json. destruct E3 as [_ [_ [_ [_ [_ [_ [_ [_ [<- _]]]]]]]]].
    reflexivity. }
  rewrite J3.
  destruct (Py.iter j) as [top|e]; [|reflexivity].
  destruct (foldM (unpack_top rt j) report top t3) as [[report'|e] t4]; [|reflexivity].
  destruct (words_of_report report') as [ws|e]; reflexivity.
Qed.

(** *** [_unpackRaw] does not look at the running flag *)

Lemma blind_ret {A} (a : A) : blind (ret a).
Proof. intros b t. reflexivity. Qed.

Lemma blind_lift {A} (x : Py.result A) : blind (lift x).
Proof. intros b t. reflexivity. Qed.

Lemma blind_modify (f : task -> task) :
  (forall b t, f (set_running b t) = set_running b (f t)) -> blind (modify f).
Proof. intros H b t. unfold modify. simpl. now rewrite H. Qed.

Lemma blind_bind {A B} (c : M A) (k : A -> M B) :
  blind c -> (forall a, blind (k a)) -> blind (bind c k).
Proof.
  intros Hc Hk b t. unfold bind. rewrite Hc.
  destruct (c t) as [[a|e] t1]; simpl; [apply Hk|reflexivity].
Qed.

Lemma blind_get_bind {A} (k : task -> M A) :
  (forall b t, k (set_running b t) = k t) -> (forall t, blind (k t)) ->
  blind (bind get k).
Proof. intros H1 H2 b t. unfold bind, get. rewrite H1. apply H2. Qed.

Lemma blind_foldM {A B} (body : B -> A -> M B) :
  (forall acc x, blind (body acc x)) -> forall l acc, blind (foldM body acc l).
Proof.
  intros Hb l. induction l as [|x l IH]; intros acc; simpl.
  - apply blind_ret.
  - apply blind_bind; auto.
Qed.

Lemma blind_unpack_field ul report k : blind (unpack_field rt ul report k).
Proof.
  unfold unpack_field. apply blind_bind; [apply blind_lift|]. intros v.
  destruct (is_key "confidence" k); [|apply blind_ret].
  apply blind_bind; [apply blind_lift|]. intros f.
  apply blind_bind; [apply blind_modify; reflexivity|]. intros _. apply blind_ret.
Qed.

Lemma blind_unpack_hypothesis report ul : blind (unpack_hypothesis rt report ul).
Proof.
  unfold unpack_hypothesis. apply blind_bind; [apply blind_lift|]. intros ks.
  apply blind_foldM. intros acc x. apply blind_unpack_field.
Qed.

Lemma blind_unpack_top j report k : blind (unpack_top rt j report k).
Proof.
  unfold unpack_top. destruct (negb (is_key "hypotheses" k)); [|apply blind_ret].
  apply blind_bind; [apply blind_lift|]. intros v. apply blind_ret.
Qed.

Lemma blind_rest_word : blind (rest_word).
Proof. intros b t. reflexivity. Qed.

Lemma blind_rest_words report : blind (rest_words report).
Proof.
  unfold rest_words. apply blind_bind; [apply blind_lift|]. intros ws.
  apply blind_bind; [apply blind_modify; reflexivity|]. intros _.
  apply blind_rest_word.
Qed.

Lemma blind_rest_top report : blind (rest_top rt report).
Proof.
  unfold rest_top. apply blind_get_bind; [reflexivity|]. intros t.
  apply blind_bind; [apply blind_lift|]. intros j.
  apply blind_bind; [apply blind_lift|]. intros top.
  apply blind_bind; [apply blind_foldM; intros; apply blind_unpack_top|]. intros r.
  apply blind_bind; [apply blind_modify; reflexivity|]. intros _.
  apply blind_rest_words.
Qed.

Lemma blind_rest_outer hl report : blind (rest_outer rt hl report).
Proof.
  unfold rest_outer.
  apply blind_bind; [apply blind_foldM; intros; apply blind_unpack_hypothesis|].
  intros r. apply blind_rest_top.
Qed.

Lemma blind_rest_inner ul ks hl report : blind (rest_inner rt ul ks hl report).
Proof.
  unfold rest_inner.
  apply blind_bind; [apply blind_foldM; intros; apply blind_unpack_field|].
  intros r. apply blind_rest_outer.
Qed.

Lemma blind_rest_hypotheses : blind (rest_hypotheses rt).
Proof.
  unfold rest_hypotheses. apply blind_get_bind; [reflexivity|]. intros t.
  apply blind_bind; [apply blind_lift|]. intros j.
  apply blind_bind; [apply blind_lift|]. intros hyps.
  apply blind_bind; [apply blind_lift|]. intros hl. apply blind_rest_outer.
Qed.

Lemma blind_rest_status : blind (rest_status rt).
Proof.
  unfold rest_status. apply blind_get_bind; [reflexivity|]. intros t.
  apply blind_bind; [apply blind_lift|]. intros j.
  apply blind_bind; [apply blind_lift|]. intros st.
  apply blind_bind; [apply blind_modify; reflexivity|]. intros _.
  apply blind_rest_hypotheses.
Qed.

Lemma blind_rest u : blind (rest rt u).
Proof.
  destruct u; simpl.
  - unfold rest_load. apply blind_get_bind; [reflexivity|]. intros t.
    apply blind_bind; [apply blind_lift|]. intros j.
    apply blind_bind; [apply blind_modify; reflexivity|]. intros _.
    apply blind_rest_status.
  - apply blind_rest_status.
  - apply blind_rest_hypotheses.
  - apply blind_rest_outer.
  - apply blind_rest_inner.
  - apply blind_rest_top.
  - apply blind_rest_words.
  - apply blind_rest_word.
Qed.

(** *** The parse in progress *)

Lemma parsing_start t : unparsed t -> parsing rt AtLoad t.
Proof.
  intros H. exists t, (snd (_unpackRaw rt t)). split; [exact H|].
  rewrite rest_load_unpack. split; [now destruct (_unpackRaw rt t)|].
  unfold results_agree. tauto.
Qed.

Lemma parsing_flag u b t : parsing rt u t -> parsing rt u (set_running b t).
Proof.
  intros [t1 [t2 [H1 [H2 H3]]]]. exists t1, t2. split; [exact H1|].
  rewrite (blind_rest u b t). simpl. split; [exact H2|exact H3].
Qed.

Lemma parsing_step u t :
  parsing rt u t ->
  match unpack_step rt u t with
  | (Py.Ok (Some u'), t') => parsing rt u' t'
  | (Py.Ok None, t') => parsed rt t'
  | (Py.Raise _, _) => True
  end.
Proof.
  intros [t1 [t2 [H1 [H2 H3]]]]. pose proof (rest_step u t) as R.
  destruct (unpack_step rt u t) as [[[u'|]|e] t']; [| |exact I].
  - exists t1, t2. rewrite R. auto.
  - rewrite R in H2, H3. simpl in H2, H3. exists t1, t2.
    unfold results_agree in H3. tauto.
Qed.

(** What a statement of [_unpackRaw] leaves alone. *)
Lemma unpack_step_frame u t r t' :
  unpack_step rt u t = (r, t') ->
  started t' = started t /\ running t' = running t /\ timedout t' = timedout t
  /\ t0 t' = t0 t /\ duration t' = duration t /\ raw t' = raw t
  /\ (r <> Py.Ok None -> word t' = word t).
Proof.
  destruct u as [| | |hl report|ul ks hl report|report|report|]; simpl.
  - unfold bind, get, lift, modify, ret.
    destruct (json_load (raw t)); intros E; inversion E; subst; simpl; tauto.
  - unfold bind, get, lift, modify, ret. destruct (the_json t) as [j|e].
    + destruct (Py.getitem j (Py.JStr "status"));
        intros E; inversion E; subst; simpl; tauto.
    + intros E; inversion E; subst; tauto.
  - unfold bind, get, lift, modify, ret. destruct (the_json t) as [j|e].
    + destruct (Py.getitem j (Py.JStr "hypotheses")) as [hyps|e].
      * destruct (Py.iter hyps); intros E; inversion E; subst; tauto.
      * intros E; inversion E; subst; tauto.
    + intros E; inversion E; subst; tauto.
  - destruct hl as [|ul hl]; unfold bind, lift, ret.
    + intros E; inversion E; subst; tauto.
    + destruct (Py.iter ul); intros E; inversion E; subst; tauto.
  - destruct ks as [|k ks]; unfold bind, ret.
    + intros E; inversion E; subst; tauto.
    + destruct (unpack_field rt ul report k t) as [[r1|e] t1] eqn:E1;
        intros E; inversion E; subst;
        apply preserves_unpack_field in E1; unfold same_but_confidence in E1;
        intuition congruence.
  - unfold bind, get, lift, modify, ret. destruct (the_json t) as [j|e].
    + destruct (Py.iter j) as [top|e].
      * destruct (foldM (unpack_top rt j) report top t) as [[r1|e] t1] eqn:E1;
          intros E; inversion E; subst;
          apply foldM_sbc_top in E1; unfold same_but_confidence in E1; simpl;
          intuition congruence.
      * intros E; inversion E; subst; tauto.
    + intros E; inversion E; subst; tauto.
  - unfold bind, lift, modify, ret.
    destruct (words_of_report report); intros E; inversion E; subst; simpl; tauto.
  - unfold bind, get, modify, ret. intros E; inversion E; subst; simpl.
    intuition congruence.
Qed.

(** *** The invariant *)

Lemma parsed_frame t t' :
  json t' = json t -> status t' = status t -> confidence t' = confidence t ->
  word t' = word t -> words t' = words t -> detailed t' = detailed t ->
  parsed rt t -> parsed rt t'.
Proof.
  intros H1 H2 H3 H4 H5 H6 [t1 [t2 H]]. exists t1, t2.
  intuition congruence.
Qed.

Lemma untouched_frame t t' :
  json t' = json t -> status t' = status t -> confidence t' = confidence t ->
  word t' = word t -> words t' = words t -> detailed t' = detailed t ->
  untouched t -> untouched t'.
Proof. unfold untouched, unparsed. intuition congruence. Qed.

Lemma invariant_new req q now : invariant rt (new_world req q now).
Proof. unfold invariant, untouched, unparsed. simpl. tauto. Qed.

Ltac frame_tac :=
  repeat match goal with
  | |- untouched _ => eapply untouched_frame; [..|eassumption]; reflexivity
  | |- parsed _ _ => eapply parsed_frame; [..|eassumption]; reflexivity
  | |- parsing _ _ (set_running _ _) => apply parsing_flag; assumption
  | |- _ /\ _ => split
  | |- _ = true -> _ => intro
  | |- _ => solve [ simpl in *; discriminate | simpl in *; lia ]
  | |- _ => solve [ assumption | reflexivity | discriminate | congruence | lia
                  | intros; discriminate | tauto ]
  end.

Lemma invariant_stop w : invariant rt w -> invariant rt (step rt w CallerStops).
Proof.
  unfold invariant, step, stop. simpl.
  destruct (ctl w); intros I; decompose [and] I; clear I; frame_tac.
Qed.

Lemma invariant_time w dt : invariant rt w -> invariant rt (step rt w (TimePasses dt)).
Proof. unfold invariant. simpl. destruct (ctl w); exact (fun I => I). Qed.

Lemma invariant_urlopen w o : invariant rt w -> invariant rt (step rt w (UrlopenEnds o)).
Proof.
  unfold step. destruct (ctl w) eqn:C; try exact (fun I => I).
  - unfold invariant. rewrite C. intros I. decompose [and] I; clear I.
    destruct o as [r|ex]; simpl; frame_tac.
  - unfold invariant. rewrite C. intros I. decompose [and] I; clear I.
    destruct o as [r|ex]; simpl; [frame_tac|].
    destruct (Py.is_StandardError (Py.exn_type ex)); simpl; frame_tac.
    match goal with H : untouched _ |- _ => destruct H as [[_ [_ [Hw _]]] _] end.
    exact Hw.
Qed.

Lemma untouched_word t : untouched t -> word t = "".
Proof. intros [[_ [_ [H _]]] _]. exact H. Qed.

Lemma untouched_unparsed t : untouched t -> unparsed t.
Proof. intros [H _]. exact H. Qed.

Lemma invariant_work w : invariant rt w -> invariant rt (worker_step rt w).
Proof.
  unfold worker_step. destruct (ctl w) eqn:C; unfold invariant at 1; rewrite C;
    intros I; try (unfold invariant; rewrite C; exact I).
  - (* NotStarted *) decompose [and] I; clear I. unfold invariant. simpl. frame_tac.
  - (* Begun1 *) decompose [and] I; clear I. unfold invariant. simpl. frame_tac.
  - (* Begun2 *) decompose [and] I; clear I. unfold invariant. simpl. frame_tac.
  - (* Begun3 *) decompose [and] I; clear I. unfold invariant. simpl. frame_tac.
  - (* Caught *) decompose [and] I; clear I. unfold invariant, _message.
    destruct (quiet w); simpl; frame_tac.
  - (* Messaged *) decompose [and] I; clear I. unfold invariant. simpl. frame_tac.
    intros E. apply app_eq_nil in E. destruct E; discriminate.
  - (* Warned *) decompose [and] I; clear I. unfold invariant. simpl. frame_tac.
  - (* Returned *) destruct I as [I1 [I2 [I3 [I4 [I5 [I6 I7]]]]]].
    destruct (t0 (thread w)) as [start|] eqn:E0; [|congruence].
    unfold invariant. simpl. rewrite E0. frame_tac; apply I6; assumption.
  - (* Timed *) destruct I as [I1 [I2 [I3 [I4 [I5 [I6 I7]]]]]].
    destruct (running (thread w)) eqn:Er; unfold invariant; simpl.
    + destruct (I6 eq_refl) as [Hraw Hw].
      frame_tac; [now apply untouched_word|].
      apply parsing_start. now apply untouched_unparsed.
    + frame_tac.
  - (* Unpacking *) destruct I as [I1 [I2 [I3 [I4 [I5 [I6 [I7 [I8 I9]]]]]]]].
    pose proof (parsing_step I9) as P.
    destruct (unpack_step rt u (thread w)) as [[[u'|]|e] t'] eqn:E;
      destruct (unpack_step_frame _ _ E) as [F1 [F2 [F3 [F4 [F5 [F6 F7]]]]]];
      unfold invariant; simpl; rewrite ?F1, ?F3, ?F4, ?F5, ?F6; frame_tac;
      (rewrite F7; [assumption|discriminate]).
  - (* Unpacked *) decompose [and] I; clear I. unfold invariant. simpl. frame_tac.
  - (* Cleared *) decompose [and] I; clear I. unfold invariant. simpl. frame_tac.
  - (* Lapsed *) decompose [and] I; clear I. unfold invariant. simpl. frame_tac.
Qed.

Lemma invariant_step w e : invariant rt w -> invariant rt (step rt w e).
Proof.
  destruct e.
  - apply invariant_work.
  - apply invariant_urlopen.
  - apply invariant_stop.
  - apply invariant_time.
Qed.

Lemma invariant_exec evs : forall w, invariant rt w -> invariant rt (exec rt evs w).
Proof.
  induction evs as [|e evs IH]; intros w I; [exact I|].
  rewrite exec_cons. apply IH, invariant_step, I.
Qed.

Lemma reachable_invariant w : reachable rt w -> invariant rt w.
Proof.
  intros [req [q [now [evs ->]]]]. apply invariant_exec, invariant_new.
Qed.

Lemma reachable_exec evs w : reachable rt w -> reachable rt (exec rt evs w).
Proof.
  intros [req [q [now [evs0 ->]]]]. exists req, q, now, (evs0 ++ evs)%list.
  now rewrite exec_app.
Qed.

Lemma reachable_new req q now : reachable rt (new_world req q now).
Proof. exists req, q, now, []. reflexivity. Qed.

End WorldFacts.

(** ** The response parser *)

Lemma utterance_in_report rt top hyps v :
  In v (utterances hyps) ->
  In (report_line rt (Py.JStr "utterance") v) (report_of rt top hyps).
Proof.
  intros H. unfold utterances in H. apply in_flat_map in H.
  destruct H as [d [Hd Hv]]. unfold report_of. apply in_or_app. left.
  apply in_flat_map. exists d. split; [exact Hd|].
  destruct (Py.assoc "utterance" d) as [v'|] eqn:E; [|contradiction].
  destruct Hv as [->|[]]. unfold lines_of. apply in_map_iff.
  exists "utterance". split; [|eapply assoc_some_in, E].
  unfold lookup. now rewrite E.
Qed.

Lemma map_spoken_plain rt vs :
  Forall (fun v => exists s, v = Py.JStr s /\ has_colon s = false
                             /\ flush_left s = true) vs ->
  map Py.JStr (map (spoken rt) vs) = vs.
Proof.
  induction vs as [|v vs IH]; intros H; [reflexivity|].
  inversion H as [|? ? [s [-> [Hc Hf]]] Hr]; subst. simpl.
  now rewrite (spoken_plain rt _ Hc Hf), (IH Hr).
Qed.


Lemma shaped_one rt (top : list (string * Py.jvalue)) (u : string) (f : float) st :
  Py.assoc "status" top = Some st ->
  Py.assoc "hypotheses" top
    = Some (Py.JList (map Py.JDict [[("utterance", Py.JStr u); ("confidence", Py.JFloat f)]])) ->
  shaped rt top [[("utterance", Py.JStr u); ("confidence", Py.JFloat f)]].
Proof.
  intros Hst Hh. split; [now exists st|]. split; [exact Hh|].
  constructor; [|constructor]. intros v E. inversion E; subst. now exists f.
Qed.

Lemma plain_keys_one (top : list (string * Py.jvalue)) (d : list (string * Py.jvalue)) :
  forallb (fun k => negb (Py.startswith k "utterance")) (Py.keys top) = true ->
  forallb (fun k => negb (Py.startswith k "utterance") || String.eqb k "utterance")
          (Py.keys d) = true ->
  NoDup (Py.keys d) ->
  plain_keys top [d].
Proof.
  intros Ht Hd Hn. split.
  - constructor; [|constructor]. split; [exact Hn|].
    intros k Hk E. rewrite forallb_forall in Hd. specialize (Hd k Hk).
    rewrite E in Hd. simpl in Hd. now apply String.eqb_eq.
  - intros k Hk. rewrite forallb_forall in Ht. specialize (Ht k Hk).
    now destruct (Py.startswith k "utterance").
Qed.

Lemma nodup_two (a b : string) : a <> b -> NoDup [a; b].
Proof.
  intros H. constructor; [simpl; intuition|]. constructor; [simpl; tauto|constructor].
Qed.

(** C4, as amended.  The payload
    [{"hypotheses": [{"utterance": "hello world", "confidence": 0.87}], "status": 0}]
    parses to [words == ("hello world",)], [word == "hello world"],
    [confidence == 0.87] and [status == 0].  In general, for a payload of
    the documented shape in which [utterance] is the only key that begins
    with these letters and every utterance is a text without a colon and
    without leading white space, [words] is the sequence of the utterance
    values in encounter order, and [word] is its first element, or the
    empty string when there is none. *)
Theorem unpack_words_of_utterances (rt : Py.runtime) :
  (forall t, raw t = Some Sample.hello ->
     exists t', _unpackRaw rt t = (Py.Ok tt, t')
       /\ words t' = ["hello world"] /\ word t' = "hello world"
       /\ confidence t' = Some 0.87%float /\ status t' = Some (Py.JInt 0))
  /\ (forall top hyps t,
        shaped rt top hyps -> plain_keys top hyps ->
        Forall (fun v => exists s, v = Py.JStr s /\ has_colon s = false
                                   /\ flush_left s = true) (utterances hyps) ->
        raw t = Some (HTTPResponse (Some (Py.JDict top))) ->
        exists t', _unpackRaw rt t = (Py.Ok tt, t')
          /\ map Py.JStr (words t') = utterances hyps
          /\ word t' = match words t' with w :: _ => w | [] => "" end).
Proof.
  split.
  - intros t Hraw. exists (parsed_task rt Sample.hello_top Sample.hello_hyps t).
    split; [|repeat split].
    apply unpack_shaped; [|exact Hraw].
    now apply shaped_one with (st := Py.JInt 0).
  - intros top hyps t Hs Hk Hu Hraw. exists (parsed_task rt top hyps t).
    split; [now apply unpack_shaped|]. split; [|reflexivity].
    rewrite parsed_words, (pick_words_report rt Hk). now apply map_spoken_plain.
Qed.

(** The general part of C4 at a payload of the documented shape with one
    hypothesis, a plain utterance and a float for its confidence. *)
Lemma unpack_words_of_utterances_witness :
  let t := set_raw (Some Sample.hello) (GSQueryThread_init Sample.req) in
  exists t', _unpackRaw Sample.rt t = (Py.Ok tt, t')
    /\ map Py.JStr (words t') = utterances Sample.hello_hyps
    /\ word t' = match words t' with w :: _ => w | [] => "" end.
Proof.
  intros t.
  apply (proj2 (unpack_words_of_utterances Sample.rt) Sample.hello_top Sample.hello_hyps t).
  - now apply shaped_one with (st := Py.JInt 0).
  - apply plain_keys_one; [reflexivity|reflexivity|].
    apply nodup_two. discriminate.
  - constructor; [|constructor]. exists "hello world". now repeat split.
  - reflexivity.
Defined.

(** C4 as stated fails: an utterance with a colon does not reach [words]
    whole. *)
Lemma words_cut_at_colon :
  let t' := snd (_unpackRaw Sample.rt
                   (set_raw (Some Sample.colon) (GSQueryThread_init Sample.req))) in
  utterances Sample.colon_hyps = [Py.JStr "ratio 3:4"]
  /\ words t' = ["ratio 3"]
  /\ map Py.JStr (words t') <> utterances Sample.colon_hyps.
Proof. repeat split. vm_compute. discriminate. Qed.

(** C10, as amended.  For a payload of the documented shape in which
    [utterance] is the only key that begins with these letters: an
    utterance that holds a colon reaches [words] (and, if it is the first,
    [word]) as the text before its first colon without that text's leading
    white space, hence as that very text when it starts with none; its
    report line in [detailed] still holds the full value. *)
Theorem colon_cuts_utterance (rt : Py.runtime) top hyps t :
  shaped rt top hyps -> plain_keys top hyps ->
  raw t = Some (HTTPResponse (Some (Py.JDict top))) ->
  exists t' report,
    _unpackRaw rt t = (Py.Ok tt, t')
    /\ detailed t' = Py.join Py.nl report
    /\ forall i a b,
         nth_error (utterances hyps) i = Some (Py.JStr (a ++ String ":"%char b)) ->
         has_colon a = false ->
         nth_error (words t') i = Some (Py.lstrip a)
         /\ (flush_left a = true -> nth_error (words t') i = Some a)
         /\ (i = 0 -> word t' = Py.lstrip a)
         /\ In ("utterance  : " ++ a ++ String ":"%char b) report.
Proof.
  intros Hs Hk Hraw.
  exists (parsed_task rt top hyps t), (report_of rt top hyps).
  split; [now apply unpack_shaped|]. split; [reflexivity|].
  intros i a b Hi Ha.
  assert (Hw : nth_error (words (parsed_task rt top hyps t)) i = Some (Py.lstrip a)).
  { rewrite parsed_words, (pick_words_report rt Hk).
    rewrite nth_error_map, Hi. simpl. now rewrite spoken_colon. }
  repeat split.
  - exact Hw.
  - intros Hf. now rewrite Hw, lstrip_flush.
  - intros ->. rewrite parsed_word.
    destruct (words (parsed_task rt top hyps t)); simpl in Hw; congruence.
  - apply nth_error_In in Hi.
    apply (utterance_in_report rt top) in Hi. exact Hi.
Qed.

(** C10 at the payload [{"status": 0, "hypotheses": [{"utterance": "ratio 3:4", "confidence": 0.87}]}]. *)
Lemma colon_cuts_utterance_witness :
  let t := set_raw (Some Sample.colon) (GSQueryThread_init Sample.req) in
  exists t' report,
    _unpackRaw Sample.rt t = (Py.Ok tt, t')
    /\ detailed t' = Py.join Py.nl report
    /\ forall i a b,
         nth_error (utterances Sample.colon_hyps) i
           = Some (Py.JStr (a ++ String ":"%char b)) ->
         has_colon a = false ->
         nth_error (words t') i = Some (Py.lstrip a)
         /\ (flush_left a = true -> nth_error (words t') i = Some a)
         /\ (i = 0 -> word t' = Py.lstrip a)
         /\ In ("utterance  : " ++ a ++ String ":"%char b) report.
Proof.
  intros t.
  apply (@colon_cuts_utterance Sample.rt Sample.colon_top Sample.colon_hyps t).
  - now apply shaped_one with (st := Py.JInt 0).
  - apply plain_keys_one; [reflexivity|reflexivity|].
    apply nodup_two. discriminate.
  - reflexivity.
Defined.

(** C10 as stated fails: of the utterance [" a:b"] the text before the
    first colon is [" a"], and [words] holds ["a"]. *)
Lemma leading_blank_is_lost :
  let t' := snd (_unpackRaw Sample.rt
                   (set_raw (Some Sample.indented) (GSQueryThread_init Sample.req))) in
  utterances Sample.indented_hyps = [Py.JStr (" a" ++ String ":"%char "b")]
  /\ has_colon " a" = false
  /\ nth_error (words t') 0 = Some "a"
  /\ nth_error (words t') 0 <> Some " a".
Proof. repeat split. vm_compute. discriminate. Qed.

Section Lifecycle.
Variable rt : Py.runtime.

Ltac branches w :=
  rewrite ?(stop_idle);
  try (unfold _message; destruct (quiet w); simpl);
  try (match goal with
       | |- context [match t0 (thread w) with _ => _ end] =>
           destruct (t0 (thread w)) eqn:?; simpl
       end);
  try (match goal with
       | |- context [if running (thread w) then _ else _] =>
           destruct (running (thread w)) eqn:?; simpl
       end);
  try (match goal with
       | |- context [unpack_step rt ?u ?t] =>
           let Eu := fresh "Eu" in
           destruct (unpack_step rt u t) as [[[?|]|?] ?] eqn:Eu;
           pose proof (unpack_step_frame _ _ _ Eu); simpl
       end);
  try (match goal with
       | |- context [run_first_outcome ?o _] => destruct o; simpl
       | |- context [run_retry_outcome ?o _] =>
           destruct o as [?|?ex]; simpl;
           [|destruct (Py.is_StandardError (Py.exn_type ex)); simpl]
       end).

Lemma with_clock_idem c c' w : with_clock c (with_clock c' w) = with_clock c w.
Proof. reflexivity. Qed.

Lemma with_clock_same w : with_clock (clock w) w = w.
Proof. now destruct w. Qed.

Lemma with_thread_same w : with_thread (thread w) w = w.
Proof. now destruct w. Qed.

(** Once [run()] has returned, nothing but the clock changes. *)
Lemma finished_forever evs : forall w,
  ctl w = Finished -> running (thread w) = false ->
  exists c, exec rt evs w = with_clock c w.
Proof.
  induction evs as [|e evs IH]; intros w Hc Hr.
  - exists (clock w). now rewrite with_clock_same.
  - rewrite exec_cons.
    assert (H : exists c, step rt w e = with_clock c w).
    { destruct e as [|o| |dt]; simpl.
      - exists (clock w). unfold worker_step. rewrite Hc. now rewrite with_clock_same.
      - exists (clock w). rewrite Hc. now rewrite with_clock_same.
      - exists (clock w). rewrite (stop_idle _ Hr).
        now rewrite with_thread_same, with_clock_same.
      - eauto. }
    destruct H as [c ->].
    destruct (IH (with_clock c w) Hc Hr) as [c' ->]. exists c'. apply with_clock_idem.
Qed.

(** Once an exception has left [run()], the worker does nothing more. *)
Lemma died_forever evs : forall w ex,
  ctl w = Died ex ->
  ctl (exec rt evs w) = Died ex
  /\ (forallb (fun e => negb (outside e) || is_time e) evs = true ->
      thread (exec rt evs w) = thread w).
Proof.
  induction evs as [|e evs IH]; intros w ex Hc; [auto|].
  rewrite exec_cons.
  assert (H : ctl (step rt w e) = Died ex
              /\ (negb (outside e) || is_time e = true -> thread (step rt w e) = thread w)).
  { assert (Hw : worker_step rt w = w) by (unfold worker_step; now rewrite Hc).
    assert (Hu : forall o, step rt w (UrlopenEnds o) = w)
      by (intros o; simpl; now rewrite Hc).
    destruct e as [|o| |dt].
    - simpl step. rewrite Hw. auto.
    - rewrite Hu. auto.
    - simpl. split; [exact Hc|discriminate].
    - simpl. auto. }
  destruct H as [H1 H2]. destruct (IH _ _ H1) as [I1 I2].
  split; [exact I1|]. intros Hall. simpl in Hall. apply andb_true_iff in Hall.
  destruct Hall as [Ha Hb]. rewrite (I2 Hb). now apply H2.
Qed.

(** Nothing but [run()]'s second statement sets the running flag. *)
Lemma running_off_step w e :
  flag_set (ctl w) = true -> running (thread w) = false ->
  flag_set (ctl (step rt w e)) = true /\ running (thread (step rt w e)) = false.
Proof.
  intros Hc Hr. destruct e as [|o| |dt]; simpl; [| |auto|auto].
  - unfold worker_step. destruct (ctl w) eqn:E; try discriminate; simpl; rewrite ?E;
      branches w;
      first [solve [exfalso; congruence] | split; [reflexivity|intuition congruence]].
  - destruct (ctl w) eqn:E; try discriminate; rewrite ?E; branches w;
      first [solve [exfalso; congruence] | split; [reflexivity|intuition congruence]].
Qed.

Lemma running_stays_off evs : forall w,
  flag_set (ctl w) = true -> running (thread w) = false ->
  flag_set (ctl (exec rt evs w)) = true /\ running (thread (exec rt evs w)) = false.
Proof.
  induction evs as [|e evs IH]; intros w Hc Hr; [auto|].
  rewrite exec_cons. destruct (@running_off_step w e Hc Hr) as [H1 H2]. now apply IH.
Qed.

(** The start time is written once. *)
Lemma t0_step w e :
  ctl w <> NotStarted ->
  ctl (step rt w e) <> NotStarted /\ t0 (thread (step rt w e)) = t0 (thread w).
Proof.
  intros Hc. destruct e as [|o| |dt]; simpl; [| |auto|auto].
  - unfold worker_step. destruct (ctl w) eqn:E; try congruence; simpl; rewrite ?E;
      branches w;
      first [solve [exfalso; congruence] | split; [congruence|intuition congruence]].
  - destruct (ctl w) eqn:E; try congruence; rewrite ?E; branches w;
      first [solve [exfalso; congruence] | split; [congruence|intuition congruence]].
Qed.

Lemma t0_fixed evs : forall w,
  ctl w <> NotStarted ->
  ctl (exec rt evs w) <> NotStarted /\ t0 (thread (exec rt evs w)) = t0 (thread w).
Proof.
  induction evs as [|e evs IH]; intros w Hc; [auto|].
  rewrite exec_cons. destruct (@t0_step w e Hc) as [H1 H2].
  destruct (IH _ H1) as [I1 I2]. split; [exact I1|congruence].
Qed.

Lemma clock_step w e : forward e -> (clock w <= clock (step rt w e))%Q.
Proof.
  intros Hf. destruct e as [|o| |dt]; simpl.
  - unfold worker_step. destruct (ctl w) eqn:E; simpl; branches w; apply Qle_refl.
  - destruct (ctl w) eqn:E; branches w; apply Qle_refl.
  - apply Qle_refl.
  - simpl in Hf. lra.
Qed.

Lemma clock_forward evs : forall w,
  Forall forward evs -> (clock w <= clock (exec rt evs w))%Q.
Proof.
  induction evs as [|e evs IH]; intros w H; [apply Qle_refl|].
  inversion H; subst. rewrite exec_cons.
  eapply Qle_trans; [apply clock_step; eassumption|now apply IH].
Qed.

(** The duration is computed once. *)
Lemma duration_step w e :
  timed (ctl w) = true \/ (exists ex, ctl w = Died ex) ->
  (timed (ctl (step rt w e)) = true \/ exists ex, ctl (step rt w e) = Died ex)
  /\ duration (thread (step rt w e)) = duration (thread w).
Proof.
  intros Hc. destruct e as [|o| |dt]; simpl; [| |auto|auto].
  - unfold worker_step.
    destruct (ctl w) eqn:E; try (destruct Hc as [Hc|[? Hc]]; discriminate);
      simpl; rewrite ?E; branches w;
      first [solve [exfalso; congruence] | split; [eauto|intuition congruence]].
  - destruct (ctl w) eqn:E; try (destruct Hc as [Hc|[? Hc]]; discriminate);
      rewrite ?E; (split; [eauto|reflexivity]).
Qed.

Lemma duration_fixed evs : forall w,
  timed (ctl w) = true \/ (exists ex, ctl w = Died ex) ->
  duration (thread (exec rt evs w)) = duration (thread w).
Proof.
  induction evs as [|e evs IH]; intros w Hc; [reflexivity|].
  rewrite exec_cons. destruct (@duration_step w e Hc) as [H1 H2].
  now rewrite (IH _ H1).
Qed.

(** On its way through the branch that does not parse, [run()] writes
    the duration and the timed-out flag, and nothing else. *)
Lemma lapse_step w e n :
  lapse_left (ctl w) = Some n -> running (thread w) = false ->
  t0 (thread w) <> None -> untouched (thread w) ->
  (n = 0 -> timedout (thread w) = true) ->
  let w' := step rt w e in
  exists n',
    lapse_left (ctl w') = Some n'
    /\ n' = match e with WorkerSteps => Nat.pred n | _ => n end
    /\ running (thread w') = false /\ t0 (thread w') <> None
    /\ untouched (thread w') /\ warnings w' = warnings w
    /\ (n' = 0 -> timedout (thread w') = true).
Proof.
  intros Hn Hr H0 Hu Ht.
  assert (K : forall w' n', lapse_left (ctl w') = Some n' ->
              n' = match e with WorkerSteps => Nat.pred n | _ => n end ->
              running (thread w') = false -> t0 (thread w') <> None ->
              untouched (thread w') -> warnings w' = warnings w ->
              (n' = 0 -> timedout (thread w') = true) ->
              exists n',
                lapse_left (ctl w') = Some n'
                /\ n' = match e with WorkerSteps => Nat.pred n | _ => n end
                /\ running (thread w') = false /\ t0 (thread w') <> None
                /\ untouched (thread w') /\ warnings w' = warnings w
                /\ (n' = 0 -> timedout (thread w') = true)).
  { intros w' n' K1 K2 K3 K4 K5 K6 K7. exists n'. tauto. }
  destruct e as [|o| |dt].
  - cbn [step]. unfold worker_step. destruct (ctl w) eqn:E; try discriminate;
      simpl in Hn; injection Hn as <-.
    + destruct (t0 (thread w)) as [start|] eqn:E0; [|congruence].
      apply (K _ 2); simpl; rewrite ?E0; auto; discriminate.
    + rewrite Hr. apply (K _ 1); simpl; auto; discriminate.
    + apply (K _ 0); simpl; auto.
    + apply (K _ 0); simpl; rewrite ?E; auto.
  - cbn [step]. destruct (ctl w) eqn:E; try discriminate; apply (K _ n);
      rewrite ?E; auto.
  - apply (K (step rt w CallerStops) n); simpl; auto.
  - apply (K (step rt w (TimePasses dt)) n); simpl; auto.
Qed.

Lemma lapse_exec evs : forall w n,
  lapse_left (ctl w) = Some n -> running (thread w) = false ->
  t0 (thread w) <> None -> untouched (thread w) ->
  (n = 0 -> timedout (thread w) = true) ->
  let w' := exec rt evs w in
  exists n',
    lapse_left (ctl w') = Some n' /\ n' = n - worker_steps evs
    /\ running (thread w') = false
    /\ untouched (thread w') /\ warnings w' = warnings w
    /\ (n' = 0 -> timedout (thread w') = true).
Proof.
  induction evs as [|e evs IH]; intros w n Hn Hr H0 Hu Ht.
  - exists n. cbv zeta. unfold worker_steps. simpl. rewrite Nat.sub_0_r. tauto.
  - cbv zeta. rewrite exec_cons.
    destruct (@lapse_step w e n Hn Hr H0 Hu Ht) as [n1 [A1 [A2 [A3 [A4 [A5 [A6 A7]]]]]]].
    destruct (IH (step rt w e) n1 A1 A3 A4 A5 A7) as [n2 [B1 [B2 [B3 [B4 [B5 B6]]]]]].
    exists n2. split; [exact B1|]. split.
    { rewrite B2, A2. unfold worker_steps. destruct e; simpl; lia. }
    split; [exact B3|]. split; [exact B4|]. split; [congruence|exact B6].
Qed.

End Lifecycle.

Section Cancellation.
Variable rt : Py.runtime.

Lemma lapse_left_zero c : lapse_left c = Some 0 -> c = Finished.
Proof. destruct c; simpl; intros H; try discriminate; reflexivity. Qed.

Lemma lapse_left_finished c n : lapse_left c = Some n -> c = Finished -> n = 0.
Proof. intros H ->. simpl in H. congruence. Qed.

(** C2.  [stop()] is called while a call of [urlopen] is pending.
    Whatever happens next, when a pending call then returns a response,
    the payload is not parsed: from then on, at every point and under
    every interleaving of the worker, the caller and the clock, the
    running flag is off, [word], [words], [confidence], [json] and
    [detailed] keep their defaults, [status] stays unset and the task is
    not Succeeded; and as soon as the worker has executed the three
    statements that [run()] has left, the task is TimedOut. *)
Theorem stop_before_return (w0 : world) (evs post : list event) (r : http_response) :
  reachable rt w0 -> in_flight w0 ->
  let w1 := exec rt (CallerStops :: evs) w0 in
  in_flight w1 ->
  let w' := exec rt (UrlopenEnds (Returns r) :: post) w1 in
  (3 <= worker_steps post -> TimedOut w')
  /\ (terminal w' -> TimedOut w')
  /\ ~ Succeeded w'
  /\ running (thread w') = false
  /\ word (thread w') = "" /\ words (thread w') = []
  /\ confidence (thread w') = None /\ json (thread w') = None
  /\ detailed (thread w') = "" /\ status (thread w') = None.
Proof.
  intros Hreach Hfl w1 Hfl1 w'.
  assert (Hr1 : running (thread w1) = false).
  { subst w1. rewrite exec_cons.
    apply running_stays_off; [|reflexivity].
    simpl. destruct Hfl as [-> | ->]; reflexivity. }
  assert (Hreach1 : reachable rt w1) by (apply reachable_exec, Hreach).
  pose proof (reachable_invariant Hreach1) as I1. unfold invariant in I1.
  assert (H1 : untouched (thread w1) /\ t0 (thread w1) <> None /\ warnings w1 = []).
  { destruct Hfl1 as [E|E]; rewrite E in I1; tauto. }
  destruct H1 as [Hu1 [H01 Hw1]].
  set (w2 := step rt w1 (UrlopenEnds (Returns r))).
  assert (H2 : ctl w2 = Returned /\ thread w2 = set_raw (Some r) (thread w1)
               /\ warnings w2 = warnings w1).
  { subst w2. simpl. destruct Hfl1 as [E|E]; rewrite E; simpl; auto. }
  destruct H2 as [Hc2 [Ht2 Hw2]].
  assert (L : exists n',
             lapse_left (ctl w') = Some n' /\ n' = 3 - worker_steps post
             /\ running (thread w') = false
             /\ untouched (thread w') /\ warnings w' = warnings w2
             /\ (n' = 0 -> timedout (thread w') = true)).
  { subst w'. rewrite exec_cons. fold w2.
    apply lapse_exec.
    - now rewrite Hc2.
    - rewrite Ht2. exact Hr1.
    - rewrite Ht2. exact H01.
    - rewrite Ht2. exact Hu1.
    - discriminate. }
  destruct L as [n' [L1 [L2 [L3 [[[U1 [U2 [U3 [U4 U5]]]] U6] [L5 L6]]]]]].
  assert (Hfin : terminal w' -> TimedOut w').
  { intros Hc. unfold TimedOut. split; [exact Hc|]. split.
    - apply L6. eapply lapse_left_finished; eassumption.
    - congruence. }
  split; [|split; [exact Hfin|]].
  - intros Hsteps. apply Hfin. apply lapse_left_zero. rewrite L1. f_equal. lia.
  - split; [|tauto].
    intros [Hc Ht]. destruct (Hfin Hc) as [_ [Ht' _]]. congruence.
Qed.

End Cancellation.

Lemma calling_reachable : reachable Sample.rt Sample.calling.
Proof. exists Sample.req, true, 0%Q, (work 4). reflexivity. Qed.

(** C2 on a task whose first call is pending: [stop()], three seconds, the
    response, and the three statements that [run()] has left. *)
Lemma stop_before_return_witness :
  let w' := exec Sample.rt (UrlopenEnds (Returns Sample.hello) :: work 3)
              (exec Sample.rt (CallerStops :: [TimePasses (3#1)]) Sample.calling) in
  TimedOut w'
  /\ ~ Succeeded w'
  /\ running (thread w') = false
  /\ word (thread w') = "" /\ words (thread w') = []
  /\ confidence (thread w') = None /\ json (thread w') = None
  /\ detailed (thread w') = "" /\ status (thread w') = None.
Proof.
  intros w'.
  destruct (@stop_before_return Sample.rt Sample.calling [TimePasses (3#1)] (work 3)
              Sample.hello calling_reachable (or_introl eq_refl) (or_introl eq_refl))
    as [H1 [_ H2]].
  split; [apply H1; apply le_n|exact H2].
Defined.

Section Elapsed.
Variable rt : Py.runtime.

Lemma started_t0 w :
  invariant rt w -> started (thread w) = true ->
  ctl w <> NotStarted /\ exists start, t0 (thread w) = Some start.
Proof.
  unfold invariant. intros I Hs.
  assert (H : ctl w <> NotStarted /\ t0 (thread w) <> None).
  { destruct (ctl w); try (split; [discriminate|tauto]);
      destruct I as [I _]; congruence. }
  destruct H as [H1 H2]. split; [exact H1|].
  destruct (t0 (thread w)) as [start|]; [eauto|congruence].
Qed.

Lemma finished_facts w :
  invariant rt w -> ctl w = Finished ->
  started (thread w) = true /\ running (thread w) = false
  /\ exists d, duration (thread w) = Some d.
Proof.
  unfold invariant. intros I Hc. rewrite Hc in I.
  destruct I as [I1 [I2 [_ [I4 _]]]]. split; [exact I1|]. split; [exact I2|].
  destruct (duration (thread w)) as [d|]; [eauto|congruence].
Qed.


(** C5, as amended.  For every task: [elapsed()] returns [None] before
    [run()] has begun.  While both flags are on it returns the clock's
    reading less the recorded start time, which does not decrease from one
    call to a later one as long as the clock does not run backwards.  When
    the running flag is off and [run()] has not yet computed the duration
    (after [stop()], or after a retry that failed), it returns the
    placeholder 0.  Once [run()] has returned it returns the same number at
    every call: the clock's reading when [run()] computed the duration,
    less the start time. *)
Theorem elapsed_by_state (w : world) :
  reachable rt w ->
  (Created w -> elapsed (clock w) (thread w) = None)
  /\ (Live w ->
      exists start,
        t0 (thread w) = Some start
        /\ elapsed (clock w) (thread w) = Some (clock w - start)%Q
        /\ forall evs, Forall forward evs -> Live (exec rt evs w) ->
             let w' := exec rt evs w in
             elapsed (clock w') (thread w') = Some (clock w' - start)%Q
             /\ elapsed_le (elapsed (clock w) (thread w))
                           (elapsed (clock w') (thread w')))
  /\ (in_try (ctl w) = true -> running (thread w) = false ->
      elapsed (clock w) (thread w) = Some 0%Q)
  /\ (ctl w = Returned ->
      exists start,
        t0 (thread w) = Some start
        /\ forall evs,
             let w' := exec rt (WorkerSteps :: evs) w in
             terminal w' ->
             elapsed (clock w') (thread w') = Some (clock w - start)%Q)
  /\ (terminal w ->
      exists d, forall evs,
        let w' := exec rt evs w in
        elapsed (clock w') (thread w') = Some d).
Proof.
  intros Hreach. pose proof (reachable_invariant Hreach) as I.
  split; [|split; [|split; [|split]]].
  - intros Hc. unfold Created in Hc. unfold invariant in I. rewrite Hc in I.
    destruct I as [Hs _]. unfold elapsed. now rewrite Hs.
  - intros [Hs Hr]. destruct (@started_t0 w I Hs) as [Hc [start H0]].
    exists start. split; [exact H0|].
    assert (Hnow : elapsed (clock w) (thread w) = Some (clock w - start)%Q).
    { unfold elapsed. now rewrite Hs, Hr, H0. }
    split; [exact Hnow|].
    intros evs Hfw [Hs' Hr'] w'.
    destruct (@t0_fixed rt evs w Hc) as [_ H0'].
    assert (Hlater : elapsed (clock w') (thread w') = Some (clock w' - start)%Q).
    { unfold elapsed. subst w'. now rewrite Hs', Hr', H0', H0. }
    split; [exact Hlater|]. rewrite Hnow, Hlater. simpl.
    pose proof (@clock_forward rt evs w Hfw) as Hle. fold w' in Hle. lra.
  - intros Hc Hr. unfold invariant in I.
    assert (H : started (thread w) = true /\ duration (thread w) = Some 0%Q).
    { destruct (ctl w); try discriminate; tauto. }
    destruct H as [Hs Hd]. unfold elapsed. now rewrite Hs, Hr.
  - intros Hc. unfold invariant in I. rewrite Hc in I.
    destruct I as [_ [_ [_ [H0 _]]]].
    destruct (t0 (thread w)) as [start|] eqn:E0; [|congruence].
    exists start. split; [reflexivity|]. intros evs w' Hfin.
    assert (Hreach' : reachable rt w') by (apply reachable_exec, Hreach).
    destruct (@finished_facts w' (reachable_invariant Hreach') Hfin) as [Hs [Hr _]].
    unfold elapsed. rewrite Hs, Hr. simpl. subst w'. rewrite exec_cons.
    rewrite duration_fixed.
    + simpl. unfold worker_step. rewrite Hc, E0. reflexivity.
    + left. simpl. unfold worker_step. rewrite Hc, E0. reflexivity.
  - intros Hc. destruct (@finished_facts w I Hc) as [Hs [Hr [d Hd]]].
    exists d. intros evs w'.
    destruct (@finished_forever rt evs w Hc Hr) as [c E].
    subst w'. rewrite E. unfold elapsed. simpl. now rewrite Hs, Hr.
Qed.


End Elapsed.

Lemma answered_reachable : reachable Sample.rt Sample.answered.
Proof. unfold Sample.answered. apply reachable_exec, calling_reachable. Qed.

Lemma stopped_reachable : reachable Sample.rt Sample.stopped.
Proof. unfold Sample.stopped. apply reachable_exec, calling_reachable. Qed.

Lemma answered_finished : ctl Sample.answered = Finished.
Proof. vm_compute. reflexivity. Qed.

(** C5, as amended, on a task whose first call is pending, on the same
    task after [stop()], and on a task that got its answer. *)
Lemma elapsed_by_state_witness :
  (exists start,
     t0 (thread Sample.calling) = Some start
     /\ elapsed (clock Sample.calling) (thread Sample.calling)
        = Some (clock Sample.calling - start)%Q
     /\ forall evs, Forall forward evs -> Live (exec Sample.rt evs Sample.calling) ->
          let w' := exec Sample.rt evs Sample.calling in
          elapsed (clock w') (thread w') = Some (clock w' - start)%Q
          /\ elapsed_le (elapsed (clock Sample.calling) (thread Sample.calling))
                        (elapsed (clock w') (thread w')))
  /\ elapsed (clock Sample.stopped) (thread Sample.stopped) = Some 0%Q
  /\ (exists d, forall evs,
        let w' := exec Sample.rt evs Sample.answered in
        elapsed (clock w') (thread w') = Some d).
Proof.
  split; [|split].
  - apply (proj1 (proj2 (@elapsed_by_state Sample.rt Sample.calling calling_reachable))).
    split; vm_compute; reflexivity.
  - apply (proj1 (proj2 (proj2
             (@elapsed_by_state Sample.rt Sample.stopped stopped_reachable))));
      vm_compute; reflexivity.
  - apply (proj2 (proj2 (proj2 (proj2
             (@elapsed_by_state Sample.rt Sample.answered answered_reachable))))).
    exact answered_finished.
Defined.

(** C5 as stated fails: a task that is under way, in its network call,
    answers 3 to [elapsed()] and, after [stop()], 0, though the clock has
    not run backwards; the 0 is neither the time since the start nor the
    duration that the task reports once [run()] has returned, which is 8. *)
Lemma elapsed_drops_when_stopped :
  let a := exec Sample.rt [TimePasses (3#1)] Sample.calling in
  let b := exec Sample.rt [CallerStops] a in
  let c := exec Sample.rt
             (TimePasses (5#1) :: UrlopenEnds (Returns Sample.hello) :: work 3) b in
  Running a /\ Running b /\ ~ terminal b /\ (clock a <= clock b)%Q
  /\ elapsed (clock a) (thread a) = Some (3#1)%Q
  /\ elapsed (clock b) (thread b) = Some 0%Q
  /\ ~ elapsed_le (elapsed (clock a) (thread a)) (elapsed (clock b) (thread b))
  /\ terminal c
  /\ elapsed (clock c) (thread c) = Some (8#1)%Q.
Proof.
  cbv zeta.
  split; [vm_compute; reflexivity|]. split; [vm_compute; reflexivity|].
  split; [vm_compute; discriminate|].
  split; [vm_compute; discriminate|].
  split; [vm_compute; reflexivity|]. split; [vm_compute; reflexivity|].
  split; [|split; vm_compute; reflexivity].
  vm_compute. intros H. apply H. reflexivity.
Qed.



(** C1 at its failing input: the first call is refused and the retry
    ends in httplib's [BadStatusLine], which is no [StandardError].  The
    exception leaves [run()]: nothing is printed or logged, the running
    flag stays on, and the task never comes to a terminal state. *)
Lemma second_failure_escapes :
  let w' := exec Sample.rt
              [UrlopenEnds (Raises Sample.refused); UrlopenEnds (Raises Sample.bad_status)]
              Sample.calling_aloud in
  quiet w' = false
  /\ ctl w' = Died Sample.bad_status
  /\ urlopen_calls w' = 2
  /\ running (thread w') = true /\ timedout (thread w') = false
  /\ stdout w' = [] /\ warnings w' = []
  /\ forall later,
       let w'' := exec Sample.rt later w' in
       ~ terminal w'' /\ ~ Failed w'' /\ ~ TimedOut w''
       /\ stdout w'' = [] /\ warnings w'' = []
       /\ (forallb (fun e => negb (outside e) || is_time e) later = true ->
           running (thread w'') = true).
Proof.
  cbv zeta.
  set (w' := exec Sample.rt _ Sample.calling_aloud).
  assert (Hc : ctl w' = Died Sample.bad_status) by (vm_compute; reflexivity).
  repeat (split; [vm_compute; reflexivity|]).
  intros later. destruct (@died_forever Sample.rt later w' _ Hc) as [D1 D2].
  assert (Hio : forall evs w, ctl w = Died Sample.bad_status ->
                  stdout (exec Sample.rt evs w) = stdout w
                  /\ warnings (exec Sample.rt evs w) = warnings w).
  { induction evs as [|e evs IH]; intros w Hw; [auto|].
    rewrite exec_cons.
    assert (Hs : ctl (step Sample.rt w e) = Died Sample.bad_status
                 /\ stdout (step Sample.rt w e) = stdout w
                 /\ warnings (step Sample.rt w e) = warnings w).
    { destruct e as [|o| |dt]; simpl; unfold worker_step; rewrite ?Hw; auto. }
    destruct Hs as [S1 [S2 S3]]. destruct (IH _ S1) as [I1 I2].
    split; congruence. }
  destruct (Hio later w' Hc) as [O1 O2].
  split; [unfold terminal; congruence|].
  split; [intros [H _]; congruence|].
  split; [intros [H _]; congruence|].
  split; [rewrite O1; reflexivity|]. split; [rewrite O2; reflexivity|].
  intros Hall. rewrite (D2 Hall). reflexivity.
Qed.

(** C3 at its failing input: the query's timeout is ten seconds, the
    worker begins at once, the first sleep of the polling loop lasts
    eleven seconds, and the answer comes after that.  [getResponse]
    returns the task with status 408 and with its running flag still on;
    when the call then returns, the worker parses the payload into the
    task that the caller holds, and the payload's status replaces the 408.
    With the [stop()] that the command line adds to the same assignment,
    the same events leave the 408 in place. *)
Lemma late_answer_overwrites_408 :
  getResponse Sample.rt Sample.gs true 0%Q (work 4) [[TimePasses (11#1)]] []
  = Some Sample.late
  /\ running (thread Sample.late) = true
  /\ status (thread Sample.late) = Some (Py.JInt 408)
  /\ words (thread Sample.late) = []
  /\ (let w'' := exec Sample.rt (UrlopenEnds (Returns Sample.hello) :: work 15)
                   Sample.late in
      Succeeded w''
      /\ status (thread w'') = Some (Py.JInt 0)
      /\ status (thread w'') <> Some (Py.JInt 408)
      /\ words (thread w'') = ["hello world"]
      /\ running (thread w'') = false)
  /\ (let s := exec Sample.rt (UrlopenEnds (Returns Sample.hello) :: work 15)
                 (step Sample.rt Sample.late CallerStops) in
      terminal s
      /\ status (thread s) = Some (Py.JInt 408)
      /\ words (thread s) = []).
Proof.
  cbv zeta.
  split; [vm_compute; reflexivity|]. split; [vm_compute; reflexivity|].
  split; [vm_compute; reflexivity|]. split; [vm_compute; reflexivity|].
  split.
  - split; [split; vm_compute; reflexivity|].
    split; [vm_compute; reflexivity|]. split; [vm_compute; discriminate|].
    split; vm_compute; reflexivity.
  - split; [vm_compute; reflexivity|]. split; vm_compute; reflexivity.
Qed.

(** ** The request builder *)

Section BuilderFacts.
Variable S : Type.
Variable pf : Builder.platform S.
Variable quiet : bool.

Import Builder.

Lemma extends_refl (st : io S) : extends st st.
Proof. exists []. now rewrite app_nil_r. Qed.

Lemma extends_trans (a b c : io S) : extends a b -> extends b c -> extends a c.
Proof.
  intros [m1 H1] [m2 H2]. exists (m1 ++ m2)%list. now rewrite H2, H1, app_assoc.
Qed.

Lemma extends_act a s' (st : io S) : extends st (act a s' st).
Proof. now exists [a]. Qed.

Lemma extends_message msg (st : io S) : extends st (message quiet msg st).
Proof.
  unfold message. destruct quiet; [apply extends_refl|].
  exists []. simpl. now rewrite app_nil_r.
Qed.

Lemma extends_isfile p (st : io S) : extends st (snd (do_isfile pf p st)).
Proof.
  unfold do_isfile. destruct (isfile pf p (os_state st)). apply extends_act.
Qed.

Lemma extends_encode cmd (st : io S) : extends st (snd (encode pf quiet cmd st)).
Proof.
  unfold encode, do_shellCall. destruct (shellCall pf cmd (os_state st)) as [r s'].
  destruct r as [[so se]|e]; simpl.
  - destruct (String.eqb se "").
    + apply extends_act.
    + eapply extends_trans; [apply extends_act|apply extends_message].
  - apply extends_act.
Qed.

Lemma extends_rerun tmp cmd (st : io S) : extends st (rerun pf quiet tmp cmd st).
Proof.
  unfold rerun.
  eapply extends_trans; [apply extends_isfile|].
  eapply extends_trans; [apply extends_message|apply extends_encode].
Qed.

Lemma extends_encode_again tmp cmd fuel : forall (st st' : io S) r,
  encode_again pf quiet fuel tmp cmd st = Some (r, st') -> extends st st'.
Proof.
  induction fuel as [|fuel IH]; intros st st' r; simpl; [discriminate|].
  pose proof (extends_isfile tmp st) as H1.
  destruct (do_isfile pf tmp st) as [found st1]. simpl in H1.
  destruct found.
  - intros E; inversion E; subst. exact H1.
  - set (st2 := message quiet "Failed to convert to tmp.flac; trying again" st1).
    pose proof (extends_encode cmd st2) as H3.
    assert (H2 : extends st st2).
    { eapply extends_trans; [exact H1|apply extends_message]. }
    destruct (encode pf quiet cmd st2) as [[u|e] st3]; simpl in H3.
    + intros E. apply IH in E.
      eapply extends_trans; [exact H2|]. eapply extends_trans; [exact H3|exact E].
    + intros E; inversion E; subst. eapply extends_trans; [exact H2|exact H3].
Qed.

Lemma extends_await left : forall p (st : io S), extends st (await_file pf left p st).
Proof.
  induction left as [|left IH]; intros p st; simpl.
  - pose proof (extends_isfile p st) as H.
    destruct (do_isfile pf p st) as [found st1]. now destruct found.
  - pose proof (extends_isfile p st) as H.
    destruct (do_isfile pf p st) as [found st1]. simpl in H.
    destruct found; [exact H|].
    eapply extends_trans; [exact H|].
    eapply extends_trans; [apply extends_act|apply IH].
Qed.

Lemma extends_load opt orig p ft tmp (st : io S) :
  extends st (snd (load_and_build pf quiet opt orig p ft tmp st)).
Proof.
  unfold load_and_build.
  set (st1 := message quiet _ st).
  assert (H1 : extends st st1) by apply extends_message.
  set (st2 := await_file pf 10 p st1).
  assert (H2 : extends st st2).
  { eapply extends_trans; [exact H1|apply extends_await]. }
  unfold do_read. destruct (read pf p (os_state st2)) as [audio s'].
  set (st3 := act (ReadFile p) s' st2).
  assert (H3 : extends st st3).
  { eapply extends_trans; [exact H2|apply extends_act]. }
  destruct audio as [audio|]; simpl.
  - destruct tmp as [t|]; unfold do_remove.
    + eapply extends_trans; [exact H3|].
      eapply extends_trans; [apply extends_act|apply extends_act].
    + eapply extends_trans; [exact H3|apply extends_act].
  - destruct tmp as [t|]; unfold do_remove, warn.
    + eapply extends_trans; [exact H3|]. now exists [Remove t].
    + eapply extends_trans; [exact H3|]. exists []. simpl. now rewrite app_nil_r.
Qed.

(** The header of a request that the builder has made. *)
Lemma load_content_type opt orig p ft tmp (st st' : io S) gs :
  load_and_build pf quiet opt orig p ft tmp st = (Py.Ok gs, st') ->
  header_given "Content-Type" (request gs)
  = Some ("audio/" ++ ft ++ "; rate=" ++ Py.fmt_d (Opt.samplingrate opt)).
Proof.
  unfold load_and_build.
  destruct (do_read pf p _) as [[audio|] st2]; intros E; inversion E; subst.
  reflexivity.
Qed.

End BuilderFacts.

Section BuilderClaims.
Variable S : Type.
Variable pf : Builder.platform S.
Variable quiet : bool.

Import Builder.

Lemma do_isfile_eq p (st : io S) :
  do_isfile pf p st
  = (fst (isfile pf p (os_state st)),
     act (IsFile p) (snd (isfile pf p (os_state st))) st).
Proof. unfold do_isfile. now destruct (isfile pf p (os_state st)). Qed.

(** C8.  The builder's first act is the look for the file.  If the file
    is not there it raises [IOError]; if it is there and its extension is
    none of [.flac], [.spx], [.wav], it raises [SoundFormatNotSupported],
    and the look for the file is all it has done by then: the encoder has
    not run, no file has been read and no request has been made. *)
Theorem unsupported_format_fails_first (fuel : nat) (path : string)
    (opt : Opt.options) (st : io S) :
  let found := fst (isfile pf path (os_state st)) in
  let ext := snd (splitext pf path) in
  let st1 := act (IsFile path) (snd (isfile pf path (os_state st))) st in
  trace st1 = (trace st ++ [IsFile path])%list
  /\ (forall res st', GoogleSpeech_init pf quiet fuel path opt st = Some (res, st') ->
        extends st1 st')
  /\ (found = false ->
        GoogleSpeech_init pf quiet fuel path opt st
        = Some (Py.Raise (Py.Exn Py.IOError ("Cannot find file: " ++ path)), st1))
  /\ (found = true -> mem_str ext supported = false ->
        GoogleSpeech_init pf quiet fuel path opt st
        = Some (Py.Raise (Py.Exn Py.SoundFormatNotSupported
                            ("Unsupported filetype: " ++ ext ++ Py.nl)), st1)).
Proof.
  intros found ext st1. split; [reflexivity|].
  unfold GoogleSpeech_init. rewrite (do_isfile_eq path st). cbv beta iota.
  change (fst (isfile pf path (os_state st))) with found.
  change (act (IsFile path) (snd (isfile pf path (os_state st))) st) with st1.
  change (snd (splitext pf path)) with ext.
  clearbody found st1 ext.
  split; [|split].
  - intros res st'. destruct found; cbn [negb].
    2:{ intros E; inversion E; subst. apply extends_refl. }
    destruct (mem_str ext supported); cbn [negb].
    2:{ intros E; inversion E; subst. apply extends_refl. }
    destruct (String.eqb ext ".flac").
    { intros E; injection E as E1.
      pose proof (@extends_load S pf quiet (Opt.set_results 5 opt) path path "x-flac" None st1) as H.
      rewrite E1 in H. exact H. }
    destruct (String.eqb ext ".spx").
    { intros E; injection E as E1.
      pose proof (@extends_load S pf quiet (Opt.set_results 5 opt) path path
                    "x-speex-with-header-byte" None st1) as H.
      rewrite E1 in H. exact H. }
    pose proof (@extends_isfile S pf (FLAC_PATH pf) st1) as H2.
    destruct (do_isfile pf (FLAC_PATH pf) st1) as [have st2]. simpl in H2.
    destruct have; cbn [negb].
    2:{ intros E; inversion E; subst. exact H2. }
    destruct (time_stamp pf (os_state st2)) as [stamp s3].
    set (st3 := {| os_state := s3; trace := trace st2; printed := printed st2;
                   warned := warned st2 |}).
    assert (H3 : extends st1 st3) by exact H2.
    set (tmp := "tmp_guess" ++ stamp ++ ".flac").
    set (cmd := [FLAC_PATH pf; "-8"; "-f"; "--totally-silent"; "-o"; tmp; path]).
    pose proof (@extends_encode S pf quiet cmd st3) as H4.
    destruct (encode pf quiet cmd st3) as [[u|e] st4]; simpl in H4.
    2:{ intros E; inversion E; subst. eapply extends_trans; [exact H3|exact H4]. }
    destruct (encode_again pf quiet fuel tmp cmd st4) as [[[u'|e] st5]|] eqn:E5;
      [| |discriminate].
    + intros E; injection E as E1.
      eapply extends_trans; [exact H3|].
      eapply extends_trans; [exact H4|].
      eapply extends_trans; [eapply extends_encode_again, E5|].
      pose proof (@extends_load S pf quiet (Opt.set_results 5 opt) path tmp "x-flac"
                    (Some tmp) st5) as H.
      rewrite E1 in H. exact H.
    + intros E; inversion E; subst.
      eapply extends_trans; [exact H3|].
      eapply extends_trans; [exact H4|eapply extends_encode_again, E5].
  - intros ->. reflexivity.
  - intros -> ->. reflexivity.
Qed.

(** C9, as amended.  The Content-Type header of every request that the
    builder makes carries the sampling rate of the options that the
    builder was given, as it finds it there: 8000 as 8000, 16000 as
    16000.  When the options are those that [_parse_options] returns for
    a requested rate, that rate is the requested one if it is 8000 or
    16000, and 16000 for every other requested rate. *)
Theorem content_type_encodes_rate (fuel : nat) (path : string)
    (opt : Opt.options) (st st' : io S) (gs : GoogleSpeech) :
  GoogleSpeech_init pf quiet fuel path opt st = Some (Py.Ok gs, st') ->
  exists filetype,
    (filetype = "x-flac" \/ filetype = "x-speex-with-header-byte")
    /\ header_given "Content-Type" (request gs)
       = Some ("audio/" ++ filetype ++ "; rate=" ++ Py.fmt_d (Opt.samplingrate opt))
    /\ (Opt.samplingrate opt = 8000%Z ->
        header_given "Content-Type" (request gs)
        = Some ("audio/" ++ filetype ++ "; rate=8000"))
    /\ (Opt.samplingrate opt = 16000%Z ->
        header_given "Content-Type" (request gs)
        = Some ("audio/" ++ filetype ++ "; rate=16000"))
    /\ (forall asked, opt = Opt._parse_options asked ->
        let r := Opt.samplingrate asked in
        header_given "Content-Type" (request gs)
        = Some ("audio/" ++ filetype ++ "; rate="
                ++ (if (r =? 8000)%Z then "8000" else "16000"))).
Proof.
  intros E.
  assert (H : exists filetype,
             (filetype = "x-flac" \/ filetype = "x-speex-with-header-byte")
             /\ header_given "Content-Type" (request gs)
                = Some ("audio/" ++ filetype ++ "; rate="
                        ++ Py.fmt_d (Opt.samplingrate opt))).
  { revert E. unfold GoogleSpeech_init.
    destruct (do_isfile pf path st) as [found st1].
    destruct found; cbn [negb]; [|discriminate].
    destruct (mem_str (snd (splitext pf path)) supported); cbn [negb]; [|discriminate].
    destruct (String.eqb (snd (splitext pf path)) ".flac").
    { intros E; injection E as E'. exists "x-flac". split; [now left|].
      exact (@load_content_type S pf quiet _ _ _ _ _ _ _ _ E'). }
    destruct (String.eqb (snd (splitext pf path)) ".spx").
    { intros E; injection E as E'. exists "x-speex-with-header-byte".
      split; [now right|].
      exact (@load_content_type S pf quiet _ _ _ _ _ _ _ _ E'). }
    destruct (do_isfile pf (FLAC_PATH pf) st1) as [have st2].
    destruct have; cbn [negb]; [|discriminate].
    destruct (time_stamp pf (os_state st2)) as [stamp s3].
    destruct (encode pf quiet _ _) as [[u|e] st4]; [|discriminate].
    destruct (encode_again _ _ _ _ _ _) as [[[u'|e] st5]|]; try discriminate.
    intros E; injection E as E'. exists "x-flac". split; [now left|].
    exact (@load_content_type S pf quiet _ _ _ _ _ _ _ _ E'). }
  destruct H as [filetype [Hft Hh]]. exists filetype.
  split; [exact Hft|]. split; [exact Hh|].
  split; [intros Hr; rewrite Hh, Hr; reflexivity|].
  split; [intros Hr; rewrite Hh, Hr; reflexivity|].
  intros asked -> r. rewrite Hh. subst r.
  unfold Opt._parse_options, Opt.mem. simpl existsb.
  destruct (Opt.samplingrate asked =? 16000)%Z eqn:E1;
    destruct (Opt.samplingrate asked =? 8000)%Z eqn:E2; cbn;
    rewrite ?Z.eqb_eq in *; rewrite ?E1, ?E2; try reflexivity.
  congruence.
Qed.

(** *** The encoder loop *)

Lemma runs_app (a b : list action) :
  encoder_runs (a ++ b) = encoder_runs a + encoder_runs b.
Proof. unfold encoder_runs. now rewrite filter_app, length_app. Qed.

Lemma runs_message msg (st : io S) :
  trace (message quiet msg st) = trace st.
Proof. unfold message. now destruct quiet. Qed.

Lemma runs_isfile p (st : io S) :
  encoder_runs (trace (snd (do_isfile pf p st))) = encoder_runs (trace st).
Proof.
  unfold do_isfile. destruct (isfile pf p (os_state st)). simpl.
  rewrite runs_app. unfold encoder_runs. simpl. lia.
Qed.

Lemma runs_encode cmd (st : io S) :
  encoder_runs (trace (snd (encode pf quiet cmd st))) = Datatypes.S (encoder_runs (trace st)).
Proof.
  unfold encode, do_shellCall. destruct (shellCall pf cmd (os_state st)) as [r s'].
  destruct r as [[so se]|e]; simpl; [destruct (String.eqb se "")|];
    rewrite ?runs_message; simpl; rewrite runs_app; unfold encoder_runs; simpl; lia.
Qed.

Lemma runs_rerun tmp cmd (st : io S) :
  encoder_runs (trace (rerun pf quiet tmp cmd st)) = Datatypes.S (encoder_runs (trace st)).
Proof.
  unfold rerun. now rewrite runs_encode, runs_message, runs_isfile.
Qed.

Lemma encode_starts cmd (st : io S) :
  encoder_starts pf -> fst (encode pf quiet cmd st) = Py.Ok tt.
Proof.
  intros H. unfold encode, do_shellCall. destruct (H cmd (os_state st)) as [[so se] Ho].
  destruct (shellCall pf cmd (os_state st)) as [r s']. simpl in Ho. subst r.
  reflexivity.
Qed.

Lemma encode_again_unfold fuel tmp cmd (st : io S) :
  encoder_starts pf ->
  encode_again pf quiet (Datatypes.S fuel) tmp cmd st
  = if found_at pf quiet 0 tmp cmd st then Some (Py.Ok tt, snd (do_isfile pf tmp st))
    else encode_again pf quiet fuel tmp cmd (rerun pf quiet tmp cmd st).
Proof.
  intros H. unfold found_at, rerun. simpl.
  destruct (do_isfile pf tmp st) as [found st1]. simpl.
  destruct found; [reflexivity|].
  pose proof (encode_starts cmd
                (message quiet "Failed to convert to tmp.flac; trying again" st1) H) as He.
  destruct (encode pf quiet cmd _) as [[[]|e] st2]; simpl in He; [reflexivity|discriminate].
Qed.

Lemma encode_again_found tmp cmd n : forall fuel (st : io S),
  encoder_starts pf ->
  (forall k, k < n -> found_at pf quiet k tmp cmd st = false) ->
  found_at pf quiet n tmp cmd st = true ->
  n < fuel ->
  exists st',
    encode_again pf quiet fuel tmp cmd st = Some (Py.Ok tt, st')
    /\ encoder_runs (trace st') = encoder_runs (trace st) + n.
Proof.
  induction n as [|n IH]; intros fuel st Hs Hno Hyes Hfuel.
  - destruct fuel as [|fuel]; [lia|]. rewrite encode_again_unfold, Hyes by exact Hs.
    eexists. split; [reflexivity|]. rewrite runs_isfile. lia.
  - destruct fuel as [|fuel]; [lia|]. rewrite encode_again_unfold by exact Hs.
    rewrite (Hno 0) by lia.
    destruct (IH fuel (rerun pf quiet tmp cmd st)) as [st' [E R]].
    + exact Hs.
    + intros k Hk. apply (Hno (Datatypes.S k)). lia.
    + exact Hyes.
    + lia.
    + exists st'. split; [exact E|]. rewrite R, runs_rerun. lia.
Qed.

Lemma encode_again_never tmp cmd fuel : forall (st : io S),
  encoder_starts pf ->
  (forall k, k < fuel -> found_at pf quiet k tmp cmd st = false) ->
  encode_again pf quiet fuel tmp cmd st = None.
Proof.
  induction fuel as [|fuel IH]; intros st Hs Hno; [reflexivity|].
  rewrite encode_again_unfold, (Hno 0) by (exact Hs || lia).
  apply IH; [exact Hs|]. intros k Hk. apply (Hno (Datatypes.S k)). lia.
Qed.

(** The builder on a wav file that is there, with the encoder in its
    place: the encoder loop decides whether it returns. *)
Lemma init_wav fuel path opt (st : io S) :
  encoder_starts pf ->
  fst (do_isfile pf path st) = true ->
  snd (splitext pf path) = ".wav" ->
  fst (do_isfile pf (FLAC_PATH pf) (snd (do_isfile pf path st))) = true ->
  let '(tmp, cmd, st0) := wav_entry pf quiet path st in
  GoogleSpeech_init pf quiet fuel path opt st
  = match encode_again pf quiet fuel tmp cmd st0 with
    | None => None
    | Some (Py.Raise e, st1) => Some (Py.Raise e, st1)
    | Some (Py.Ok _, st1) => Some (load_and_build pf quiet (Opt.set_results 5 opt) path tmp
                                     "x-flac" (Some tmp) st1)
    end.
Proof.
  intros Hs. unfold wav_entry, GoogleSpeech_init.
  destruct (do_isfile pf path st) as [found st1]. cbn [fst snd]. intros -> ->.
  change (mem_str ".wav" supported) with true.
  change (String.eqb ".wav" ".flac") with false.
  change (String.eqb ".wav" ".spx") with false. cbn [negb].
  destruct (do_isfile pf (FLAC_PATH pf) st1) as [have st2]. cbn [fst snd].
  intros ->. cbn [negb].
  destruct (time_stamp pf (os_state st2)) as [stamp s3].
  set (st3 := {| os_state := s3; trace := trace st2; printed := printed st2;
                 warned := warned st2 |}).
  set (cmd := [FLAC_PATH pf; "-8"; "-f"; "--totally-silent"; "-o";
               "tmp_guess" ++ stamp ++ ".flac"; path]).
  pose proof (encode_starts cmd st3 Hs) as He.
  destruct (encode pf quiet cmd st3) as [[[]|e] st4]; simpl in He; [|discriminate].
  reflexivity.
Qed.

(** C7, as amended.  On a platform where the encoder can be started
    whenever it is called: after its first run the encoder runs again
    after every look that does not find its output, with no bound on the
    number of runs.  If look number [n] is the first to find the output,
    the loop ends there, after [n] further runs, however large [n] is; if
    no look finds it, the loop does not end, and the builder, given a wav
    file that is there, neither raises nor returns. *)
Theorem encoder_reruns_without_bound (tmp : string) (flac_cmd : list string)
    (st : io S) :
  encoder_starts pf ->
  (forall n,
     (forall k, k < n -> found_at pf quiet k tmp flac_cmd st = false) ->
     found_at pf quiet n tmp flac_cmd st = true ->
     forall fuel, n < fuel ->
       exists st',
         encode_again pf quiet fuel tmp flac_cmd st = Some (Py.Ok tt, st')
         /\ encoder_runs (trace st') = encoder_runs (trace st) + n)
  /\ ((forall k, found_at pf quiet k tmp flac_cmd st = false) ->
      forall fuel, encode_again pf quiet fuel tmp flac_cmd st = None)
  /\ (forall path opt st0,
        fst (do_isfile pf path st0) = true ->
        snd (splitext pf path) = ".wav" ->
        fst (do_isfile pf (FLAC_PATH pf) (snd (do_isfile pf path st0))) = true ->
        wav_entry pf quiet path st0 = (tmp, flac_cmd, st) ->
        (forall k, found_at pf quiet k tmp flac_cmd st = false) ->
        forall fuel, GoogleSpeech_init pf quiet fuel path opt st0 = None).
Proof.
  intros Hs. split; [|split].
  - intros n Hno Hyes fuel Hfuel. now apply encode_again_found.
  - intros Hno fuel. apply encode_again_never; auto.
  - intros path opt st0 H1 H2 H3 He Hno fuel.
    pose proof (init_wav fuel path opt st0 Hs H1 H2 H3) as H. rewrite He in H.
    rewrite H. rewrite encode_again_never; auto.
Qed.

End BuilderClaims.

Lemma machine_starts n : Builder.encoder_starts (Sample.machine n).
Proof. intros cmd s. eexists. reflexivity. Qed.

(** C8 on a file [speech_clip.mp3] that is there. *)
Lemma unsupported_format_fails_first_witness :
  let pf := Sample.machine (Some 0) in
  let path := "speech_clip.mp3" in
  let st1 := Builder.act (Builder.IsFile path)
               (snd (Builder.isfile pf path (Builder.os_state Sample.start)))
               Sample.start in
  Builder.GoogleSpeech_init pf true 1 path Opt.defaults Sample.start
  = Some (Py.Raise (Py.Exn Py.SoundFormatNotSupported
                      ("Unsupported filetype: " ++ ".mp3" ++ Py.nl)), st1)
  /\ Builder.trace st1 = [Builder.IsFile path].
Proof.
  intros pf path st1.
  destruct (@unsupported_format_fails_first nat pf true 1 path Opt.defaults Sample.start)
    as [Htrace [_ [_ Hext]]].
  split; [|exact Htrace].
  apply Hext; reflexivity.
Defined.

(** C9, as amended, at a flac file and the options that [_parse_options]
    returns for the requested rate 44100. *)
Lemma content_type_encodes_rate_witness :
  let opt := Opt._parse_options (Opt.set_samplingrate 44100 Opt.defaults) in
  exists gs st',
    Builder.GoogleSpeech_init (Sample.machine (Some 0)) true 1 "speech_clip.flac"
      opt Sample.start = Some (Py.Ok gs, st')
    /\ exists filetype,
         (filetype = "x-flac" \/ filetype = "x-speex-with-header-byte")
         /\ Builder.header_given "Content-Type" (Builder.request gs)
            = Some ("audio/" ++ filetype ++ "; rate=" ++ Py.fmt_d (Opt.samplingrate opt))
         /\ (Opt.samplingrate opt = 8000%Z ->
             Builder.header_given "Content-Type" (Builder.request gs)
             = Some ("audio/" ++ filetype ++ "; rate=8000"))
         /\ (Opt.samplingrate opt = 16000%Z ->
             Builder.header_given "Content-Type" (Builder.request gs)
             = Some ("audio/" ++ filetype ++ "; rate=16000"))
         /\ (forall asked, opt = Opt._parse_options asked ->
             let r := Opt.samplingrate asked in
             Builder.header_given "Content-Type" (Builder.request gs)
             = Some ("audio/" ++ filetype ++ "; rate="
                     ++ (if (r =? 8000)%Z then "8000" else "16000"))).
Proof.
  intros opt. eexists. eexists. split; [vm_compute; reflexivity|].
  eapply (@content_type_encodes_rate nat (Sample.machine (Some 0)) true 1
            "speech_clip.flac" opt Sample.start).
  vm_compute. reflexivity.
Defined.

(** C9 as stated fails: a rate of 44100 that is set on the options after
    the import, as the module's usage note does with the language, reaches
    the header as it is. *)
Lemma header_carries_rate_as_found :
  exists gs st',
    Builder.GoogleSpeech_init (Sample.machine (Some 0)) true 1 "speech_clip.flac"
      (Opt.set_samplingrate 44100 Opt.defaults) Sample.start = Some (Py.Ok gs, st')
    /\ Builder.header_given "Content-Type" (Builder.request gs)
       = Some "audio/x-flac; rate=44100"
    /\ Builder.header_given "Content-Type" (Builder.request gs)
       <> Some "audio/x-flac; rate=16000".
Proof.
  eexists. eexists. split; [vm_compute; reflexivity|].
  split; [vm_compute; reflexivity|vm_compute; discriminate].
Qed.

(** C7, as amended, on a machine where the encoder's output appears with
    its third run: look number 2 is the first to find it. *)
Lemma encoder_reruns_without_bound_witness :
  let pf := Sample.machine (Some 3) in
  let '(tmp, cmd, st) := Builder.wav_entry pf true "speech_clip.wav" Sample.start in
  exists st',
    Builder.encode_again pf true 5 tmp cmd st = Some (Py.Ok tt, st')
    /\ Builder.encoder_runs (Builder.trace st')
       = Builder.encoder_runs (Builder.trace st) + 2.
Proof.
  cbv zeta.
  set (e := Builder.wav_entry (Sample.machine (Some 3)) true "speech_clip.wav" Sample.start).
  assert (He : e = (fst (fst e), snd (fst e), snd e)) by reflexivity.
  rewrite He.
  apply (proj1 (@encoder_reruns_without_bound nat (Sample.machine (Some 3)) true
                  (fst (fst e)) (snd (fst e)) (snd e) (machine_starts (Some 3))) 2).
  - intros k Hk. destruct k as [|[|k]]; [reflexivity|reflexivity|lia].
  - reflexivity.
  - lia.
Defined.

(** C7 as stated fails: on a machine where the wav file and the encoder
    are there and the encoder never leaves an output, the builder raises
    nothing and does not return, whatever number of looks it is allowed. *)
Lemma encoder_budget_is_unbounded :
  fst (Builder.do_isfile (Sample.machine None) "speech_clip.wav" Sample.start) = true
  /\ fst (Builder.do_isfile (Sample.machine None) "/usr/local/bin/flac" Sample.start) = true
  /\ forall fuel,
       Builder.GoogleSpeech_init (Sample.machine None) true fuel "speech_clip.wav"
         Opt.defaults Sample.start = None.
Proof.
  split; [reflexivity|]. split; [reflexivity|].
  intros fuel.
  pose proof (@init_wav nat (Sample.machine None) true fuel "speech_clip.wav"
                Opt.defaults Sample.start (machine_starts None)
                eq_refl eq_refl eq_refl) as H.
  destruct (Builder.wav_entry (Sample.machine None) true "speech_clip.wav" Sample.start)
    as [[tmp cmd] st0] eqn:E.
  rewrite H. vm_compute in E. injection E as <- <- <-.
  rewrite encode_again_never; [reflexivity|apply machine_starts|].
  intros k _. reflexivity.
Qed.

(** ** Further properties of the options *)







(** ** Further properties of the parser *)

Section ParserMore.
Variable rt : Py.runtime.

Lemma notes_conf hyps : forall t,
  conf (fold_left (fun t d => note_confidence rt d t) hyps t)
  = fold_left (confidence_after rt) hyps (conf t).
Proof.
  induction hyps as [|d hyps IH]; intros t; [reflexivity|]. simpl.
  rewrite IH. f_equal. unfold note_confidence, confidence_after.
  destruct (Py.assoc "confidence" d) as [v|]; [|reflexivity].
  destruct (Py.to_float rt v); reflexivity.
Qed.

Lemma parsed_conf top hyps t :
  conf (parsed_task rt top hyps t) = fold_left (confidence_after rt) hyps (conf t).
Proof. unfold parsed_task. simpl. now rewrite notes_conf. Qed.

Lemma confidence_after_none after : forall c,
  Forall (fun d => Py.assoc "confidence" d = None) after ->
  fold_left (confidence_after rt) after c = c.
Proof.
  induction after as [|d after IH]; intros c H; [reflexivity|].
  inversion H as [|? ? Hd Hrest]; subst. simpl.
  unfold confidence_after at 2. rewrite Hd. now apply IH.
Qed.

(** X2.  Whatever the payload, and whether it returns or raises,
    [_unpackRaw] leaves the task's bookkeeping alone: [started], [running],
    [timedout], [t0], [duration], [raw], [request] and [file] are as they
    were.  When it raises, [word] and [words] are as they were too. *)
Theorem unpackRaw_keeps_bookkeeping (t : task) :
  let r := fst (_unpackRaw rt t) in
  let t' := snd (_unpackRaw rt t) in
  started t' = started t /\ running t' = running t /\ timedout t' = timedout t
  /\ t0 t' = t0 t /\ duration t' = duration t /\ raw t' = raw t
  /\ request t' = request t /\ file t' = file t
  /\ (forall e, r = Py.Raise e -> word t' = word t /\ words t' = words t).
Proof.
  intros r t'. subst r t'.
  destruct (_unpackRaw rt t) as [r t'] eqn:E. simpl.
  destruct (@unpack_frame rt t r t' E)
    as [H1 [H2 [H3 [H4 [H5 [H6 [H7 [H8 [H9 _]]]]]]]]].
  repeat (split; [assumption|]). exact H9.
Qed.

(** X3.  What [_unpackRaw] does with a payload that is not of the
    documented shape.  Before a response is stored it raises
    [AttributeError]; a body that is no JSON document gives [ValueError];
    in both cases the task is as it was.  An object without [status] gives
    [KeyError] with only [json] assigned; an object with [status] and
    without [hypotheses] gives [KeyError] with [json] and [status]
    assigned, and nothing else. *)
Theorem unpackRaw_failures (t : task) :
  (raw t = None ->
     exists m, _unpackRaw rt t = (Py.Raise (Py.Exn Py.AttributeError m), t))
  /\ (forall r, raw t = Some r -> decoded r = None ->
        exists m, _unpackRaw rt t = (Py.Raise (Py.Exn Py.ValueError m), t))
  /\ (forall top, raw t = Some (HTTPResponse (Some (Py.JDict top))) ->
        Py.assoc "status" top = None ->
        _unpackRaw rt t
        = (Py.Raise (Py.Exn Py.KeyError "status"), set_json (Some (Py.JDict top)) t))
  /\ (forall top st, raw t = Some (HTTPResponse (Some (Py.JDict top))) ->
        Py.assoc "status" top = Some st ->
        Py.assoc "hypotheses" top = None ->
        _unpackRaw rt t
        = (Py.Raise (Py.Exn Py.KeyError "hypotheses"),
           set_status (Some st) (set_json (Some (Py.JDict top)) t))).
Proof.
  split; [|split; [|split]].
  - intros H. eexists. unfold _unpackRaw, bind, get, lift. rewrite H. reflexivity.
  - intros r H Hd. eexists. unfold _unpackRaw, bind, get, lift. rewrite H.
    unfold json_load. rewrite Hd. reflexivity.
  - intros top H Hs. unfold _unpackRaw, bind, get, lift, modify. rewrite H.
    cbn [json_load decoded Py.getitem]. rewrite Hs. reflexivity.
  - intros top st H Hs Hh. unfold _unpackRaw, bind, get, lift, modify. rewrite H.
    cbn [json_load decoded Py.getitem]. rewrite Hs, Hh. reflexivity.
Qed.

(** X4.  For a payload of the documented shape the confidence that is
    left on the task, in [confidence] and in [conf], is that of the last
    hypothesis that carries one; when no hypothesis carries a confidence,
    [confidence] and [conf] are what they were before. *)
Theorem confidence_of_last_hypothesis top hyps (t : task) :
  shaped rt top hyps ->
  raw t = Some (HTTPResponse (Some (Py.JDict top))) ->
  exists t',
    _unpackRaw rt t = (Py.Ok tt, t')
    /\ (forall before d after v f,
          hyps = (before ++ d :: after)%list ->
          Py.assoc "confidence" d = Some v -> Py.to_float rt v = Py.Ok f ->
          Forall (fun d' => Py.assoc "confidence" d' = None) after ->
          confidence t' = Some f /\ conf t' = Some f)
    /\ (Forall (fun d => Py.assoc "confidence" d = None) hyps ->
        confidence t' = confidence t /\ conf t' = conf t).
Proof.
  intros Hs Hraw. exists (parsed_task rt top hyps t).
  split; [now apply unpack_shaped|]. split.
  - intros before d after v f -> Hd Hf Hafter.
    assert (Hstep : forall c, confidence_after rt c d = Some f).
    { intros c. unfold confidence_after. now rewrite Hd, Hf. }
    rewrite parsed_confidence, parsed_conf, !fold_left_app. cbn [fold_left].
    rewrite !Hstep. rewrite !confidence_after_none by exact Hafter.
    split; reflexivity.
  - intros Hnone. rewrite parsed_confidence, parsed_conf.
    rewrite !confidence_after_none by exact Hnone. split; reflexivity.
Qed.

(** X5.  For a payload of the documented shape in which [utterance] is the
    only key that begins with these letters, [words] has one entry for
    every utterance of the hypotheses, cut or not; with no hypotheses at
    all, as the service answers to silence, the parse succeeds with
    [words] empty and [word] the empty string, and [status] is the
    payload's. *)
Theorem words_one_per_utterance top hyps (t : task) :
  shaped rt top hyps -> plain_keys top hyps ->
  raw t = Some (HTTPResponse (Some (Py.JDict top))) ->
  exists t',
    _unpackRaw rt t = (Py.Ok tt, t')
    /\ List.length (words t') = List.length (utterances hyps)
    /\ (utterances hyps = [] -> words t' = [] /\ word t' = "")
    /\ status t' = Py.assoc "status" top.
Proof.
  intros Hs Hk Hraw. exists (parsed_task rt top hyps t).
  split; [now apply unpack_shaped|].
  assert (Hw : words (parsed_task rt top hyps t) = map (spoken rt) (utterances hyps)).
  { now rewrite parsed_words, (pick_words_report rt Hk). }
  split; [now rewrite Hw, length_map|]. split.
  - intros Hu. rewrite parsed_word, Hw, Hu. split; reflexivity.
  - rewrite parsed_status. destruct Hs as [[st Hst] _]. unfold lookup. now rewrite Hst.
Qed.

End ParserMore.

(** X4 at a payload of two hypotheses of which the first carries the
    confidence 0.87. *)
Lemma confidence_of_last_hypothesis_witness :
  let t := set_raw (Some Cases.pair) (GSQueryThread_init Sample.req) in
  exists t',
    _unpackRaw Sample.rt t = (Py.Ok tt, t')
    /\ (forall before d after v f,
          Cases.pair_hyps = (before ++ d :: after)%list ->
          Py.assoc "confidence" d = Some v -> Py.to_float Sample.rt v = Py.Ok f ->
          Forall (fun d' => Py.assoc "confidence" d' = None) after ->
          confidence t' = Some f /\ conf t' = Some f)
    /\ (Forall (fun d => Py.assoc "confidence" d = None) Cases.pair_hyps ->
        confidence t' = confidence t /\ conf t' = conf t).
Proof.
  intros t.
  apply (@confidence_of_last_hypothesis Sample.rt Cases.pair_top Cases.pair_hyps t).
  - split; [exists (Py.JInt 0); reflexivity|]. split; [reflexivity|].
    repeat constructor; intros v H; simpl in H; inversion H; subst; eexists; reflexivity.
  - reflexivity.
Defined.

(** X5 at the payload that the service sends for silence. *)
Lemma words_one_per_utterance_witness :
  let t := set_raw (Some Cases.silence) (GSQueryThread_init Sample.req) in
  exists t',
    _unpackRaw Sample.rt t = (Py.Ok tt, t')
    /\ List.length (words t') = List.length (utterances (@nil (list (string * Py.jvalue))))
    /\ (utterances (@nil (list (string * Py.jvalue))) = [] -> words t' = [] /\ word t' = "")
    /\ status t' = Py.assoc "status" Cases.silence_top.
Proof.
  intros t.
  apply (@words_one_per_utterance Sample.rt Cases.silence_top [] t).
  - split; [exists (Py.JInt 5); reflexivity|]. split; [reflexivity|constructor].
  - split; [constructor|].
    intros k H. simpl in H. destruct H as [<-|[<-|[<-|[]]]]; reflexivity.
  - reflexivity.
Defined.

(** ** Further properties of the worker *)

Section Statements.
Variable rt : Py.runtime.

Lemma work_S n w : exec rt (work (S n)) w = exec rt (work n) (worker_step rt w).
Proof. reflexivity. Qed.

Lemma unpacks_via u w :
  ctl w = Unpacking u ->
  (forall u' t', unpack_step rt u (thread w) = (Py.Ok (Some u'), t') ->
     exists n, unpacks_to rt n (with_ctl (Unpacking u') (with_thread t' w))
                 (fst (rest rt u' t')) (snd (rest rt u' t'))) ->
  exists n, unpacks_to rt n w (fst (rest rt u (thread w))) (snd (rest rt u (thread w))).
Proof.
  intros Hc H. pose proof (rest_step rt u (thread w)) as R.
  destruct (unpack_step rt u (thread w)) as [[[u'|]|e] t'] eqn:E.
  - destruct (H u' t' eq_refl) as [n Hn]. exists (S n).
    unfold unpacks_to in *. rewrite work_S. unfold worker_step. rewrite Hc, E.
    rewrite <- R. exact Hn.
  - exists 1. unfold unpacks_to. rewrite work_S. unfold worker_step.
    rewrite Hc, E, R. simpl. tauto.
  - exists 1. unfold unpacks_to. rewrite work_S. unfold worker_step.
    rewrite Hc, E, R. simpl. tauto.
Qed.

Ltac next_statement E :=
  simpl in E; unfold bind, get, lift, modify, ret in E;
  repeat match type of E with
         | context [match ?x with _ => _ end] => destruct x eqn:?
         end;
  inversion E; subst; clear E.

Ltac resume_with H :=
  match goal with
  | |- exists n, unpacks_to _ n ?W _ _ =>
      first [ exact (H W eq_refl) | exact (H _ W eq_refl) | exact (H _ _ W eq_refl)
            | exact (H _ _ _ W eq_refl) ]
  end.

Lemma fin_word w :
  ctl w = Unpacking AtWord ->
  exists n, unpacks_to rt n w (fst (rest rt AtWord (thread w)))
              (snd (rest rt AtWord (thread w))).
Proof. intros Hc. apply (unpacks_via Hc). intros u' t' E. discriminate. Qed.

Lemma fin_words report w :
  ctl w = Unpacking (AtWords report) ->
  exists n, unpacks_to rt n w (fst (rest rt (AtWords report) (thread w)))
              (snd (rest rt (AtWords report) (thread w))).
Proof.
  intros Hc. apply (unpacks_via Hc). intros u' t' E. next_statement E.
  resume_with fin_word.
Qed.

Lemma fin_top report w :
  ctl w = Unpacking (AtTop report) ->
  exists n, unpacks_to rt n w (fst (rest rt (AtTop report) (thread w)))
              (snd (rest rt (AtTop report) (thread w))).
Proof.
  intros Hc. apply (unpacks_via Hc). intros u' t' E. next_statement E.
  resume_with fin_words.
Qed.

Lemma fin_inner hl :
  (forall report w, ctl w = Unpacking (AtOuter hl report) ->
     exists n, unpacks_to rt n w (fst (rest rt (AtOuter hl report) (thread w)))
                 (snd (rest rt (AtOuter hl report) (thread w)))) ->
  forall ks ul report w,
    ctl w = Unpacking (AtInner ul ks hl report) ->
    exists n, unpacks_to rt n w (fst (rest rt (AtInner ul ks hl report) (thread w)))
                (snd (rest rt (AtInner ul ks hl report) (thread w))).
Proof.
  intros Houter ks. induction ks as [|k ks IH]; intros ul report w Hc;
    apply (unpacks_via Hc); intros u' t' E.
  - next_statement E. resume_with Houter.
  - simpl in E. unfold bind, ret in E.
    destruct (unpack_field rt ul report k (thread w)) as [[r|e] t1]; inversion E; subst.
    resume_with IH.
Qed.

Lemma fin_outer hl : forall report w,
  ctl w = Unpacking (AtOuter hl report) ->
  exists n, unpacks_to rt n w (fst (rest rt (AtOuter hl report) (thread w)))
              (snd (rest rt (AtOuter hl report) (thread w))).
Proof.
  induction hl as [|ul hl IH]; intros report w Hc;
    apply (unpacks_via Hc); intros u' t' E.
  - next_statement E. resume_with fin_top.
  - simpl in E. unfold bind, lift, ret in E.
    destruct (Py.iter ul) as [ks|e]; inversion E; subst.
    resume_with (fin_inner IH).
Qed.

Lemma fin_any u w :
  ctl w = Unpacking u ->
  exists n, unpacks_to rt n w (fst (rest rt u (thread w))) (snd (rest rt u (thread w))).
Proof.
  assert (Hh : forall w, ctl w = Unpacking AtHypotheses ->
             exists n, unpacks_to rt n w (fst (rest rt AtHypotheses (thread w)))
                         (snd (rest rt AtHypotheses (thread w)))).
  { intros w0 Hc. apply (unpacks_via Hc). intros u' t' E. next_statement E.
    resume_with fin_outer. }
  assert (Hs : forall w, ctl w = Unpacking AtStatus ->
             exists n, unpacks_to rt n w (fst (rest rt AtStatus (thread w)))
                         (snd (rest rt AtStatus (thread w)))).
  { intros w0 Hc. apply (unpacks_via Hc). intros u' t' E. next_statement E.
    resume_with Hh. }
  destruct u; intros Hc.
  - apply (unpacks_via Hc). intros u' t' E. next_statement E. resume_with Hs.
  - now apply Hs.
  - now apply Hh.
  - now apply fin_outer.
  - apply (fin_inner (hl := hl)); [intros; now apply fin_outer|exact Hc].
  - now apply fin_top.
  - now apply fin_words.
  - now apply fin_word.
Qed.

(** X6.  The statements of [_unpackRaw], executed one by one without
    interruption from the first, come to the end of the method after
    finitely many steps with the task that [_unpackRaw], called in one
    piece, makes: with the worker past the call if the method returns,
    with the worker dead of the exception [e] if it raises [e].  Nothing
    else of the world changes on the way. *)
Theorem unpackRaw_statement_by_statement (w : world) :
  ctl w = Unpacking AtLoad ->
  exists n,
    unpacks_to rt n w (fst (_unpackRaw rt (thread w))) (snd (_unpackRaw rt (thread w))).
Proof.
  intros Hc. destruct (@fin_any AtLoad w Hc) as [n H]. exists n.
  now rewrite <- rest_load_unpack.
Qed.

End Statements.

(** X6 on a task whose answer has just come in and whose running flag has
    just been found on. *)
Lemma unpackRaw_statement_by_statement_witness :
  let w := exec Sample.rt (UrlopenEnds (Returns Sample.hello) :: work 2) Sample.calling in
  exists n,
    unpacks_to Sample.rt n w (fst (_unpackRaw Sample.rt (thread w)))
      (snd (_unpackRaw Sample.rt (thread w))).
Proof.
  intros w. apply (@unpackRaw_statement_by_statement Sample.rt w).
  vm_compute. reflexivity.
Defined.

Section WorkerMore.
Variable rt : Py.runtime.

(** X7.  [run()] calls [urlopen] at most twice: not before its fourth
    statement, once for as long as the first call is pending, and at most
    once more after that. *)
Theorem urlopen_at_most_twice (w : world) :
  reachable rt w ->
  urlopen_calls w <= 2
  /\ (urlopen_calls w = 0 <-> before_call (ctl w) = true)
  /\ (ctl w = FirstCall -> urlopen_calls w = 1)
  /\ (ctl w = Retry -> urlopen_calls w = 2).
Proof.
  intros Hreach. pose proof (reachable_invariant Hreach) as I.
  unfold invariant in I.
  destruct (ctl w); simpl;
    (split; [lia|split; [split; intros H; first [reflexivity|discriminate|lia]
                        |split; intros H; first [discriminate|tauto]]]).
Qed.

(** X8.  A [stop()] that comes before [run()] has set the running flag
    changes nothing: whatever follows happens as if it had not been
    called. *)
Theorem early_stop_is_lost (w : world) (evs : list event) :
  reachable rt w -> flag_set (ctl w) = false ->
  exec rt (CallerStops :: evs) w = exec rt evs w.
Proof.
  intros Hreach Hc. pose proof (reachable_invariant Hreach) as I.
  unfold invariant in I. rewrite exec_cons. f_equal. simpl.
  assert (Hr : running (thread w) = false).
  { destruct (ctl w); try discriminate; tauto. }
  rewrite (stop_idle _ Hr). now destruct w.
Qed.

End WorkerMore.

(** X7 on a task that got its answer at the first call. *)
Lemma urlopen_at_most_twice_witness :
  urlopen_calls Sample.answered <= 2
  /\ (urlopen_calls Sample.answered = 0 <-> before_call (ctl Sample.answered) = true)
  /\ (ctl Sample.answered = FirstCall -> urlopen_calls Sample.answered = 1)
  /\ (ctl Sample.answered = Retry -> urlopen_calls Sample.answered = 2).
Proof. exact (@urlopen_at_most_twice Sample.rt Sample.answered answered_reachable). Defined.

(** X8 on a task that nobody has started: [stop()], then the worker's
    four opening statements. *)
Lemma early_stop_is_lost_witness :
  exec Sample.rt (CallerStops :: work 4) Sample.fresh = exec Sample.rt (work 4) Sample.fresh.
Proof.
  apply (@early_stop_is_lost Sample.rt Sample.fresh (work 4)).
  - apply reachable_new.
  - reflexivity.
Defined.

Section Absorbed.
Variable rt : Py.runtime.

Lemma message_stdout msg w :
  stdout (_message msg w) = printed_by (quiet w) msg (stdout w).
Proof. unfold _message, printed_by. now destruct (quiet w). Qed.

Lemma message_frame msg w :
  thread (_message msg w) = thread w /\ quiet (_message msg w) = quiet w
  /\ warnings (_message msg w) = warnings w
  /\ urlopen_calls (_message msg w) = urlopen_calls w.
Proof. unfold _message. destruct (quiet w) eqn:E; simpl; auto. Qed.

Ltac conjuncts :=
  repeat match goal with |- _ /\ _ => split end;
  auto; try discriminate; try lia; try congruence.

Lemma absorb_step ex q out w e n :
  absorbing ex q out n w ->
  absorbing ex q out (match e with WorkerSteps => Nat.pred n | _ => n end) (step rt w e).
Proof.
  unfold absorbing.
  intros [A1 [A2 [A3 [A4 [A5 [A6 [A7 [A8 [A9 [A10 A11]]]]]]]]]].
  destruct e as [|o| |dt].
  - cbn [step]. unfold worker_step.
    destruct (ctl w) eqn:E; try discriminate; simpl in A1; injection A1 as <-;
      cbn [Nat.pred].
    + (* Caught *)
      specialize (A6 eq_refl). injection A6 as ->.
      destruct (message_frame (Py.exn_msg ex) w) as [F1 [F2 [F3 F4]]].
      simpl. rewrite F1, F2, F3, F4, message_stdout, A5, A8.
      conjuncts.
    + (* Messaged *)
      specialize (A7 eq_refl). injection A7 as ->.
      simpl. rewrite A9. conjuncts.
    + (* Warned *)
      simpl. conjuncts.
    + (* Returned *)
      destruct (t0 (thread w)) as [start|] eqn:E0; [|congruence].
      simpl. rewrite E0. conjuncts; try (intros; apply A10; lia).
    + (* Timed *)
      rewrite A10 by lia. simpl.
      conjuncts; try (intros; apply A10; lia).
    + (* Lapsed *)
      simpl. conjuncts; try (intros; apply A10; lia).
    + (* Finished *)
      rewrite E. simpl. conjuncts.
  - cbn [step]. destruct (ctl w) eqn:E; try discriminate; rewrite ?E;
      conjuncts.
  - simpl. conjuncts.
  - simpl. conjuncts.
Qed.

Lemma absorb_exec ex q out evs : forall w n,
  absorbing ex q out n w ->
  absorbing ex q out (n - worker_steps evs) (exec rt evs w).
Proof.
  induction evs as [|e evs IH]; intros w n H.
  - unfold worker_steps. simpl. now rewrite Nat.sub_0_r.
  - rewrite exec_cons. apply (@absorb_step ex q out w e n) in H. apply IH in H.
    replace (n - worker_steps (e :: evs))
      with (match e with WorkerSteps => Nat.pred n | _ => n end - worker_steps evs);
      [exact H|].
    unfold worker_steps. destruct e; simpl; lia.
Qed.

Lemma absorb_left_zero c : absorb_left c = Some 0 -> c = Finished.
Proof. destruct c; simpl; intros H; try discriminate; reflexivity. Qed.

(** X9.  After a first [urlopen] that raised: when the retry raises a
    [StandardError], the exception does not leave [run()].  Whatever the
    caller and the clock do meanwhile, the result fields stay at their
    defaults, [urlopen] is not called again, and the task is never
    Succeeded; after the handler's first two statements the message is on
    the standard output, unless [gsOptions.quiet] is on, and in the log;
    and after the six statements that [run()] has left, the task is
    Failed, with the running flag off. *)
Theorem retry_failure_is_absorbed (w : world) (e2 : Py.exn) (post : list event) :
  reachable rt w -> ctl w = Retry ->
  Py.is_StandardError (Py.exn_type e2) = true ->
  let w' := exec rt (UrlopenEnds (Raises e2) :: post) w in
  (6 <= worker_steps post -> Failed w' /\ running (thread w') = false)
  /\ (terminal w' -> Failed w')
  /\ (2 <= worker_steps post ->
      stdout w' = printed_by (quiet w) (Py.exn_msg e2) (stdout w)
      /\ warnings w' = [Py.exn_msg e2])
  /\ ~ Succeeded w' /\ (forall ex, ctl w' <> Died ex)
  /\ unparsed (thread w') /\ status (thread w') = None
  /\ urlopen_calls w' = 2.
Proof.
  intros Hreach Hc Hstd w'.
  pose proof (reachable_invariant Hreach) as I. unfold invariant in I.
  rewrite Hc in I. destruct I as [I1 [I2 [I3 [I4 [I5 [I6 [I7 I8]]]]]]].
  assert (H0 : absorbing e2 (quiet w) (stdout w) 6
                 (step rt w (UrlopenEnds (Raises e2)))).
  { simpl. rewrite Hc. simpl. rewrite Hstd. unfold absorbing. simpl.
    conjuncts. }
  apply (@absorb_exec e2 (quiet w) (stdout w) post) in H0.
  change (exec rt post (step rt w (UrlopenEnds (Raises e2)))) with w' in H0.
  set (n := 6 - worker_steps post) in H0.
  destruct H0 as [A1 [[A2 A2'] [A3 [A4 [A5 [A6 [A7 [A8 [A9 [A10 A11]]]]]]]]]].
  assert (Hfin : terminal w' -> Failed w').
  { intros Ht. unfold terminal in Ht. rewrite Ht in A1. simpl in A1.
    injection A1 as A1. rewrite <- A1 in A9, A11. simpl in A9, A11.
    unfold Failed. split; [exact Ht|]. split; [exact A11|]. rewrite A9. discriminate. }
  split.
  { intros Hs. assert (Hn : n = 0) by (subst n; lia).
    rewrite Hn in A1. apply absorb_left_zero in A1.
    split; [now apply Hfin|]. apply A10. lia. }
  split; [exact Hfin|]. split.
  { intros Hs. assert (Hn : n <= 4) by (subst n; lia).
    destruct (6 <=? n)%nat eqn:E6; [apply Nat.leb_le in E6; lia|].
    destruct (5 <=? n)%nat eqn:E5; [apply Nat.leb_le in E5; lia|].
    split; assumption. }
  split.
  { intros [Ht Hto]. destruct (Hfin Ht) as [_ [Hto' _]]. congruence. }
  split.
  { intros ex Hd. rewrite Hd in A1. discriminate. }
  split; [exact A2|]. split; [exact A2'|exact A4].
Qed.

End Absorbed.

(** X9 on a task whose first call was refused, with [gsOptions.quiet]
    off: the retry ends in a bad gateway, and the worker executes the six
    statements that are left. *)
Lemma retry_failure_is_absorbed_witness :
  let w' := exec Sample.rt (UrlopenEnds (Raises Sample.bad_gateway) :: work 6)
              Cases.retrying in
  Failed w' /\ running (thread w') = false
  /\ stdout w' = ["HTTP Error 502: Bad Gateway"]
  /\ warnings w' = ["HTTP Error 502: Bad Gateway"].
Proof.
  intros w'.
  assert (Hreach : reachable Sample.rt Cases.retrying).
  { exists Sample.req, false, 0%Q, (work 4 ++ [UrlopenEnds (Raises Sample.refused)])%list.
    vm_compute. reflexivity. }
  destruct (@retry_failure_is_absorbed Sample.rt Cases.retrying Sample.bad_gateway
              (work 6) Hreach eq_refl eq_refl) as [H1 [_ [H2 _]]].
  destruct (H1 (le_n 6)) as [F R]. destruct (H2 (le_S _ _ (le_S _ _ (le_S _ _ (le_S _ _ (le_n 2))))))
    as [O W].
  split; [exact F|]. split; [exact R|]. split; [exact O|exact W].
Defined.

(** ** The answer that comes in with the running flag on *)

Section Answered.
Variable rt : Py.runtime.

Lemma parsed_task_results top hyps t t' :
  confidence t = confidence t' ->
  results_agree (parsed_task rt top hyps t) (parsed_task rt top hyps t').
Proof.
  intros H. unfold results_agree.
  rewrite !parsed_json, !parsed_status, !parsed_confidence, !parsed_word,
    !parsed_words, !parsed_detailed, H.
  repeat split; reflexivity.
Qed.

Lemma succeed_step top hyps te w e :
  shaped rt top hyps -> confidence te = None ->
  succeeding rt (HTTPResponse (Some (Py.JDict top))) (parsed_task rt top hyps te) w ->
  no_stop e = true ->
  succeeding rt (HTTPResponse (Some (Py.JDict top))) (parsed_task rt top hyps te)
    (step rt w e).
Proof.
  intros Hsh Hconf [Ht0 [Hto Hc]] He.
  destruct e as [|o| |dt]; try discriminate; simpl.
  - unfold worker_step. destruct (ctl w) eqn:C; try contradiction.
    + destruct Hc as [Hr [Hraw Hu]].
      destruct (t0 (thread w)) eqn:T; [|congruence].
      unfold succeeding; simpl. rewrite T.
      repeat match goal with |- _ /\ _ => split end; auto; try discriminate.
    + destruct Hc as [Hr [Hraw Hu]]. rewrite Hr. unfold succeeding.
      change (thread (with_ctl (Unpacking AtLoad) w)) with (thread w).
      change (ctl (with_ctl (Unpacking AtLoad) w)) with (Unpacking AtLoad).
      cbv iota. split; [exact Ht0|]. split; [exact Hto|].
      rewrite rest_load_unpack, (@unpack_shaped rt top hyps (thread w) Hsh Hraw). simpl.
      split; [reflexivity|]. apply parsed_task_results.
      destruct Hu as [[_ [Hcf _]] _]. congruence.
    + destruct Hc as [Hf Hr].
      pose proof (rest_step rt u (thread w)) as R.
      destruct (unpack_step rt u (thread w)) as [[[u'|]|ex] t'] eqn:E;
        destruct (unpack_step_frame rt u (thread w) E) as [_ [_ [F3 [F4 _]]]].
      * unfold succeeding.
        change (thread (with_ctl (Unpacking u') (with_thread t' w))) with t'.
        change (ctl (with_ctl (Unpacking u') (with_thread t' w))) with (Unpacking u').
        cbv iota. rewrite R, F3, F4. auto.
      * unfold succeeding; simpl. rewrite R in Hr. simpl in Hr.
        rewrite F3, F4. auto.
      * rewrite R in Hf. discriminate.
    + unfold succeeding; simpl. auto.
    + unfold succeeding; simpl. auto.
    + unfold succeeding. rewrite C. auto.
  - destruct (ctl w) eqn:C; try contradiction;
      unfold succeeding; rewrite C; auto.
  - unfold succeeding; simpl. auto.
Qed.

Lemma succeed_exec top hyps te evs : forall w,
  shaped rt top hyps -> confidence te = None ->
  succeeding rt (HTTPResponse (Some (Py.JDict top))) (parsed_task rt top hyps te) w ->
  forallb no_stop evs = true ->
  succeeding rt (HTTPResponse (Some (Py.JDict top))) (parsed_task rt top hyps te)
    (exec rt evs w).
Proof.
  induction evs as [|e evs IH]; intros w Hsh Hconf Hs Hn; [exact Hs|].
  simpl in Hn. apply andb_prop in Hn as [He Hn]. rewrite exec_cons.
  apply IH; auto. apply succeed_step; auto.
Qed.

Lemma work_no_stop n : forallb no_stop (work n) = true.
Proof. induction n as [|n IH]; simpl; auto. Qed.

Lemma work_add a b w :
  exec rt (work (a + b)) w = exec rt (work b) (exec rt (work a) w).
Proof. unfold work. now rewrite repeat_app, exec_app. Qed.

Lemma succeed_finishes top hyps te w :
  shaped rt top hyps -> confidence te = None ->
  succeeding rt (HTTPResponse (Some (Py.JDict top))) (parsed_task rt top hyps te) w ->
  exists n, ctl (exec rt (work n) w) = Finished.
Proof.
  intros Hsh Hconf.
  set (r := HTTPResponse (Some (Py.JDict top))).
  set (p := parsed_task rt top hyps te).
  assert (A1 : forall w u, succeeding rt r p w -> ctl w = Unpacking u ->
                 exists n, ctl (exec rt (work n) w) = Finished).
  { intros w1 u S1 C1. destruct (@fin_any rt u w1 C1) as [n Hn].
    destruct S1 as [_ [_ S1]]. rewrite C1 in S1. destruct S1 as [Hf _].
    rewrite Hf in Hn. destruct Hn as [_ [Hc _]].
    exists (n + 2). rewrite work_add.
    change (work 2) with [WorkerSteps; WorkerSteps].
    rewrite !exec_cons. simpl. unfold worker_step at 2. rewrite Hc.
    reflexivity. }
  assert (A2 : forall w, succeeding rt r p w -> ctl w = Timed ->
                 exists n, ctl (exec rt (work n) w) = Finished).
  { intros w1 S1 C1.
    pose proof (@succeed_step top hyps te w1 WorkerSteps Hsh Hconf S1 eq_refl) as S2.
    destruct S1 as [_ [_ S1]]. rewrite C1 in S1. destruct S1 as [Hr _].
    assert (C2 : ctl (step rt w1 WorkerSteps) = Unpacking AtLoad)
      by (simpl; unfold worker_step; rewrite C1, Hr; reflexivity).
    destruct (A1 _ _ S2 C2) as [n Hn]. exists (S n). exact Hn. }
  intros Hs. destruct (ctl w) eqn:C;
    try (destruct Hs as [_ [_ Hs]]; rewrite C in Hs; contradiction).
  - pose proof (@succeed_step top hyps te w WorkerSteps Hsh Hconf Hs eq_refl) as S2.
    destruct Hs as [Ht0 _].
    assert (C2 : ctl (step rt w WorkerSteps) = Timed).
    { simpl. unfold worker_step. rewrite C.
      destruct (t0 (thread w)); [reflexivity|congruence]. }
    destruct (A2 _ S2 C2) as [n Hn]. exists (S n). exact Hn.
  - apply (A2 w Hs C).
  - apply (A1 w u Hs C).
  - exists 2. change (work 2) with [WorkerSteps; WorkerSteps].
    rewrite !exec_cons. simpl. unfold worker_step at 2. unfold worker_step.
    rewrite C. reflexivity.
  - exists 1. change (work 1) with [WorkerSteps].
    rewrite !exec_cons. simpl. unfold worker_step. rewrite C. reflexivity.
  - exists 0. exact C.
Qed.

(** X10.  An answer of the documented shape that comes in while the
    running flag is on is parsed, as long as nobody calls [stop()]:
    whatever the clock does meanwhile, no exception leaves [run()], the
    task ends neither TimedOut nor Failed, and when [run()] has returned
    the task is Succeeded, with the running flag off and with the result
    fields that [_unpackRaw] makes of the payload; and [run()] does
    return, after finitely many statements of the worker. *)
Theorem answer_is_parsed top hyps (w : world) (post : list event) :
  reachable rt w -> in_flight w -> running (thread w) = true ->
  shaped rt top hyps -> forallb no_stop post = true ->
  let p := parsed_task rt top hyps (thread w) in
  let w' := exec rt (UrlopenEnds (Returns (HTTPResponse (Some (Py.JDict top)))) :: post) w in
  ~ TimedOut w' /\ ~ Failed w' /\ (forall ex, ctl w' <> Died ex)
  /\ (terminal w' ->
      Succeeded w' /\ running (thread w') = false /\ results_agree (thread w') p)
  /\ exists n,
       Succeeded (exec rt (work n) w')
       /\ results_agree (thread (exec rt (work n) w')) p.
Proof.
  intros Hreach Hfl Hrun Hsh Hns p w'.
  pose proof (reachable_invariant Hreach) as I.
  assert (Hconf : confidence (thread w) = None /\ t0 (thread w) <> None
                  /\ timedout (thread w) = false /\ untouched (thread w)).
  { unfold invariant in I. destruct Hfl as [C|C]; rewrite C in I;
      unfold untouched, unparsed in *; tauto. }
  destruct Hconf as [Hconf [Ht0 [Hto Hu]]].
  assert (S0 : succeeding rt (HTTPResponse (Some (Py.JDict top))) p
                 (step rt w (UrlopenEnds (Returns (HTTPResponse (Some (Py.JDict top))))))).
  { unfold succeeding. destruct Hfl as [C|C]; simpl; rewrite C; simpl;
      repeat match goal with |- _ /\ _ => split end; auto;
      unfold untouched, unparsed in *; simpl; tauto. }
  assert (S1 : succeeding rt (HTTPResponse (Some (Py.JDict top))) p w').
  { unfold w'. rewrite exec_cons. apply succeed_exec; auto. }
  assert (R1 : reachable rt w') by (apply reachable_exec, Hreach).
  pose proof (reachable_invariant R1) as I1.
  repeat match goal with |- _ /\ _ => split end.
  - intros [_ [H _]]. destruct S1 as [_ [S1 _]]. congruence.
  - intros [_ [H _]]. destruct S1 as [_ [S1 _]]. congruence.
  - intros ex C. destruct S1 as [_ [_ S1]]. rewrite C in S1. exact S1.
  - intros C. unfold terminal in C. destruct S1 as [_ [S1 S2]]. rewrite C in S2.
    unfold invariant in I1. rewrite C in I1.
    split; [split; assumption|]. split; [tauto|exact S2].
  - destruct (@succeed_finishes top hyps (thread w) w' Hsh Hconf S1) as [n Hn].
    exists n.
    pose proof (@succeed_exec top hyps (thread w) (work n) w' Hsh Hconf S1
                  (work_no_stop n)) as [_ [S2 S3]].
    rewrite Hn in S3. split; [split; assumption|exact S3].
Qed.
End Answered.

(** X10 on a task whose first call is pending: two seconds pass, the
    answer [hello world] comes in, and the clock moves between the
    worker's statements. *)
Lemma answer_is_parsed_witness :
  let post := [WorkerSteps; TimePasses (1#2); WorkerSteps; WorkerSteps] in
  let w' := exec Sample.rt (UrlopenEnds (Returns Sample.hello) :: post) Sample.calling in
  ~ TimedOut w' /\ ~ Failed w' /\ (forall ex, ctl w' <> Died ex)
  /\ (terminal w' ->
      Succeeded w' /\ running (thread w') = false
      /\ results_agree (thread w')
           (parsed_task Sample.rt Sample.hello_top Sample.hello_hyps (thread Sample.calling)))
  /\ exists n,
       Succeeded (exec Sample.rt (work n) w')
       /\ results_agree (thread (exec Sample.rt (work n) w'))
            (parsed_task Sample.rt Sample.hello_top Sample.hello_hyps (thread Sample.calling)).
Proof.
  apply (@answer_is_parsed Sample.rt Sample.hello_top Sample.hello_hyps Sample.calling
           [WorkerSteps; TimePasses (1#2); WorkerSteps; WorkerSteps]
           calling_reachable (or_introl eq_refl) eq_refl).
  - split; [exists (Py.JInt 0); reflexivity|]. split; [reflexivity|].
    constructor; [|constructor]. intros v Hv. injection Hv as <-.
    exists 0.87%float. reflexivity.
  - reflexivity.
Defined.

(** ** The entry points *)

Section EntryPoints.
Variable rt : Py.runtime.

Lemma message_ctl msg w : ctl (_message msg w) = ctl w.
Proof. unfold _message. now destruct (quiet w). Qed.

Lemma message_thread msg w : thread (_message msg w) = thread w.
Proof. unfold _message. now destruct (quiet w). Qed.


Lemma wait_running_flag sched : forall w w' rest,
  wait_running rt sched w = Some (w', rest) -> running (thread w') = true.
Proof.
  induction sched as [|evs sched IH]; intros w w' rest; simpl;
    destruct (running (thread w)) eqn:R; try discriminate.
  - intros E; injection E as <- <-; exact R.
  - intros E; injection E as <- <-; exact R.
  - apply IH.
Qed.

Lemma wait_running_off sched : forall w,
  flag_set (ctl w) = true -> running (thread w) = false ->
  wait_running rt sched w = None.
Proof.
  induction sched as [|evs sched IH]; intros w Hc Hr; simpl; rewrite Hr;
    [reflexivity|].
  destruct (@running_stays_off rt evs w Hc Hr) as [H1 H2]. now apply IH.
Qed.


(** X11.  [getThread()] hands the task over only with the running flag
    on: at once, if the flag is on at the first test of its loop; and
    never, whatever happens later, if by that first test the worker has
    set the flag and it is off again, the query being over already. *)
Theorem getThread_waits_for_flag (gs : Builder.GoogleSpeech) (q : bool) (now : Q)
    (early : list event) (sched : list (list event)) :
  let w := exec rt early (new_world (Builder.request gs) q now) in
  (forall w' rest, getThread rt gs q now early sched = Some (w', rest) ->
     running (thread w') = true)
  /\ (running (thread w) = true ->
      getThread rt gs q now early sched
      = Some (with_thread (set_file (Some (Builder.file gs)) (thread w))
                (_message "Sending:," w), sched))
  /\ (flag_set (ctl w) = true -> running (thread w) = false ->
      getThread rt gs q now early sched = None).
Proof.
  intros w. unfold getThread. fold w.
  repeat match goal with |- _ /\ _ => split end.
  - intros w' rest E. apply (wait_running_flag _ _ E).
  - intros Hr. rewrite message_thread.
    destruct sched as [|evs sched']; simpl; rewrite ?message_thread, Hr; reflexivity.
  - intros Hc Hr. apply wait_running_off; simpl.
    + now rewrite message_ctl.
    + now rewrite message_thread.
Qed.


End EntryPoints.


(** ** The builder, path by path *)

Section BuilderPaths.
Variable S : Type.
Variable pf : Builder.platform S.
Variable quiet : bool.

Import Builder.

Lemma wav_is_left ext :
  mem_str ext supported = true -> String.eqb ext ".flac" = false ->
  String.eqb ext ".spx" = false -> ext = ".wav".
Proof.
  unfold mem_str, supported, existsb. intros H E1 E2. rewrite E1, E2 in H.
  cbn [orb] in H. rewrite orb_false_r in H. now apply String.eqb_eq.
Qed.

(** Every way through the builder. *)
Lemma init_paths (fuel : nat) (path : string) (opt : Opt.options) (st : io S)
    (P : Py.result GoogleSpeech * io S -> Prop) :
  let ext := snd (splitext pf path) in
  let st1 := snd (do_isfile pf path st) in
  let st2 := snd (do_isfile pf (FLAC_PATH pf) st1) in
  let opt5 := Opt.set_results 5 opt in
  (forall msg, P (Py.Raise (Py.Exn Py.IOError msg), st1)) ->
  (forall msg, P (Py.Raise (Py.Exn Py.SoundFormatNotSupported msg), st1)) ->
  (ext = ".flac" -> P (load_and_build pf quiet opt5 path path "x-flac" None st1)) ->
  (ext = ".spx" ->
   P (load_and_build pf quiet opt5 path path "x-speex-with-header-byte" None st1)) ->
  (ext = ".wav" -> forall msg, P (Py.Raise (Py.Exn Py.SystemExit msg), st2)) ->
  (ext = ".wav" -> forall stamp st3,
     trace st3 = trace st2 ->
     let tmp := "tmp_guess" ++ stamp ++ ".flac" in
     let cmd := [FLAC_PATH pf; "-8"; "-f"; "--totally-silent"; "-o"; tmp; path] in
     (forall e, fst (encode pf quiet cmd st3) = Py.Raise e ->
        P (Py.Raise e, snd (encode pf quiet cmd st3)))
     /\ (forall r5 st5,
           encode_again pf quiet fuel tmp cmd (snd (encode pf quiet cmd st3))
           = Some (r5, st5) ->
           match r5 with
           | Py.Raise e => P (Py.Raise e, st5)
           | Py.Ok _ => P (load_and_build pf quiet opt5 path tmp "x-flac" (Some tmp) st5)
           end)) ->
  forall res, GoogleSpeech_init pf quiet fuel path opt st = Some res -> P res.
Proof.
  intros ext st1 st2 opt5 H1 H2 H3 H4 H5 H6 res.
  unfold GoogleSpeech_init. rewrite (@do_isfile_eq S pf path st). cbv beta iota.
  assert (E1 : st1 = act (IsFile path) (snd (isfile pf path (os_state st))) st).
  { unfold st1. now rewrite do_isfile_eq. }
  rewrite <- E1. change (snd (splitext pf path)) with ext.
  change (Opt.set_results 5 opt) with opt5.
  destruct (fst (isfile pf path (os_state st))); cbn [negb].
  2:{ intros E; injection E as <-. apply H1. }
  destruct (mem_str ext supported) eqn:M; cbn [negb].
  2:{ intros E; injection E as <-. apply H2. }
  destruct (String.eqb ext ".flac") eqn:Ef.
  { intros E; injection E as <-. apply H3. now apply String.eqb_eq. }
  destruct (String.eqb ext ".spx") eqn:Es.
  { intros E; injection E as <-. apply H4. now apply String.eqb_eq. }
  pose proof (@wav_is_left ext M Ef Es) as Ew.
  destruct (do_isfile pf (FLAC_PATH pf) st1) as [have st2'] eqn:E2.
  assert (E2' : st2' = st2) by (unfold st2; try rewrite E2; reflexivity).
  rewrite E2'. clear E2.
  destruct have; cbn [negb].
  2:{ intros E; injection E as <-. now apply H5. }
  destruct (time_stamp pf (os_state st2)) as [stamp s3].
  set (st3 := {| os_state := s3; trace := trace st2; printed := printed st2;
                 warned := warned st2 |}).
  destruct (H6 Ew stamp st3 eq_refl) as [H7 H8].
  set (tmp := "tmp_guess" ++ stamp ++ ".flac") in *.
  set (cmd := [FLAC_PATH pf; "-8"; "-f"; "--totally-silent"; "-o"; tmp; path]) in *.
  destruct (encode pf quiet cmd st3) as [[u|e] st4] eqn:E4.
  2:{ intros E; injection E as <-. apply (H7 e eq_refl). }
  cbn [snd] in H8.
  destruct (encode_again pf quiet fuel tmp cmd st4) as [[[u'|e] st5]|] eqn:E5;
    [| |discriminate].
  - intros E; injection E as <-. apply (H8 _ _ eq_refl).
  - intros E; injection E as <-. apply (H8 _ _ eq_refl).
Qed.

Lemma sleeps_app (a b : list action) :
  sleeps (a ++ b)%list = sleeps a + sleeps b.
Proof. unfold sleeps. now rewrite filter_app, length_app. Qed.

Lemma isfile_trace p (st : io S) :
  trace (snd (do_isfile pf p st)) = (trace st ++ [IsFile p])%list.
Proof. now rewrite do_isfile_eq. Qed.

Lemma encode_trace cmd (st : io S) :
  trace (snd (encode pf quiet cmd st)) = (trace st ++ [ShellCall cmd])%list.
Proof.
  unfold encode, do_shellCall. destruct (shellCall pf cmd (os_state st)) as [r s'].
  destruct r as [[so se]|e]; simpl; [destruct (String.eqb se "")|];
    rewrite ?runs_message; reflexivity.
Qed.

Lemma encode_raises cmd (st : io S) e :
  fst (encode pf quiet cmd st) = Py.Raise e ->
  fst (shellCall pf cmd (os_state st)) = Py.Raise e.
Proof.
  unfold encode, do_shellCall. destruct (shellCall pf cmd (os_state st)) as [r s'].
  destruct r as [[so se]|e']; simpl; intros H; [discriminate H|now injection H as ->].
Qed.

Lemma encode_again_trace tmp cmd fuel : forall (st st' : io S) r,
  encode_again pf quiet fuel tmp cmd st = Some (r, st') ->
  exists more,
    trace st' = (trace st ++ more)%list
    /\ forallb handles_no_file more = true /\ sleeps more = 0
    /\ (forall e, r = Py.Raise e -> exists s, fst (shellCall pf cmd s) = Py.Raise e).
Proof.
  induction fuel as [|fuel IH]; intros st st' r; simpl; [discriminate|].
  rewrite do_isfile_eq.
  set (st1 := act (IsFile tmp) (snd (isfile pf tmp (os_state st))) st).
  destruct (fst (isfile pf tmp (os_state st))).
  - intros E; injection E as <- <-. exists [IsFile tmp].
    repeat split; try reflexivity. discriminate.
  - set (st2 := message quiet "Failed to convert to tmp.flac; trying again" st1).
    pose proof (encode_trace cmd st2) as T.
    pose proof (@encode_raises cmd st2) as R.
    assert (T2 : trace st2 = (trace st ++ [IsFile tmp])%list)
      by (unfold st2; now rewrite runs_message).
    destruct (encode pf quiet cmd st2) as [[u|e] st3]; cbn [fst snd] in T, R.
    + intros E. destruct (IH _ _ _ E) as [more [M1 [M2 [M3 M4]]]].
      exists ([IsFile tmp; ShellCall cmd] ++ more)%list. split; [|split; [|split]].
      * rewrite M1, T, T2, <- !app_assoc. reflexivity.
      * simpl. exact M2.
      * rewrite sleeps_app, M3. reflexivity.
      * exact M4.
    + intros E; injection E as <- <-. exists [IsFile tmp; ShellCall cmd].
      split; [|split; [|split]]; try reflexivity.
      * rewrite T, T2, <- app_assoc. reflexivity.
      * intros e' E'. injection E' as <-. exists (os_state st2). now apply R.
Qed.

Lemma await_trace left : forall p (st : io S),
  exists more,
    trace (await_file pf left p st) = (trace st ++ more)%list
    /\ forallb is_look more = true /\ sleeps more <= left.
Proof.
  induction left as [|left IH]; intros p st; simpl; rewrite do_isfile_eq;
    set (st1 := act (IsFile p) (snd (isfile pf p (os_state st))) st);
    destruct (fst (isfile pf p (os_state st))).
  - exists [IsFile p]. repeat split. unfold sleeps. simpl. lia.
  - exists [IsFile p]. repeat split. unfold sleeps. simpl. lia.
  - exists [IsFile p]. repeat split. unfold sleeps. simpl. lia.
  - destruct (IH p (do_sleep pf st1)) as [more [M1 [M2 M3]]].
    exists ([IsFile p; Sleep] ++ more)%list. split; [|split].
    + rewrite M1. unfold do_sleep, st1. simpl. now rewrite <- !app_assoc.
    + simpl. exact M2.
    + rewrite sleeps_app. unfold sleeps at 1. simpl. lia.
Qed.

Lemma load_trace opt orig p ft tmp (st st' : io S) r :
  load_and_build pf quiet opt orig p ft tmp st = (r, st') ->
  exists looks ok,
    trace st' = (trace st ++ looks ++ after_read p tmp ok)%list
    /\ forallb is_look looks = true /\ sleeps looks <= 10
    /\ read_outcome ok r.
Proof.
  unfold load_and_build.
  set (st1 := message quiet _ st).
  destruct (await_trace 10 p st1) as [looks [M1 [M2 M3]]].
  assert (T1 : trace st1 = trace st) by (unfold st1; now rewrite runs_message).
  set (st2 := await_file pf 10 p st1) in *.
  unfold do_read. destruct (read pf p (os_state st2)) as [audio s'].
  destruct audio as [audio|]; intros E; injection E as <- <-.
  - exists looks, true. split; [|split; [|split]]; auto.
    + destruct tmp as [t|]; unfold do_remove, after_read; simpl;
        rewrite M1, T1, <- !app_assoc; reflexivity.
    + simpl. eexists. reflexivity.
  - exists looks, false. split; [|split; [|split]]; auto.
    + destruct tmp as [t|]; unfold do_remove, after_read; simpl;
        rewrite M1, T1, <- ?app_assoc; reflexivity.
    + simpl. eexists. reflexivity.
Qed.

Lemma looks_handle_no_file (l : list action) :
  forallb is_look l = true ->
  forallb handles_no_file l = true /\ encoder_runs l = 0.
Proof.
  induction l as [|a l IH]; simpl; [auto|].
  intros H. apply andb_prop in H as [Ha Hl]. destruct (IH Hl) as [I1 I2].
  destruct a; try discriminate; simpl; auto.
Qed.

(** The request that a returning [load_and_build] has made. *)
Lemma load_request opt orig p ft tmp (st st' : io S) gs :
  load_and_build pf quiet opt orig p ft tmp st = (Py.Ok gs, st') ->
  timeout gs = Opt.timeout opt /\ file gs = orig
  /\ url (request gs)
     = "https://www.google.com/speech-api/v1/recognize?xjerr=1&client=psychopy2&lang="
       ++ Opt.lang opt ++ "&pfilter=" ++ Py.fmt_d (Opt.pro_filter opt)
       ++ "&maxresults=" ++ match Opt.results opt with
                            | Some n => Py.fmt_d n
                            | None => ""
                            end
  /\ header_given "User-Agent" (request gs) = Some useragent
  /\ exists s, fst (read pf p s) = Some (data (request gs)).
Proof.
  unfold load_and_build, do_read.
  set (st2 := await_file pf 10 p _).
  destruct (read pf p (os_state st2)) as [audio s'] eqn:R.
  destruct audio as [audio|]; intros E; [|discriminate].
  injection E as <- _. cbn [timeout file request url data headers].
  repeat split.
  exists (os_state st2). now rewrite R.
Qed.

(** X13.  What the builder does to files.  Up to the read it only looks
    for files, runs the encoder and sleeps, at most ten times; then either
    it has raised already, or it reads one file, and that is all it reads:
    the input itself for [.flac] and [.spx], with no run of the encoder
    and nothing removed, and for [.wav] the encoder's output
    [tmp_guess<time>.flac], which it removes after the read whether the
    read went well or not.  The request is made after a read that went
    well, and is the last thing the builder does; after a read that failed
    the builder raises [SoundFileError]. *)
Theorem builder_file_traffic (fuel : nat) (path : string) (opt : Opt.options)
    (st st' : io S) (r : Py.result GoogleSpeech) :
  GoogleSpeech_init pf quiet fuel path opt st = Some (r, st') ->
  let ext := snd (splitext pf path) in
  exists before after,
    trace st' = (trace st ++ before ++ after)%list
    /\ forallb handles_no_file before = true /\ sleeps before <= 10
    /\ ((after = [] /\ exists e, r = Py.Raise e)
        \/ (exists ok,
              after = after_read path None ok
              /\ (ext = ".flac" \/ ext = ".spx")
              /\ encoder_runs before = 0 /\ read_outcome ok r)
        \/ (exists stamp ok,
              after = after_read ("tmp_guess" ++ stamp ++ ".flac")
                        (Some ("tmp_guess" ++ stamp ++ ".flac")) ok
              /\ ext = ".wav"
              /\ 1 <= encoder_runs before /\ read_outcome ok r)).
Proof.
  intros H ext.
  set (P := fun res : Py.result GoogleSpeech * io S =>
    exists before after,
      trace (snd res) = (trace st ++ before ++ after)%list
      /\ forallb handles_no_file before = true /\ sleeps before <= 10
      /\ ((after = [] /\ exists e, fst res = Py.Raise e)
          \/ (exists ok,
                after = after_read path None ok
                /\ (ext = ".flac" \/ ext = ".spx")
                /\ encoder_runs before = 0 /\ read_outcome ok (fst res))
          \/ (exists stamp ok,
                after = after_read ("tmp_guess" ++ stamp ++ ".flac")
                          (Some ("tmp_guess" ++ stamp ++ ".flac")) ok
                /\ ext = ".wav"
                /\ 1 <= encoder_runs before /\ read_outcome ok (fst res)))).
  change (P (r, st')).
  pose proof (isfile_trace path st) as T1.
  set (st1 := snd (do_isfile pf path st)) in *.
  pose proof (isfile_trace (FLAC_PATH pf) st1) as T2.
  set (st2 := snd (do_isfile pf (FLAC_PATH pf) st1)) in *.
  assert (Fail1 : forall e, P (Py.Raise e, st1)).
  { intros e. exists [IsFile path], []. cbn [fst snd].
    split; [now rewrite T1|]. split; [reflexivity|]. split; [unfold sleeps; simpl; lia|].
    left. split; [reflexivity|]. now exists e. }
  assert (Direct : forall ft, ext = ".flac" \/ ext = ".spx" ->
            P (load_and_build pf quiet (Opt.set_results 5 opt) path path ft None st1)).
  { intros ft Hext.
    destruct (load_and_build pf quiet (Opt.set_results 5 opt) path path ft None st1)
      as [r1 st1'] eqn:L.
    destruct (load_trace _ _ _ _ _ _ L) as [looks [ok [L1 [L2 [L3 L4]]]]].
    destruct (looks_handle_no_file _ L2) as [L5 L6].
    exists ([IsFile path] ++ looks)%list, (after_read path None ok). cbn [fst snd].
    split; [rewrite L1, T1, <- !app_assoc; reflexivity|].
    split; [exact L5|]. split; [rewrite sleeps_app; unfold sleeps at 1; simpl; lia|].
    right; left. exists ok. split; [reflexivity|]. split; [exact Hext|].
    split; [rewrite runs_app, L6; reflexivity|exact L4]. }
  refine (@init_paths fuel path opt st P _ _ _ _ _ _ (r, st') H).
  - intros msg. apply Fail1.
  - intros msg. apply Fail1.
  - intros E. apply Direct. now left.
  - intros E. apply Direct. now right.
  - intros E msg. fold st1 st2. exists [IsFile path; IsFile (FLAC_PATH pf)], [].
    cbn [fst snd]. split; [rewrite T2, T1, <- !app_assoc; reflexivity|].
    split; [reflexivity|]. split; [unfold sleeps; simpl; lia|].
    left. split; [reflexivity|]. eexists; reflexivity.
  - intros E stamp st3 T3 tmp cmd. fold st1 st2 in T3.
    pose proof (encode_trace cmd st3) as T4.
    assert (T5 : trace (snd (encode pf quiet cmd st3))
                 = (trace st ++ [IsFile path; IsFile (FLAC_PATH pf); ShellCall cmd])%list).
    { rewrite T4, T3, T2, T1, <- !app_assoc. reflexivity. }
    split.
    + intros e He. exists [IsFile path; IsFile (FLAC_PATH pf); ShellCall cmd], [].
      cbn [fst snd]. split; [rewrite T5, app_nil_r; reflexivity|].
      split; [reflexivity|]. split; [unfold sleeps; simpl; lia|].
      left. split; [reflexivity|]. now exists e.
    + intros r5 st5 E5.
      destruct (encode_again_trace _ _ _ _ E5) as [more [M1 [M2 [M3 _]]]].
      destruct r5 as [u|e].
      * destruct (load_and_build pf quiet (Opt.set_results 5 opt) path tmp "x-flac"
                    (Some tmp) st5) as [r1 st1'] eqn:L.
        destruct (load_trace _ _ _ _ _ _ L) as [looks [ok [L1 [L2 [L3 L4]]]]].
        destruct (looks_handle_no_file _ L2) as [L5 L6].
        exists ([IsFile path; IsFile (FLAC_PATH pf); ShellCall cmd] ++ more ++ looks)%list,
          (after_read tmp (Some tmp) ok). cbn [fst snd].
        split; [rewrite L1, M1, T5, <- !app_assoc; reflexivity|].
        split; [rewrite !forallb_app, M2, L5; reflexivity|].
        split; [rewrite !sleeps_app, M3; unfold sleeps at 1; simpl; lia|].
        right; right. exists stamp, ok. split; [reflexivity|]. split; [exact E|].
        split; [rewrite !runs_app; unfold encoder_runs at 1; simpl; lia|exact L4].
      * exists ([IsFile path; IsFile (FLAC_PATH pf); ShellCall cmd] ++ more)%list, [].
        cbn [fst snd]. split; [rewrite M1, T5, app_nil_r, <- !app_assoc; reflexivity|].
        split; [rewrite forallb_app, M2; reflexivity|].
        split; [rewrite sleeps_app, M3; unfold sleeps; simpl; lia|].
        left. split; [reflexivity|]. now exists e.
Qed.

(** X14.  The exceptions that leave the builder: [IOError],
    [SoundFormatNotSupported], [SystemExit], [SoundFileError], and
    whatever the call of the encoder raises; the four only, on a platform
    where the encoder can be started whenever it is called. *)
Theorem builder_raises_only (fuel : nat) (path : string) (opt : Opt.options)
    (st st' : io S) (e : Py.exn) :
  GoogleSpeech_init pf quiet fuel path opt st = Some (Py.Raise e, st') ->
  (In (Py.exn_type e)
      [Py.IOError; Py.SoundFormatNotSupported; Py.SystemExit; Py.SoundFileError]
   \/ exists cmd s, fst (shellCall pf cmd s) = Py.Raise e)
  /\ (encoder_starts pf ->
      In (Py.exn_type e)
        [Py.IOError; Py.SoundFormatNotSupported; Py.SystemExit; Py.SoundFileError]).
Proof.
  intros H.
  assert (K : In (Py.exn_type e)
                [Py.IOError; Py.SoundFormatNotSupported; Py.SystemExit; Py.SoundFileError]
              \/ exists cmd s, fst (shellCall pf cmd s) = Py.Raise e).
  { set (P := fun res : Py.result GoogleSpeech * io S =>
        forall e, fst res = Py.Raise e ->
          In (Py.exn_type e)
            [Py.IOError; Py.SoundFormatNotSupported; Py.SystemExit; Py.SoundFileError]
          \/ exists cmd s, fst (shellCall pf cmd s) = Py.Raise e).
    assert (Load : forall o orig p ft tmp (s1 : io S),
              P (load_and_build pf quiet o orig p ft tmp s1)).
    { intros o orig p ft tmp s1 e1.
      destruct (load_and_build pf quiet o orig p ft tmp s1) as [r1 s1'] eqn:L.
      destruct (load_trace _ _ _ _ _ _ L) as [looks [ok [_ [_ [_ L4]]]]].
      cbn [fst]. intros ->. left. destruct ok; simpl in L4.
      - destruct L4 as [gs L4]. discriminate.
      - destruct L4 as [msg L4]. injection L4 as ->. simpl. tauto. }
    refine (@init_paths fuel path opt st P _ _ _ _ _ _ (Py.Raise e, st') H e eq_refl).
    - intros msg e1 E1. injection E1 as <-. left. simpl. tauto.
    - intros msg e1 E1. injection E1 as <-. left. simpl. tauto.
    - intros _. apply Load.
    - intros _. apply Load.
    - intros _ msg e1 E1. injection E1 as <-. left. simpl. tauto.
    - intros _ stamp st3 _ tmp cmd. split.
      + intros e0 He e1 E1. injection E1 as <-. right.
        exists cmd, (os_state st3). now apply encode_raises.
      + intros r5 st5 E5.
        destruct (encode_again_trace _ _ _ _ E5) as [more [_ [_ [_ M4]]]].
        destruct r5 as [u|e0]; [apply Load|].
        intros e1 E1. injection E1 as <-. right.
        destruct (M4 e0 eq_refl) as [s Hs]. now exists cmd, s. }
  split; [exact K|]. intros Hs. destruct K as [K|[cmd [s K]]]; [exact K|].
  destruct (Hs cmd s) as [out Ho]. congruence.
Qed.

(** X15.  The request of a builder that returns: the timeout is that of
    the options; [file] is the name that the builder was given, also when
    it is the encoder's output that is sent; the URL carries the language
    and the profanity filter of the options and [maxresults=5] whatever
    the options say about results; the user agent is PsychoPy's; and the
    data are what a read of a file returned. *)
Theorem request_of_options (fuel : nat) (path : string) (opt : Opt.options)
    (st st' : io S) (gs : GoogleSpeech) :
  GoogleSpeech_init pf quiet fuel path opt st = Some (Py.Ok gs, st') ->
  timeout gs = Opt.timeout opt /\ file gs = path
  /\ url (request gs)
     = "https://www.google.com/speech-api/v1/recognize?xjerr=1&client=psychopy2&lang="
       ++ Opt.lang opt ++ "&pfilter=" ++ Py.fmt_d (Opt.pro_filter opt)
       ++ "&maxresults=5"
  /\ header_given "User-Agent" (request gs) = Some useragent
  /\ exists p s, fst (read pf p s) = Some (data (request gs)).
Proof.
  intros H.
  set (P := fun res : Py.result GoogleSpeech * io S =>
    forall gs, fst res = Py.Ok gs ->
      timeout gs = Opt.timeout opt /\ file gs = path
      /\ url (request gs)
         = "https://www.google.com/speech-api/v1/recognize?xjerr=1&client=psychopy2&lang="
           ++ Opt.lang opt ++ "&pfilter=" ++ Py.fmt_d (Opt.pro_filter opt)
           ++ "&maxresults=5"
      /\ header_given "User-Agent" (request gs) = Some useragent
      /\ exists p s, fst (read pf p s) = Some (data (request gs))).
  assert (Load : forall p ft tmp (s1 : io S),
            P (load_and_build pf quiet (Opt.set_results 5 opt) path p ft tmp s1)).
  { intros p ft tmp s1 gs1.
    destruct (load_and_build pf quiet (Opt.set_results 5 opt) path p ft tmp s1)
      as [r1 s1'] eqn:L.
    cbn [fst]. intros ->.
    destruct (load_request _ _ _ _ _ _ L) as [R1 [R2 [R3 [R4 [s R5]]]]].
    split; [exact R1|]. split; [exact R2|]. split; [exact R3|].
    split; [exact R4|]. now exists p, s. }
  refine (@init_paths fuel path opt st P _ _ _ _ _ _ (Py.Ok gs, st') H gs eq_refl).
  - intros msg gs1 E1. discriminate.
  - intros msg gs1 E1. discriminate.
  - intros _. apply Load.
  - intros _. apply Load.
  - intros _ msg gs1 E1. discriminate.
  - intros _ stamp st3 _ tmp cmd. split.
    + intros e0 _ gs1 E1. discriminate.
    + intros r5 st5 _. destruct r5 as [u|e0]; [apply Load|].
      intros gs1 E1. discriminate.
Qed.

End BuilderPaths.

(** X13 on a wav file, on a machine where the encoder's output appears
    with its third run. *)
Lemma builder_file_traffic_witness :
  let pf := Sample.machine (Some 3) in
  let ext := snd (Builder.splitext pf "speech_clip.wav") in
  exists r st',
    Builder.GoogleSpeech_init pf true 5 "speech_clip.wav" Opt.defaults Sample.start
    = Some (r, st')
    /\ exists before after,
         Builder.trace st' = (Builder.trace Sample.start ++ before ++ after)%list
         /\ forallb handles_no_file before = true /\ sleeps before <= 10
         /\ ((after = [] /\ exists e, r = Py.Raise e)
             \/ (exists ok,
                   after = after_read "speech_clip.wav" None ok
                   /\ (ext = ".flac" \/ ext = ".spx")
                   /\ Builder.encoder_runs before = 0 /\ read_outcome ok r)
             \/ (exists stamp ok,
                   after = after_read ("tmp_guess" ++ stamp ++ ".flac")
                             (Some ("tmp_guess" ++ stamp ++ ".flac")) ok
                   /\ ext = ".wav"
                   /\ 1 <= Builder.encoder_runs before /\ read_outcome ok r)).
Proof.
  intros pf ext. eexists. eexists. split; [vm_compute; reflexivity|].
  apply (@builder_file_traffic nat pf true 5 "speech_clip.wav" Opt.defaults Sample.start).
  vm_compute. reflexivity.
Defined.

(** X14 on a wav file, on a machine where the encoder cannot be started. *)
Lemma builder_raises_only_witness :
  exists e st',
    Builder.GoogleSpeech_init Cases.locked true 5 "speech_clip.wav" Opt.defaults
      Sample.start = Some (Py.Raise e, st')
    /\ (In (Py.exn_type e)
          [Py.IOError; Py.SoundFormatNotSupported; Py.SystemExit; Py.SoundFileError]
        \/ exists cmd s, fst (Builder.shellCall Cases.locked cmd s) = Py.Raise e)
    /\ (Builder.encoder_starts Cases.locked ->
        In (Py.exn_type e)
          [Py.IOError; Py.SoundFormatNotSupported; Py.SystemExit; Py.SoundFileError]).
Proof.
  eexists. eexists. split; [vm_compute; reflexivity|].
  eapply (@builder_raises_only nat Cases.locked true 5 "speech_clip.wav" Opt.defaults
           Sample.start).
  vm_compute. reflexivity.
Defined.

(** X15 on a wav file and options that ask for twenty results. *)
Lemma request_of_options_witness :
  let pf := Sample.machine (Some 1) in
  let opt := Opt.set_results 20 Opt.defaults in
  exists gs st',
    Builder.GoogleSpeech_init pf true 5 "speech_clip.wav" opt Sample.start
    = Some (Py.Ok gs, st')
    /\ Builder.timeout gs = Opt.timeout opt /\ Builder.file gs = "speech_clip.wav"
    /\ url (Builder.request gs)
       = "https://www.google.com/speech-api/v1/recognize?xjerr=1&client=psychopy2&lang="
         ++ Opt.lang opt ++ "&pfilter=" ++ Py.fmt_d (Opt.pro_filter opt)
         ++ "&maxresults=5"
    /\ Builder.header_given "User-Agent" (Builder.request gs) = Some Builder.useragent
    /\ exists p s, fst (Builder.read pf p s) = Some (data (Builder.request gs)).
Proof.
  intros pf opt. eexists. eexists. split; [vm_compute; reflexivity|].
  eapply (@request_of_options nat pf true 5 "speech_clip.wav" opt Sample.start).
  vm_compute. reflexivity.
Defined.
